(** * Morpho-on-Solana web client: amount parsing, market ids, token
      account resolution and transaction assembly

    A shallow embedding of [frontend/src/lib/anchor/client.ts],
    [frontend/src/lib/anchor/transactions.ts], of the supply, wrap,
    repay, flash-loan and position-creation flows of
    [frontend/src/app/markets/[marketId]/page.tsx], of the liquidation
    flow, of the position lookup of the hooks and of the key field of
    the admin page.

    JavaScript values are modelled as follows.
    - A string is the list of its UTF-16 code units ([jsstring]).
    - A [Buffer] is a list of bytes, each an integer in [0, 256).
    - A [BN] and a [bigint] are the integers they denote.
    - A function that may throw returns a [result]; an [async] function
      that talks to the RPC node, the wallet or the UI returns a [result]
      together with the trace of the calls it made, in order. *)

From Stdlib Require Import String Ascii.
From Stdlib Require Import ZArith List Bool Lia QArith Qround.
Import ListNotations.
Close Scope Q_scope.
Open Scope Z_scope.

(* ================================================================== *)
(** ** Strings *)
(* ================================================================== *)

Abbreviation code_unit := Z (only parsing).
Abbreviation jsstring := (list Z) (only parsing).

(** A literal of the source, as code units. *)
Definition js (s : string) : jsstring :=
  map (fun a => Z.of_N (N_of_ascii a)) (list_ascii_of_string s).

(** ECMAScript [WhiteSpace] and [LineTerminator]: what [trim] strips and
    what [\s] matches. *)
Definition is_ws (c : code_unit) : bool :=
  ((9 <=? c) && (c <=? 13))
  || (c =? 32) || (c =? 160) || (c =? 5760)
  || ((8192 <=? c) && (c <=? 8202))
  || (c =? 8232) || (c =? 8233) || (c =? 8239) || (c =? 8287)
  || (c =? 12288) || (c =? 65279).

(** [\d] without the unicode flag: ASCII digits only. *)
Definition is_digit (c : code_unit) : bool := (48 <=? c) && (c <=? 57).

Fixpoint dropWhile (p : code_unit -> bool) (s : jsstring) : jsstring :=
  match s with
  | [] => []
  | c :: r => if p c then dropWhile p r else s
  end.

Definition trimStart (s : jsstring) : jsstring := dropWhile is_ws s.
Definition trimEnd (s : jsstring) : jsstring := rev (dropWhile is_ws (rev s)).
(** [String.prototype.trim]. *)
Definition trim (s : jsstring) : jsstring := trimEnd (trimStart s).

(** [s.split(sep)] for a one-character separator. *)
Fixpoint split_on (sep : code_unit) (s : jsstring) : list jsstring :=
  match s with
  | [] => [[]]
  | c :: r =>
      if c =? sep then [] :: split_on sep r
      else match split_on sep r with
           | h :: t => (c :: h) :: t
           | [] => [[c]]
           end
  end.

(** [s.padEnd(targetLength, fill)] for a one-character fill string. *)
Definition padEnd (s : jsstring) (targetLength : Z) (fill : code_unit) : jsstring :=
  s ++ repeat fill (Z.to_nat (targetLength - Z.of_nat (length s))).

(** [s.slice(0, e)]: a negative [e] counts from the end. *)
Definition slice0 (s : jsstring) (e : Z) : jsstring :=
  let len := Z.of_nat (length s) in
  let stop := if e <? 0 then Z.max (len + e) 0 else Z.min e len in
  firstn (Z.to_nat stop) s.

(** [hay.startsWith(needle)]. *)
Fixpoint startsWith (needle hay : jsstring) : bool :=
  match needle, hay with
  | [], _ => true
  | _ :: _, [] => false
  | a :: n', b :: h' => (a =? b) && startsWith n' h'
  end.

(** [hay.includes(needle)]. *)
Fixpoint includes (needle hay : jsstring) : bool :=
  startsWith needle hay
  || match hay with
     | [] => false
     | _ :: h' => includes needle h'
     end.

(** [parts.join(sep)]. *)
Fixpoint join (sep : jsstring) (parts : list jsstring) : jsstring :=
  match parts with
  | [] => []
  | [p] => p
  | p :: rest => p ++ sep ++ join sep rest
  end.

(* ================================================================== *)
(** ** Thrown values and results *)
(* ================================================================== *)

Inductive ErrorClass :=
| Error_            (* new Error(...) *)
| RangeError_
| SyntaxError_
| TypeError_
| TokenOwnerOffCurveError_.

(** The [logs] property of a thrown object: absent, or present with a
    value that is [undefined]/[null] ([None]) or an array of lines. *)
Inductive LogsField :=
| NoLogsField
| HasLogsField (v : option (list jsstring)).

(** What a [catch] clause can receive.  [SendTransactionErrorObject] is
    web3.js's subclass of [Error]; [getLogs] is what
    [error.getLogs(connection)] settles to: the log lines, or another
    thrown value when the lookup is rejected. *)
Inductive Thrown :=
| ErrorObject (cls : ErrorClass) (message : jsstring) (logs : LogsField)
| SendTransactionErrorObject (message : jsstring) (getLogs : LogsLookup)
| OtherObject (logs : LogsField)
| NonObject (v : jsstring)
with LogsLookup :=
| Resolved (lines : list jsstring)
| Rejected (e : Thrown).

(** [new Error(msg)]. *)
Definition new_Error (msg : string) : Thrown :=
  ErrorObject Error_ (js msg) NoLogsField.

Inductive result (A : Type) :=
| Ok (a : A)
| Throw (e : Thrown).
Arguments Ok {A} a.
Arguments Throw {A} e.

Definition rbind {A B} (m : result A) (f : A -> result B) : result B :=
  match m with
  | Ok a => f a
  | Throw e => Throw e
  end.

Declare Scope result_scope.
Delimit Scope result_scope with result.
Notation "'let?' x ':=' m 'in' k" := (rbind m (fun x => k))
  (at level 10, x name, m at level 100, k at level 200) : result_scope.
Open Scope result_scope.

(* ================================================================== *)
(** ** Regular expressions *)
(* ================================================================== *)

(** The two patterns of the source are anchored at both ends and carry
    no flag, so [re.test(s)] asks whether the whole of [s] belongs to
    the pattern's language.  Membership is decided with derivatives. *)
Module Regex.

Inductive re :=
| Void
| Eps
| Class (p : code_unit -> bool)
| Cat (r1 r2 : re)
| Alt (r1 r2 : re)
| Star (r : re).

(** [r+] and [(r)?]. *)
Definition Plus (r : re) : re := Cat r (Star r).
Definition Opt (r : re) : re := Alt r Eps.

Fixpoint nullable (r : re) : bool :=
  match r with
  | Void => false
  | Eps => true
  | Class _ => false
  | Cat r1 r2 => nullable r1 && nullable r2
  | Alt r1 r2 => nullable r1 || nullable r2
  | Star _ => true
  end.

Fixpoint deriv (c : code_unit) (r : re) : re :=
  match r with
  | Void => Void
  | Eps => Void
  | Class p => if p c then Eps else Void
  | Cat r1 r2 =>
      if nullable r1 then Alt (Cat (deriv c r1) r2) (deriv c r2)
      else Cat (deriv c r1) r2
  | Alt r1 r2 => Alt (deriv c r1) (deriv c r2)
  | Star r1 => Cat (deriv c r1) (Star r1)
  end.

Fixpoint test (r : re) (s : jsstring) : bool :=
  match s with
  | [] => nullable r
  | c :: s' => test (deriv c r) s'
  end.

(** The language of a pattern, as a relation. *)
Inductive Matches : re -> jsstring -> Prop :=
| MEps : Matches Eps []
| MClass p c : p c = true -> Matches (Class p) [c]
| MCat r1 r2 s1 s2 :
    Matches r1 s1 -> Matches r2 s2 -> Matches (Cat r1 r2) (s1 ++ s2)
| MAltL r1 r2 s : Matches r1 s -> Matches (Alt r1 r2) s
| MAltR r1 r2 s : Matches r2 s -> Matches (Alt r1 r2) s
| MStarNil r : Matches (Star r) []
| MStarCons r s1 s2 :
    Matches r s1 -> Matches (Star r) s2 -> Matches (Star r) (s1 ++ s2).

End Regex.

Definition digit_class : Regex.re := Regex.Class is_digit.
Definition dot_class : Regex.re := Regex.Class (Z.eqb 46).

(** [/^\d+(\.\d+)?$/] *)
Definition decimal_re : Regex.re :=
  Regex.Cat (Regex.Plus digit_class)
            (Regex.Opt (Regex.Cat dot_class (Regex.Plus digit_class))).

(** [/^\d+$/] *)
Definition integer_re : Regex.re := Regex.Plus digit_class.

(* ================================================================== *)
(** ** Big integers: [BigInt] and bn.js's [BN] *)
(* ================================================================== *)

Abbreviation bigint := Z (only parsing).
Abbreviation BN := Z (only parsing).

(** The value of a digit in a radix up to 16, [None] for any other
    code unit. *)
Definition digit_in (radix : Z) (c : code_unit) : option Z :=
  let v :=
    if is_digit c then c - 48
    else if (97 <=? c) && (c <=? 102) then c - 87
    else if (65 <=? c) && (c <=? 70) then c - 55
    else radix in
  if v <? radix then Some v else None.

Fixpoint digits_in (radix : Z) (s : jsstring) (acc : Z) : option Z :=
  match s with
  | [] => Some acc
  | c :: r =>
      match digit_in radix c with
      | Some v => digits_in radix r (acc * radix + v)
      | None => None
      end
  end.

(** A non-empty run of digits. *)
Definition numeral_in (radix : Z) (s : jsstring) : option Z :=
  match s with
  | [] => None
  | _ => digits_in radix s 0
  end.

(** ECMAScript [StringToBigInt]: white space is trimmed, the empty
    string is zero, a decimal numeral may carry a sign, a [0x], [0o] or
    [0b] numeral may not. *)
Definition StringToBigInt (s : jsstring) : option bigint :=
  match trim s with
  | [] => Some 0
  | [c] => numeral_in 10 [c]
  | c0 :: c1 :: rest =>
      if (c0 =? 48) && ((c1 =? 120) || (c1 =? 88)) then numeral_in 16 rest
      else if (c0 =? 48) && ((c1 =? 111) || (c1 =? 79)) then numeral_in 8 rest
      else if (c0 =? 48) && ((c1 =? 98) || (c1 =? 66)) then numeral_in 2 rest
      else if c0 =? 45 then option_map Z.opp (numeral_in 10 (c1 :: rest))
      else if c0 =? 43 then numeral_in 10 (c1 :: rest)
      else numeral_in 10 (c0 :: c1 :: rest)
  end.

(** [BigInt(s)] for a string [s]. *)
Definition BigInt_of_string (s : jsstring) : result bigint :=
  match StringToBigInt s with
  | Some v => Ok v
  | None =>
      Throw (ErrorObject SyntaxError_ (js "Cannot convert string to a BigInt")
                         NoLogsField)
  end.

(** [b ** e] on bigints: a negative exponent is a [RangeError]. *)
Definition BigInt_pow (b e : bigint) : result bigint :=
  if e <? 0 then
    Throw (ErrorObject RangeError_ (js "Exponent must be non-negative")
                       NoLogsField)
  else Ok (b ^ e).

Fixpoint decimal_digits (fuel : nat) (n : Z) (acc : jsstring) : jsstring :=
  match fuel with
  | O => acc
  | S k =>
      let acc' := (48 + n mod 10) :: acc in
      if n <? 10 then acc' else decimal_digits k (n / 10) acc'
  end.

(** [n.toString()] on a bigint. *)
Definition BigInt_toString (n : bigint) : jsstring :=
  let m := Z.abs n in
  let ds := decimal_digits (S (Z.to_nat (Z.log2 m))) m [] in
  if n <? 0 then 45 :: ds else ds.

(** [new BN(s)] for a string, radix 10: bn.js removes white space, reads
    an optional leading minus sign and asserts that every other
    character is a digit of the radix. *)
Definition BN_of_string (s : jsstring) : result BN :=
  let t := filter (fun c => negb (is_ws c)) s in
  let (neg, body) :=
    match t with
    | c :: r => if c =? 45 then (true, r) else (false, t)
    | [] => (false, t)
    end in
  match digits_in 10 body 0 with
  | Some v => Ok (if neg then - v else v)
  | None => Throw (new_Error "Invalid character")
  end.

(* ================================================================== *)
(** ** Amount parsing (transactions.ts) *)
(* ================================================================== *)

(** [a || b] on strings: the empty string is falsy. *)
Definition or_else (a b : jsstring) : jsstring :=
  match a with
  | [] => b
  | _ => a
  end.

Definition parseTokenAmount (amount : jsstring) (decimals : Z) : result BN :=
  let normalized := trim amount in
  match normalized with
  | [] => Ok 0
  | _ =>
      if negb (Regex.test decimal_re normalized) then
        Throw (new_Error "Invalid amount format")
      else
        let parts := split_on 46 normalized in
        let whole := nth 0 parts [] in
        let fraction := nth 1 parts [] in
        let paddedFraction := slice0 (padEnd fraction decimals 48) decimals in
        let? base := BigInt_pow 10 decimals in
        let? w := BigInt_of_string (or_else whole (js "0")) in
        let? f := BigInt_of_string (or_else paddedFraction (js "0")) in
        let raw := w * base + f in
        BN_of_string (BigInt_toString raw)
  end.

Definition parseIntegerAmount (amount : jsstring) : result BN :=
  let normalized := trim amount in
  if negb (Regex.test integer_re normalized) then
    Throw (new_Error "Invalid integer amount")
  else BN_of_string normalized.

(* ================================================================== *)
(** ** Buffers and hexadecimal text *)
(* ================================================================== *)

(** The low [n] bytes of [m], least significant first. *)
Definition le_bytes (n : nat) (m : Z) : list Z :=
  map (fun i => (m / 2 ^ (8 * Z.of_nat i)) mod 256) (seq 0 n).

(** The low [n] bytes of [m], most significant first. *)
Definition be_bytes (n : nat) (m : Z) : list Z := rev (le_bytes n m).

Definition le_value (bs : list Z) : Z :=
  fold_right (fun b acc => b + 256 * acc) 0 bs.

Definition be_value (bs : list Z) : Z := le_value (rev bs).

Definition is_byte (b : Z) : Prop := 0 <= b < 256.

Definition hex_digit (n : Z) : code_unit := if n <? 10 then 48 + n else 87 + n.

(** Lower-case hexadecimal text of a byte sequence, two digits a byte. *)
Definition hex_encode (bs : list Z) : jsstring :=
  flat_map (fun b => [hex_digit (b / 16); hex_digit (b mod 16)]) bs.

(** [Buffer.from(s, 'hex')]: pairs of hexadecimal digits are decoded
    until the text ends or a pair is not hexadecimal. *)
Fixpoint Buffer_from_hex (s : jsstring) : list Z :=
  match s with
  | a :: b :: r =>
      match digit_in 16 a, digit_in 16 b with
      | Some x, Some y => (16 * x + y) :: Buffer_from_hex r
      | _, _ => []
      end
  | _ => []
  end.

(* ================================================================== *)
(** ** Keccak-256 (js-sha3's [keccak256]) *)
(* ================================================================== *)

(** The sponge of the Keccak submission with rate 1088, capacity 512 and
    the original padding (first pad byte [0x01]), over a state of 25
    lanes of 64 bits; lane [(x, y)] is at index [x + 5 * y]. *)
Module Keccak.

Definition w64 (x : Z) : Z := Z.land x (Z.ones 64).

Definition rotl64 (x n : Z) : Z :=
  w64 (Z.lor (Z.shiftl x n) (Z.shiftr x (64 - n))).

Definition round_constants : list Z :=
  [ 0x0000000000000001; 0x0000000000008082; 0x800000000000808a;
    0x8000000080008000; 0x000000000000808b; 0x0000000080000001;
    0x8000000080008081; 0x8000000000008009; 0x000000000000008a;
    0x0000000000000088; 0x0000000080008009; 0x000000008000000a;
    0x000000008000808b; 0x800000000000008b; 0x8000000000008089;
    0x8000000000008003; 0x8000000000008002; 0x8000000000000080;
    0x000000000000800a; 0x800000008000000a; 0x8000000080008081;
    0x8000000000008080; 0x0000000080000001; 0x8000000080008008 ].

Definition rotation_offsets : list Z :=
  [ 0; 1; 62; 28; 27;  36; 44; 6; 55; 20;  3; 10; 43; 25; 39;
    41; 45; 15; 21; 8;  18; 2; 61; 56; 14 ].

Definition lane (st : list Z) (i : nat) : Z := nth i st 0.

Definition column (st : list Z) (x : nat) : Z :=
  Z.lxor (lane st x)
    (Z.lxor (lane st (x + 5))
       (Z.lxor (lane st (x + 10))
          (Z.lxor (lane st (x + 15)) (lane st (x + 20))))).

Definition theta (st : list Z) : list Z :=
  let d x := Z.lxor (column st ((x + 4) mod 5))
                    (rotl64 (column st ((x + 1) mod 5)) 1) in
  map (fun i => Z.lxor (lane st i) (d (i mod 5)%nat)) (seq 0 25).

(** Lane [(x, y)] moves to [(y, 2x + 3y)], rotated by its offset; read
    backwards, the lane at [(X, Y)] comes from [(X + 3Y, X)]. *)
Definition rho_pi (st : list Z) : list Z :=
  map (fun j =>
         let i := (((j mod 5) + 3 * (j / 5)) mod 5 + 5 * (j mod 5))%nat in
         rotl64 (lane st i) (nth i rotation_offsets 0))
      (seq 0 25).

Definition chi (st : list Z) : list Z :=
  map (fun i =>
         let x := (i mod 5)%nat in
         let y := (i / 5)%nat in
         Z.lxor (lane st i)
           (Z.land (Z.lxor (lane st ((x + 1) mod 5 + 5 * y)) (Z.ones 64))
                   (lane st ((x + 2) mod 5 + 5 * y))))
      (seq 0 25).

Definition iota (rc : Z) (st : list Z) : list Z :=
  match st with
  | a :: r => Z.lxor a rc :: r
  | [] => []
  end.

Definition round (st : list Z) (rc : Z) : list Z :=
  iota rc (chi (rho_pi (theta st))).

Definition permute (st : list Z) : list Z := fold_left round round_constants st.

Definition rate : nat := 136.

(** [pad10*1] after the domain byte [0x01]. *)
Definition pad (msg : list Z) : list Z :=
  let q := (rate - length msg mod rate)%nat in
  match q with
  | 1%nat => msg ++ [0x81]
  | _ => msg ++ [0x01] ++ repeat 0 (q - 2) ++ [0x80]
  end.

Definition xor_block (st block : list Z) : list Z :=
  map (fun i =>
         if (i <? 17)%nat
         then Z.lxor (lane st i) (le_value (firstn 8 (skipn (8 * i) block)))
         else lane st i)
      (seq 0 25).

Fixpoint absorb (blocks : nat) (st data : list Z) : list Z :=
  match blocks with
  | O => st
  | S k => absorb k (permute (xor_block st (firstn rate data))) (skipn rate data)
  end.

Definition squeeze (st : list Z) : list Z :=
  map (fun i => (lane st (i / 8) / 2 ^ (8 * Z.of_nat (i mod 8))) mod 256)
      (seq 0 32).

Definition digest (msg : list Z) : list Z :=
  let p := pad msg in
  squeeze (absorb (length p / rate) (repeat 0 25) p).

End Keccak.

(** [keccak256(data)] of js-sha3: the digest as lower-case hexadecimal
    text. *)
Definition keccak256 (data : list Z) : jsstring :=
  hex_encode (Keccak.digest data).

(* ================================================================== *)
(** ** [BN] from a number, and public keys *)
(* ================================================================== *)

(** [new BN(n)] for a JavaScript number holding the integer [n]: bn.js
    asserts that the magnitude is below [2^53]. *)
Definition BN_of_number (n : Z) : result BN :=
  if Z.abs n <? 2 ^ 53 then Ok n else Throw (new_Error "Assertion failed").

(** [bn.byteLength()]: the bytes the magnitude needs, 0 for zero. *)
Definition BN_byteLength (v : BN) : Z :=
  let m := Z.abs v in
  if m =? 0 then 0 else Z.log2 m / 8 + 1.

(** [bn.toArrayLike(Buffer, 'le', len)] for a positive [len]: the
    magnitude, least significant byte first, zero-padded to [len] bytes;
    the sign is not written. *)
Definition BN_toArrayLike_le (v : BN) (len : nat) : result (list Z) :=
  if Z.of_nat len <? BN_byteLength v then
    Throw (new_Error "byte array longer than desired length")
  else Ok (le_bytes len (Z.abs v)).

(** A web3.js [PublicKey] wraps the big number [_bn], which its
    constructor keeps below [2^256]. *)
Record PublicKey := mkPublicKey { pk_bn : Z }.

(** [key.toBuffer()]: 32 bytes, most significant first. *)
Definition toBuffer (k : PublicKey) : list Z := be_bytes 32 (pk_bn k).

(** [a.equals(b)]. *)
Definition equals (a b : PublicKey) : bool := pk_bn a =? pk_bn b.

(** [new PublicKey(bytes)] for a byte array: the big-endian number,
    refused when it needs more than 32 bytes. *)
Definition PublicKey_of_bytes (bs : list Z) : result PublicKey :=
  if 32 <? BN_byteLength (be_value bs)
  then Throw (new_Error "Invalid public key input")
  else Ok (mkPublicKey (be_value bs)).

(* ================================================================== *)
(** ** Market id (client.ts) *)
(* ================================================================== *)

Definition calculateMarketId
  (collateralMint loanMint oracle irm : PublicKey) (lltv : Z)
  : result (list Z) :=
  let? bn := BN_of_number lltv in
  let? lltvBuffer := BN_toArrayLike_le bn 8 in
  let data := concat [ toBuffer collateralMint; toBuffer loanMint;
                       toBuffer oracle; toBuffer irm; lltvBuffer ] in
  Ok (Buffer_from_hex (keccak256 data)).

(** [Array.from(marketId)]. *)
Definition marketIdToArray (marketId : list Z) : list Z := marketId.

(* ================================================================== *)
(** ** SHA-256 (the hash behind program-derived addresses) *)
(* ================================================================== *)

Module Sha256.

Definition w32 (x : Z) : Z := x mod 2 ^ 32.

Definition rotr (x n : Z) : Z :=
  w32 (Z.lor (Z.shiftr x n) (Z.shiftl x (32 - n))).

Definition choose (x y z : Z) : Z :=
  Z.lxor (Z.land x y) (Z.land (Z.lxor x (Z.ones 32)) z).

Definition majority (x y z : Z) : Z :=
  Z.lxor (Z.land x y) (Z.lxor (Z.land x z) (Z.land y z)).

Definition big_sigma0 (x : Z) : Z :=
  Z.lxor (rotr x 2) (Z.lxor (rotr x 13) (rotr x 22)).
Definition big_sigma1 (x : Z) : Z :=
  Z.lxor (rotr x 6) (Z.lxor (rotr x 11) (rotr x 25)).
Definition small_sigma0 (x : Z) : Z :=
  Z.lxor (rotr x 7) (Z.lxor (rotr x 18) (Z.shiftr x 3)).
Definition small_sigma1 (x : Z) : Z :=
  Z.lxor (rotr x 17) (Z.lxor (rotr x 19) (Z.shiftr x 10)).

Definition is_prime (n : nat) : bool :=
  forallb (fun d => negb (n mod d =? 0)%nat) (seq 2 (n - 2)).

(** The first 64 primes. *)
Definition primes : list Z :=
  Eval vm_compute in map Z.of_nat (firstn 64 (filter is_prime (seq 2 400))).

(** The integer cube root of a number below [2^120]. *)
Definition cube_root (n : Z) : Z :=
  fold_left (fun r bit =>
               let r' := r + 2 ^ Z.of_nat bit in
               if r' * r' * r' <=? n then r' else r)
            (rev (seq 0 40)) 0.

(** The first 32 bits of the fractional parts of the cube roots of the
    first 64 primes, and of the square roots of the first 8. *)
Definition round_constants : list Z :=
  Eval vm_compute in map (fun p => w32 (cube_root (p * 2 ^ 96))) primes.

Definition initial_hash : list Z :=
  Eval vm_compute in map (fun p => w32 (Z.sqrt (p * 2 ^ 64))) (firstn 8 primes).

Definition pad (msg : list Z) : list Z :=
  let l := length msg in
  let zeros := ((119 - l mod 64) mod 64)%nat in
  msg ++ [0x80] ++ repeat 0 zeros ++ be_bytes 8 (8 * Z.of_nat l).

Fixpoint extend (n : nat) (w : list Z) : list Z :=
  match n with
  | O => w
  | S k =>
      let t := length w in
      let x i := nth (t - i) w 0 in
      extend k (w ++ [w32 (small_sigma1 (x 2%nat) + x 7%nat
                           + small_sigma0 (x 15%nat) + x 16%nat)])
  end.

Definition schedule (block : list Z) : list Z :=
  extend 48 (map (fun i => be_value (firstn 4 (skipn (4 * i) block))) (seq 0 16)).

Definition step (s : list Z) (kw : Z * Z) : list Z :=
  match s with
  | [a; b; c; d; e; f; g; h] =>
      let t1 := h + big_sigma1 e + choose e f g + fst kw + snd kw in
      let t2 := big_sigma0 a + majority a b c in
      [w32 (t1 + t2); a; b; c; w32 (d + t1); e; f; g]
  | _ => s
  end.

Definition compress (h block : list Z) : list Z :=
  let s := fold_left step (combine round_constants (schedule block)) h in
  map (fun xy => w32 (fst xy + snd xy)) (combine h s).

Fixpoint absorb (blocks : nat) (h data : list Z) : list Z :=
  match blocks with
  | O => h
  | S k => absorb k (compress h (firstn 64 data)) (skipn 64 data)
  end.

Definition digest (msg : list Z) : list Z :=
  let p := pad msg in
  flat_map (be_bytes 4) (absorb (length p / 64) initial_hash p).

End Sha256.

Definition sha256 (data : list Z) : list Z := Sha256.digest data.

(* ================================================================== *)
(** ** Ed25519 point decoding ([PublicKey.isOnCurve]) *)
(* ================================================================== *)

Module Ed25519.

Definition p : Z := 2 ^ 255 - 19.

(** [x mod p] for [0 <= x < 2^510], by folding the bits above the
    255th back in: [2^255] is 19 modulo [p]. *)
Definition reduce (x : Z) : Z :=
  let x1 := Z.land x (Z.ones 255) + 19 * Z.shiftr x 255 in
  let x2 := Z.land x1 (Z.ones 255) + 19 * Z.shiftr x1 255 in
  if p <=? x2 then x2 - p else x2.

(** [b ^ e] modulo [p], by squaring. *)
Fixpoint pow_p (b : Z) (e : positive) : Z :=
  match e with
  | xH => reduce b
  | xO e' => let r := pow_p b e' in reduce (r * r)
  | xI e' => let r := pow_p b e' in reduce (reduce (r * r) * b)
  end.

Definition inv (a : Z) : Z := pow_p a (Z.to_pos (p - 2)).

(** The curve constant [d = -121665 / 121666]. *)
Definition d : Z := Eval vm_compute in ((- 121665) * inv 121666) mod p.

(** Whether 32 bytes decode to a point of the curve
    [-x^2 + y^2 = 1 + d x^2 y^2]: the low 255 bits, read little-endian,
    are [y]; [y] must be below [p]; [x^2 = (y^2 - 1) / (d y^2 + 1)] must
    have a square root, which Euler's criterion decides; and the root 0
    may not carry the sign bit. *)
Definition decodes (bs : list Z) : bool :=
  let n := le_value bs in
  let y := n mod 2 ^ 255 in
  let sign := n / 2 ^ 255 in
  if p <=? y then false
  else
    let y2 := reduce (y * y) in
    let u := (y2 - 1) mod p in
    let v := (d * y2 + 1) mod p in
    let euler := pow_p (reduce (u * v)) (Z.to_pos ((p - 1) / 2)) in
    if euler =? 0 then sign =? 0
    else euler =? 1.

End Ed25519.

(** [PublicKey.isOnCurve(bytes)]. *)
Definition isOnCurve (bs : list Z) : bool := Ed25519.decodes bs.

(* ================================================================== *)
(** ** Base58 addresses *)
(* ================================================================== *)

Definition base58_alphabet : jsstring :=
  js "123456789ABCDEFGHJKLMNPQRSTUVWXYZabcdefghijkmnopqrstuvwxyz".

Fixpoint index_of (c : code_unit) (l : jsstring) (i : Z) : option Z :=
  match l with
  | [] => None
  | x :: r => if x =? c then Some i else index_of c r (i + 1)
  end.

Fixpoint base58_value (s : jsstring) (acc : Z) : option Z :=
  match s with
  | [] => Some acc
  | c :: r =>
      match index_of c base58_alphabet 0 with
      | Some v => base58_value r (acc * 58 + v)
      | None => None
      end
  end.

(** [bs58.decode(s)]: one zero byte for each leading ['1'], then the
    bytes of the number the remaining characters spell in base 58. *)
Definition base58_decode (s : jsstring) : option (list Z) :=
  match base58_value s 0 with
  | Some v =>
      Some (repeat 0 (length s - length (dropWhile (Z.eqb 49) s))
            ++ be_bytes (Z.to_nat (BN_byteLength v)) v)
  | None => None
  end.

(** [new PublicKey(s)] for a base58 string: exactly 32 bytes. *)
Definition PublicKey_of_string (s : jsstring) : result PublicKey :=
  match base58_decode s with
  | Some bs =>
      if (length bs =? 32)%nat then PublicKey_of_bytes bs
      else Throw (new_Error "Invalid public key input")
  | None => Throw (new_Error "Non-base58 character")
  end.

(** The key of an address written in the source or in the token
    library; each of them is well formed. *)
Definition address (s : string) : PublicKey :=
  match PublicKey_of_string (js s) with
  | Ok k => k
  | Throw _ => mkPublicKey 0
  end.

(** client.ts *)
Definition MORPHO_PROGRAM_ID : PublicKey :=
  Eval vm_compute in address "9qYe29CskmZ1mcuLLFcQXovfbqXBqLsXpg4y7Rfk9NsE".

(** @solana/spl-token and @solana/web3.js *)
Definition TOKEN_PROGRAM_ID : PublicKey :=
  Eval vm_compute in address "TokenkegQfeZyiNwAJbNbGKPFXCWuBvf9Ss623VQ5DA".
Definition TOKEN_2022_PROGRAM_ID : PublicKey :=
  Eval vm_compute in address "TokenzQdBNbLqP5VEhdkAS6EPFLC1PHnBqCXEpPxuEb".
Definition ASSOCIATED_TOKEN_PROGRAM_ID : PublicKey :=
  Eval vm_compute in address "ATokenGPvbdGVxr1b2hvZbsiqW5xWH25efTNsLJA8knL".
Definition SYSTEM_PROGRAM_ID : PublicKey :=
  Eval vm_compute in address "11111111111111111111111111111111".

(* ================================================================== *)
(** ** Program-derived addresses (web3.js and client.ts) *)
(* ================================================================== *)

Definition MAX_SEED_LENGTH : nat := 32.

(** [PublicKey.createProgramAddressSync(seeds, programId)]. *)
Definition createProgramAddressSync
  (seeds : list (list Z)) (programId : PublicKey) : result PublicKey :=
  if existsb (fun seed => (MAX_SEED_LENGTH <? length seed)%nat) seeds then
    Throw (ErrorObject TypeError_ (js "Max seed length exceeded") NoLogsField)
  else
    let buffer := concat seeds ++ toBuffer programId
                  ++ js "ProgramDerivedAddress" in
    let publicKeyBytes := sha256 buffer in
    if isOnCurve publicKeyBytes then
      Throw (new_Error "Invalid seeds, address must fall off the curve")
    else PublicKey_of_bytes publicKeyBytes.

Definition is_TypeError (e : Thrown) : bool :=
  match e with
  | ErrorObject TypeError_ _ _ => true
  | _ => false
  end.

(** The loop of [findProgramAddressSync], from [nonce] down to 1. *)
Fixpoint find_nonce (nonce : nat) (seeds : list (list Z)) (programId : PublicKey)
  : result (PublicKey * Z) :=
  match nonce with
  | O => Throw (new_Error "Unable to find a viable program address nonce")
  | S k =>
      match createProgramAddressSync
              (seeds ++ [[Z.of_nat nonce]]) programId with
      | Ok a => Ok (a, Z.of_nat nonce)
      | Throw e =>
          if is_TypeError e then Throw e else find_nonce k seeds programId
      end
  end.

(** [PublicKey.findProgramAddressSync(seeds, programId)]. *)
Definition findProgramAddressSync
  (seeds : list (list Z)) (programId : PublicKey) : result (PublicKey * Z) :=
  find_nonce 255 seeds programId.

Definition PROGRAM_SEED_PREFIX : list Z := js "morpho_v1".
Definition PROTOCOL_STATE_SEED : list Z := js "morpho_protocol".
Definition MARKET_SEED : list Z := js "morpho_market".
Definition POSITION_SEED : list Z := js "morpho_position".
Definition LOAN_VAULT_SEED : list Z := js "morpho_loan_vault".
Definition COLLATERAL_VAULT_SEED : list Z := js "morpho_collateral_vault".
Definition AUTHORIZATION_SEED : list Z := js "morpho_authorization".

Definition getProtocolStatePDA : result (PublicKey * Z) :=
  findProgramAddressSync [PROGRAM_SEED_PREFIX; PROTOCOL_STATE_SEED]
                         MORPHO_PROGRAM_ID.

Definition getMarketPDA (marketId : list Z) : result (PublicKey * Z) :=
  findProgramAddressSync [PROGRAM_SEED_PREFIX; MARKET_SEED; marketId]
                         MORPHO_PROGRAM_ID.

Definition getPositionPDA (marketId : list Z) (owner : PublicKey)
  : result (PublicKey * Z) :=
  findProgramAddressSync
    [PROGRAM_SEED_PREFIX; POSITION_SEED; marketId; toBuffer owner]
    MORPHO_PROGRAM_ID.

Definition getLoanVaultPDA (marketId : list Z) : result (PublicKey * Z) :=
  findProgramAddressSync [PROGRAM_SEED_PREFIX; LOAN_VAULT_SEED; marketId]
                         MORPHO_PROGRAM_ID.

Definition getCollateralVaultPDA (marketId : list Z) : result (PublicKey * Z) :=
  findProgramAddressSync [PROGRAM_SEED_PREFIX; COLLATERAL_VAULT_SEED; marketId]
                         MORPHO_PROGRAM_ID.

Definition getAuthorizationPDA (authorizer authorized : PublicKey)
  : result (PublicKey * Z) :=
  findProgramAddressSync
    [PROGRAM_SEED_PREFIX; AUTHORIZATION_SEED;
     toBuffer authorizer; toBuffer authorized]
    MORPHO_PROGRAM_ID.

(** [getAssociatedTokenAddressSync(mint, owner, allowOwnerOffCurve,
    programId, associatedTokenProgramId)] of @solana/spl-token. *)
Definition getAssociatedTokenAddressSync
  (mint owner : PublicKey) (allowOwnerOffCurve : bool)
  (programId associatedTokenProgramId : PublicKey) : result PublicKey :=
  if negb allowOwnerOffCurve && negb (isOnCurve (toBuffer owner)) then
    Throw (ErrorObject TokenOwnerOffCurveError_ [] NoLogsField)
  else
    let? found := findProgramAddressSync
                    [toBuffer owner; toBuffer programId; toBuffer mint]
                    associatedTokenProgramId in
    Ok (fst found).

(* ================================================================== *)
(** ** Instructions, transactions and the collaborators *)
(* ================================================================== *)

Record AccountMeta := mkMeta {
  pubkey : PublicKey;
  isSigner : bool;
  isWritable : bool
}.

(** An argument handed to an instruction builder of the program
    client. *)
Inductive Arg :=
| ArgBytes (bs : list Z)
| ArgBN (v : BN)
| ArgKey (k : PublicKey).

(** A [TransactionInstruction].  An instruction of the token library is
    kept as web3.js holds it; an instruction built by the program client
    ([program.methods.name(args).accounts({...}).instruction()]) is kept
    as the call that builds it, its wire form being fixed by the
    program's interface definition ([idl.json]); the calls of the
    handlers are taken at arguments that interface accepts (the market
    id a [u8; 32], each amount within its declared width). *)
Inductive TransactionInstruction :=
| RawInstruction (programId : PublicKey) (keys : list AccountMeta)
    (data : list Z)
| MethodInstruction (name : string) (args : list Arg)
    (accounts : list (string * PublicKey)).

Record Transaction := mkTransaction {
  feePayer : option PublicKey;
  instructions : list TransactionInstruction
}.

Record AccountInfo := mkAccountInfo {
  owner : PublicKey;
  lamports : Z;
  data : list Z;
  executable : bool
}.

(** What answers the client: for each address, the account the RPC
    node reports ([None] when there is none) or the value the lookup
    rejects with when the request itself fails; and the outcome of
    signing and sending a transaction through the wallet and the node (a
    signature, or the value the provider throws). *)
Record Connection := mkConnection {
  accountInfo : PublicKey -> result (option AccountInfo);
  confirm : Transaction -> result jsstring
}.

Record AnchorWallet := mkWallet { publicKey : PublicKey }.

(** The calls an [async] function makes on its collaborators, in the
    order it makes them. *)
Inductive Event :=
| GetAccountInfo (k : PublicKey)
| SendAndConfirm (tx : Transaction)
| GetLogs
| ConsoleError (logs : option (list jsstring))
| SetSubmitting (b : bool)
| SetAmount (v : jsstring)
| ToastLoading (msg : jsstring)
| ToastSuccess (msg description : jsstring)
| ToastError (msg description : jsstring).

(** An [async] computation: the calls made, then the value it resolves
    to or the value it rejects with. *)
Definition Async (A : Type) : Type := list Event * result A.

Definition aret {A} (a : A) : Async A := ([], Ok a).
Definition athrow {A} (e : Thrown) : Async A := ([], Throw e).
Definition emit (ev : Event) : Async unit := ([ev], Ok tt).
Definition lift {A} (r : result A) : Async A := ([], r).

Definition abind {A B} (m : Async A) (f : A -> Async B) : Async B :=
  match snd m with
  | Ok a => (fst m ++ fst (f a), snd (f a))
  | Throw e => (fst m, Throw e)
  end.

(** [try { m } catch (e) { h e }]. *)
Definition try_catch {A} (m : Async A) (h : Thrown -> Async A) : Async A :=
  match snd m with
  | Ok a => m
  | Throw e => (fst m ++ fst (h e), snd (h e))
  end.

(** [try { m } finally { f }] for a [finally] block that does not
    throw. *)
Definition finally {A} (m : Async A) (f : list Event) : Async A :=
  (fst m ++ f, snd m).

Declare Scope async_scope.
Delimit Scope async_scope with async.
Notation "'await' x ':=' m 'in' k" := (abind m (fun x => k))
  (at level 10, x name, m at level 100, k at level 200) : async_scope.
Notation "m ';;' k" := (abind m (fun _ => k))
  (at level 61, right associativity) : async_scope.
Open Scope async_scope.

(** [await connection.getAccountInfo(k)]. *)
Definition rpc_getAccountInfo (connection : Connection) (k : PublicKey)
  : Async (option AccountInfo) :=
  emit (GetAccountInfo k) ;; lift (accountInfo connection k).

(* ================================================================== *)
(** ** Token accounts and positions (transactions.ts) *)
(* ================================================================== *)

Definition getTokenProgramId (connection : Connection) (mint : PublicKey)
  : Async PublicKey :=
  await info := rpc_getAccountInfo connection mint in
  match info with
  | None => athrow (new_Error "Mint account not found")
  | Some i =>
      if equals (owner i) TOKEN_2022_PROGRAM_ID then aret TOKEN_2022_PROGRAM_ID
      else aret TOKEN_PROGRAM_ID
  end.

(** [createAssociatedTokenAccountInstruction] of @solana/spl-token. *)
Definition createAssociatedTokenAccountInstruction
  (payer associatedToken owner mint programId associatedTokenProgramId
   : PublicKey) : TransactionInstruction :=
  RawInstruction associatedTokenProgramId
    [ mkMeta payer true true;
      mkMeta associatedToken false true;
      mkMeta owner false false;
      mkMeta mint false false;
      mkMeta SYSTEM_PROGRAM_ID false false;
      mkMeta programId false false ]
    [].

Record AtaResult := mkAtaResult {
  ata_address : PublicKey;
  ata_tokenProgramId : PublicKey;
  ata_instruction : option TransactionInstruction
}.

Definition getOrCreateAtaIx
  (connection : Connection) (payer owner mint : PublicKey) : Async AtaResult :=
  await tokenProgramId := getTokenProgramId connection mint in
  await ata := lift (getAssociatedTokenAddressSync
                       mint owner false tokenProgramId
                       ASSOCIATED_TOKEN_PROGRAM_ID) in
  await ataInfo := rpc_getAccountInfo connection ata in
  match ataInfo with
  | Some _ => aret (mkAtaResult ata tokenProgramId None)
  | None =>
      let instruction :=
        createAssociatedTokenAccountInstruction
          payer ata owner mint tokenProgramId ASSOCIATED_TOKEN_PROGRAM_ID in
      aret (mkAtaResult ata tokenProgramId (Some instruction))
  end.

Record PositionResult := mkPositionResult {
  positionPda : PublicKey;
  position_instruction : option TransactionInstruction
}.

Definition ensurePositionIx
  (connection : Connection) (marketId : list Z)
  (market owner payer : PublicKey) : Async PositionResult :=
  await derived := lift (getPositionPDA marketId owner) in
  let positionPda := fst derived in
  await info := rpc_getAccountInfo connection positionPda in
  match info with
  | Some _ => aret (mkPositionResult positionPda None)
  | None =>
      let instruction :=
        MethodInstruction "createPosition"
          [ArgBytes (marketIdToArray marketId)]
          [ ("payer", payer); ("owner", owner); ("market", market);
            ("position", positionPda);
            ("systemProgram", SYSTEM_PROGRAM_ID) ]%string in
      aret (mkPositionResult positionPda (Some instruction))
  end.

(* ================================================================== *)
(** ** Sending a transaction (transactions.ts) *)
(* ================================================================== *)

(** [line.replace(/^Program log:\s*/, '')]. *)
Definition strip_log_prefix (line : jsstring) : jsstring :=
  let prefix := js "Program log:" in
  if startsWith prefix line
  then dropWhile is_ws (skipn (length prefix) line)
  else line.

(** [Boolean(x)] for a string or [undefined]: the empty string and
    [undefined] are falsy. *)
Definition truthy (o : option jsstring) : bool :=
  match o with
  | Some (_ :: _) => true
  | _ => false
  end.

(** [a || b]. *)
Definition or_undefined (a b : option jsstring) : option jsstring :=
  if truthy a then a else b.

Definition formatTxLogSummary (logs : option (list jsstring))
  : option jsstring :=
  match logs with
  | None => None
  | Some [] => None
  | Some lines =>
      let instructionLine :=
        find (includes (js "Program log: Instruction:")) lines in
      let anchorLine :=
        or_undefined (find (includes (js "AnchorError")) lines)
          (or_undefined (find (includes (js "Error Code")) lines)
             (find (includes (js "custom program error")) lines)) in
      let parts :=
        map (fun line =>
               match line with
               | Some l => trim (strip_log_prefix l)
               | None => []
               end)
            (filter truthy [instructionLine; anchorLine]) in
      match parts with
      | [] => None
      | _ => Some (join (js " | ") parts)
      end
  end.

(** [error instanceof Error]. *)
Definition instanceof_Error (e : Thrown) : bool :=
  match e with
  | ErrorObject _ _ _ => true
  | SendTransactionErrorObject _ _ => true
  | _ => false
  end.

(** [error.message] of an [Error]. *)
Definition message_of (e : Thrown) : jsstring :=
  match e with
  | ErrorObject _ m _ => m
  | SendTransactionErrorObject m _ => m
  | _ => []
  end.

(** [error.message = m]. *)
Definition set_message (e : Thrown) (m : jsstring) : Thrown :=
  match e with
  | ErrorObject c _ l => ErrorObject c m l
  | SendTransactionErrorObject _ g => SendTransactionErrorObject m g
  | _ => e
  end.

(** The first half of the [catch] block: where the log lines come
    from. *)
Definition logs_of_failure (error : Thrown)
  : Async (option (list jsstring)) :=
  match error with
  | SendTransactionErrorObject _ lookup =>
      emit GetLogs ;;
      match lookup with
      | Resolved lines =>
          emit (ConsoleError (Some lines)) ;; aret (Some lines)
      | Rejected e' => athrow e'
      end
  | ErrorObject _ _ (HasLogsField v) =>
      emit (ConsoleError v) ;; aret v
  | OtherObject (HasLogsField v) =>
      emit (ConsoleError v) ;; aret v
  | _ => aret None
  end.

(** The second half: annotate the error and throw it again. *)
Definition annotate (error : Thrown) (logs : option (list jsstring)) : Thrown :=
  let summary := formatTxLogSummary logs in
  match summary with
  | Some s =>
      if truthy summary && instanceof_Error error
         && negb (includes s (message_of error))
      then set_message error (message_of error ++ js " | " ++ s)
      else error
  | None => error
  end.

Definition sendInstructions
  (connection : Connection) (wallet : AnchorWallet)
  (ixs : list (option TransactionInstruction)) : Async jsstring :=
  let added :=
    flat_map (fun ix => match ix with Some i => [i] | None => [] end) ixs in
  match added with
  | [] => athrow (new_Error "No instructions to send")
  | _ =>
      let tx := mkTransaction (Some (publicKey wallet)) added in
      try_catch
        (emit (SendAndConfirm tx) ;; lift (confirm connection tx))
        (fun error =>
           await logs := logs_of_failure error in
           athrow (annotate error logs))
  end.

(* ================================================================== *)
(** ** The supply flow (markets/[marketId]/page.tsx) *)
(* ================================================================== *)

Record SupplyMarket := mkSupplyMarket {
  loanMint : PublicKey;
  loanDecimals : Z
}.

(** The path of [handleSupply] inside [try]. *)
Definition supply_steps
  (connection : Connection) (wallet : AnchorWallet)
  (market : SupplyMarket) (marketId : list Z) (marketKey : PublicKey)
  (amount : jsstring) : Async unit :=
  let marketIdArray := marketIdToArray marketId in
  await protocolState := lift getProtocolStatePDA in
  await loanVault := lift (getLoanVaultPDA marketId) in
  await ata := getOrCreateAtaIx connection (publicKey wallet)
                 (publicKey wallet) (loanMint market) in
  await position := ensurePositionIx connection marketId marketKey
                      (publicKey wallet) (publicKey wallet) in
  await assets := lift (parseTokenAmount amount (loanDecimals market)) in
  await minShares := lift (parseIntegerAmount (js "0")) in
  let supplyIx :=
    MethodInstruction "supply"
      [ArgBytes marketIdArray; ArgBN assets; ArgBN minShares]
      [ ("supplier", publicKey wallet);
        ("protocolState", fst protocolState);
        ("market", marketKey);
        ("position", positionPda position);
        ("onBehalfOf", publicKey wallet);
        ("supplierTokenAccount", ata_address ata);
        ("loanVault", fst loanVault);
        ("loanMint", loanMint market);
        ("tokenProgram", ata_tokenProgramId ata) ]%string in
  await signature := sendInstructions connection wallet
                       [ata_instruction ata; position_instruction position;
                        Some supplyIx] in
  emit (ToastSuccess (js "Supply submitted") signature) ;;
  emit (SetAmount []).

Definition handleSupply
  (connection : Connection) (wallet : option AnchorWallet)
  (market : SupplyMarket) (marketId : list Z) (marketKey : PublicKey)
  (amount : jsstring) : Async unit :=
  match wallet, amount with
  | None, _ => aret tt
  | Some _, [] => aret tt
  | Some w, _ =>
      emit (SetSubmitting true) ;;
      emit (ToastLoading (js "Submitting supply...")) ;;
      finally
        (try_catch
           (supply_steps connection w market marketId marketKey amount)
           (fun error =>
              emit (ToastError (js "Supply failed")
                      (if instanceof_Error error then message_of error
                       else js "Unknown error"))))
        [SetSubmitting false]
  end.

(** The transactions handed to the wallet in a run. *)
Definition submitted (trace : list Event) : list Transaction :=
  flat_map (fun ev => match ev with SendAndConfirm tx => [tx] | _ => [] end)
           trace.

(** The hashes and the derivations built on them are not unfolded by
    [simpl] and [cbn]. *)
Arguments sha256 : simpl never.
Arguments keccak256 : simpl never.
Arguments isOnCurve : simpl never.
Arguments findProgramAddressSync : simpl never.
Arguments getAssociatedTokenAddressSync : simpl never.
Arguments getProtocolStatePDA : simpl never.
Arguments getLoanVaultPDA : simpl never.
Arguments getPositionPDA : simpl never.
Arguments parseTokenAmount : simpl never.
Arguments parseIntegerAmount : simpl never.
Arguments formatTxLogSummary : simpl never.
Arguments includes : simpl never.
Arguments js : simpl never.

(* ================================================================== *)
(** ** Wrapping SOL (transactions.ts) *)
(* ================================================================== *)

(** [bn.toNumber()]: bn.js refuses a magnitude of more than 53 bits. *)
Definition BN_toNumber (v : BN) : result Z :=
  if Z.abs v <? 2 ^ 53 then Ok v
  else Throw (new_Error "Number can only safely store up to 53 bits").

(** [Number.isSafeInteger(n)] for a number that holds the integer [n]. *)
Definition Number_isSafeInteger (n : Z) : bool := Z.abs n <=? 2 ^ 53 - 1.

(** The mint of wrapped SOL, @solana/spl-token. *)
Definition NATIVE_MINT : PublicKey :=
  Eval vm_compute in address "So11111111111111111111111111111111111111112".

(** [SystemProgram.transfer({ fromPubkey, toPubkey, lamports })] of
    web3.js, for an amount that fits 64 bits: the instruction index 2 as
    32 bits, then the lamports as 64 bits, both little-endian. *)
Definition SystemProgram_transfer
  (fromPubkey toPubkey : PublicKey) (lamports : Z) : TransactionInstruction :=
  RawInstruction SYSTEM_PROGRAM_ID
    [ mkMeta fromPubkey true true;
      mkMeta toPubkey false true ]
    (le_bytes 4 2 ++ le_bytes 8 lamports).

(** [createSyncNativeInstruction(account)] of @solana/spl-token, for
    the classic token program: instruction 17, no arguments. *)
Definition createSyncNativeInstruction (account : PublicKey)
  : TransactionInstruction :=
  RawInstruction TOKEN_PROGRAM_ID [ mkMeta account false true ] [17].

Record WrapResult := mkWrapResult {
  wrap_ata : PublicKey;
  wrap_instructions : list TransactionInstruction
}.

(** [amountLamports] is a number that holds an integer, as
    [bn.toNumber()] returns. *)
Definition buildWrapSolInstructions
  (connection : Connection) (payer owner : PublicKey) (amountLamports : Z)
  : Async WrapResult :=
  if negb (Number_isSafeInteger amountLamports) || (amountLamports <=? 0) then
    athrow (new_Error "Invalid wrap amount")
  else
    await resolved := getOrCreateAtaIx connection payer owner NATIVE_MINT in
    let ata := ata_address resolved in
    let ataIx := ata_instruction resolved in
    let transferIx := SystemProgram_transfer payer ata amountLamports in
    let syncIx := createSyncNativeInstruction ata in
    aret (mkWrapResult ata
            (flat_map (fun ix => match ix with Some i => [i] | None => [] end)
                      [ataIx; Some transferIx; Some syncIx])).

(* ================================================================== *)
(** ** The other actions of the market page (markets/[marketId]/page.tsx) *)
(* ================================================================== *)

(** The calls of the other handlers of the pages: the calls of the
    supply flow, and the state setters and toasts only these handlers
    use. *)
Inductive PageEvent :=
| Core (ev : Event)
| SetWrapping (b : bool)
| SetCreatingPosition (b : bool)
| SetSeizedAmount (v : jsstring)
| ToastErrorOnly (msg : jsstring)
| ToastInfo (msg : jsstring).

Definition Page (A : Type) : Type := list PageEvent * result A.

Definition pret {A} (a : A) : Page A := ([], Ok a).
Definition pemit (ev : PageEvent) : Page unit := ([ev], Ok tt).
Definition plift {A} (r : result A) : Page A := ([], r).

(** A call of a function of transactions.ts. *)
Definition of_async {A} (m : Async A) : Page A := (map Core (fst m), snd m).

Definition pbind {A B} (m : Page A) (f : A -> Page B) : Page B :=
  match snd m with
  | Ok a => (fst m ++ fst (f a), snd (f a))
  | Throw e => (fst m, Throw e)
  end.

(** [try { m } catch (e) { h e } finally { f }], neither [h] nor [f]
    throwing. *)
Definition ptry {A} (m : Page A) (h : Thrown -> Page A) (f : list PageEvent)
  : Page A :=
  match snd m with
  | Ok a => (fst m ++ f, Ok a)
  | Throw e => (fst m ++ fst (h e) ++ f, snd (h e))
  end.

Declare Scope page_scope.
Delimit Scope page_scope with page.
Notation "'await' x ':=' m 'in' k" := (pbind m (fun x => k))
  (at level 10, x name, m at level 100, k at level 200) : page_scope.
Notation "m ';;' k" := (pbind m (fun _ => k))
  (at level 61, right associativity) : page_scope.

(** [error instanceof Error ? error.message : 'Unknown error']. *)
Definition describe (error : Thrown) : jsstring :=
  if instanceof_Error error then message_of error else js "Unknown error".

(** The path of [handleWrapSol] inside [try]. *)
Definition wrap_steps
  (connection : Connection) (wallet : AnchorWallet) (market : SupplyMarket)
  (amount : jsstring) : Page unit :=
  (await lamportsBn := plift (parseTokenAmount amount (loanDecimals market)) in
   await lamports :=
     plift (match BN_toNumber lamportsBn with
            | Ok n => Ok n
            | Throw _ => Throw (new_Error "Amount too large")
            end) in
   await built := of_async (buildWrapSolInstructions connection
                              (publicKey wallet) (publicKey wallet) lamports) in
   await signature := of_async (sendInstructions connection wallet
                                  (map Some (wrap_instructions built))) in
   pemit (Core (ToastSuccess (js "SOL wrapped") signature)))%page.

Definition handleWrapSol
  (connection : Connection) (wallet : option AnchorWallet)
  (market : SupplyMarket) (amount : jsstring) : Page unit :=
  match wallet, amount with
  | None, _ => pret tt
  | Some _, [] => pemit (ToastErrorOnly (js "Enter an amount to wrap"))
  | Some w, _ =>
      (pemit (SetWrapping true) ;;
       pemit (Core (ToastLoading (js "Wrapping SOL..."))) ;;
       ptry (wrap_steps connection w market amount)
            (fun error =>
               pemit (Core (ToastError (js "Wrap failed") (describe error))))
            [SetWrapping false])%page
  end.

(** The two ways the repay form reads its amount. *)
Inductive Mode := Assets | Shares.

(** The path of [handleRepay] inside [try]. *)
Definition repay_steps
  (connection : Connection) (wallet : AnchorWallet)
  (market : SupplyMarket) (marketId : list Z) (marketKey : PublicKey)
  (mode : Mode) (amount : jsstring) : Page unit :=
  (let marketIdArray := marketIdToArray marketId in
   await loanVault := plift (getLoanVaultPDA marketId) in
   await position := plift (getPositionPDA marketId (publicKey wallet)) in
   await ata := of_async (getOrCreateAtaIx connection (publicKey wallet)
                            (publicKey wallet) (loanMint market)) in
   await assets :=
     plift (match mode with
            | Assets => parseTokenAmount amount (loanDecimals market)
            | Shares => parseIntegerAmount (js "0")
            end) in
   await shares :=
     plift (match mode with
            | Shares => parseIntegerAmount amount
            | Assets => parseIntegerAmount (js "0")
            end) in
   let repayIx :=
     MethodInstruction "repay"
       [ArgBytes marketIdArray; ArgBN assets; ArgBN shares]
       [ ("repayer", publicKey wallet);
         ("market", marketKey);
         ("position", fst position);
         ("onBehalfOf", publicKey wallet);
         ("repayerTokenAccount", ata_address ata);
         ("loanVault", fst loanVault);
         ("loanMint", loanMint market);
         ("tokenProgram", ata_tokenProgramId ata) ]%string in
   await signature := of_async (sendInstructions connection wallet
                                  [ata_instruction ata; Some repayIx]) in
   pemit (Core (ToastSuccess (js "Repay submitted") signature)) ;;
   pemit (Core (SetAmount [])))%page.

Definition handleRepay
  (connection : Connection) (wallet : option AnchorWallet)
  (market : SupplyMarket) (marketId : list Z) (marketKey : PublicKey)
  (positionExists : bool) (mode : Mode) (amount : jsstring) : Page unit :=
  match wallet, amount with
  | None, _ => pret tt
  | Some _, [] => pret tt
  | Some w, _ =>
      if negb positionExists then
        pemit (ToastErrorOnly (js "No position found for this market"))
      else
        (pemit (Core (SetSubmitting true)) ;;
         pemit (Core (ToastLoading (js "Submitting repay..."))) ;;
         ptry (repay_steps connection w market marketId marketKey mode amount)
              (fun error =>
                 pemit (Core (ToastError (js "Repay failed") (describe error))))
              [Core (SetSubmitting false)])%page
  end.

(** The three calls of the flash-loan form. *)
Inductive FlashType := Single | Start | End_.

Definition flash_loading (type : FlashType) : jsstring :=
  match type with
  | Single => js "Submitting flash loan..."
  | Start => js "Starting flash loan..."
  | End_ => js "Ending flash loan..."
  end.

(** The path of [executeFlashLoan] inside [try]. *)
Definition flash_steps
  (connection : Connection) (wallet : AnchorWallet)
  (market : SupplyMarket) (marketId : list Z) (marketKey : PublicKey)
  (type : FlashType) (amount : jsstring) : Page unit :=
  (let marketIdArray := marketIdToArray marketId in
   await protocolState := plift getProtocolStatePDA in
   await loanVault := plift (getLoanVaultPDA marketId) in
   await ata := of_async (getOrCreateAtaIx connection (publicKey wallet)
                            (publicKey wallet) (loanMint market)) in
   await amountBn := plift (parseTokenAmount amount (loanDecimals market)) in
   match type with
   | Single =>
       let flashIx :=
         MethodInstruction "flashLoan"
           [ArgBytes marketIdArray; ArgBN amountBn]
           [ ("borrower", publicKey wallet);
             ("protocolState", fst protocolState);
             ("market", marketKey);
             ("borrowerTokenAccount", ata_address ata);
             ("loanVault", fst loanVault);
             ("loanMint", loanMint market);
             ("tokenProgram", ata_tokenProgramId ata) ]%string in
       await signature := of_async (sendInstructions connection wallet
                                      [ata_instruction ata; Some flashIx]) in
       pemit (Core (ToastSuccess (js "Flash loan submitted") signature))
   | Start =>
       let startIx :=
         MethodInstruction "flashLoanStart"
           [ArgBytes marketIdArray; ArgBN amountBn]
           [ ("borrower", publicKey wallet);
             ("protocolState", fst protocolState);
             ("market", marketKey);
             ("borrowerTokenAccount", ata_address ata);
             ("loanVault", fst loanVault);
             ("loanMint", loanMint market);
             ("tokenProgram", ata_tokenProgramId ata) ]%string in
       await signature := of_async (sendInstructions connection wallet
                                      [ata_instruction ata; Some startIx]) in
       pemit (Core (ToastSuccess (js "Flash loan started") signature))
   | End_ =>
       let endIx :=
         MethodInstruction "flashLoanEnd"
           [ArgBytes marketIdArray; ArgBN amountBn]
           [ ("borrower", publicKey wallet);
             ("market", marketKey);
             ("borrowerTokenAccount", ata_address ata);
             ("loanVault", fst loanVault);
             ("loanMint", loanMint market);
             ("tokenProgram", ata_tokenProgramId ata) ]%string in
       await signature := of_async (sendInstructions connection wallet
                                      [ata_instruction ata; Some endIx]) in
       pemit (Core (ToastSuccess (js "Flash loan ended") signature))
   end ;;
   pemit (Core (SetAmount [])))%page.

Definition executeFlashLoan
  (connection : Connection) (wallet : option AnchorWallet)
  (market : SupplyMarket) (marketId : list Z) (marketKey : PublicKey)
  (amount : jsstring) (type : FlashType) : Page unit :=
  match wallet, amount with
  | None, _ => pret tt
  | Some _, [] => pret tt
  | Some w, _ =>
      (pemit (Core (SetSubmitting true)) ;;
       pemit (Core (ToastLoading (flash_loading type))) ;;
       ptry (flash_steps connection w market marketId marketKey type amount)
            (fun error =>
               pemit (Core (ToastError (js "Flash loan failed")
                              (describe error))))
            [Core (SetSubmitting false)])%page
  end.

(** The path of [handleCreatePosition] inside [try]; it returns from
    the handler when the position account exists. *)
Definition create_position_steps
  (connection : Connection) (wallet : AnchorWallet)
  (marketIdBuffer : list Z) (marketKey : PublicKey) : Page unit :=
  (await ensured := of_async (ensurePositionIx connection marketIdBuffer
                                marketKey (publicKey wallet)
                                (publicKey wallet)) in
   match position_instruction ensured with
   | None => pemit (ToastInfo (js "Position already exists"))
   | Some positionIx =>
       await signature := of_async (sendInstructions connection wallet
                                      [Some positionIx]) in
       pemit (Core (ToastSuccess (js "Position created") signature))
   end)%page.

Definition handleCreatePosition
  (connection : Connection) (wallet : option AnchorWallet)
  (marketIdBuffer : list Z) (marketKey : PublicKey) : Page unit :=
  match wallet with
  | None => pret tt
  | Some w =>
      (pemit (SetCreatingPosition true) ;;
       pemit (Core (ToastLoading (js "Creating position..."))) ;;
       ptry (create_position_steps connection w marketIdBuffer marketKey)
            (fun error =>
               pemit (Core (ToastError (js "Position creation failed")
                              (describe error))))
            [SetCreatingPosition false])%page
  end.

(** The transactions a handler of the page hands to the wallet. *)
Definition page_submitted (trace : list PageEvent) : list Transaction :=
  flat_map (fun ev => match ev with
                      | Core (SendAndConfirm tx) => [tx]
                      | _ => []
                      end)
           trace.

(* ================================================================== *)
(** ** Finding the position of a market (hooks and the market page) *)
(* ================================================================== *)

(** [Buffer.from(array)]: each number is kept modulo 256. *)
Definition Buffer_from_array (a : list Z) : list Z :=
  map (fun n => n mod 256) a.

(** [a === b] on strings. *)
Fixpoint string_equal (a b : jsstring) : bool :=
  match a, b with
  | [], [] => true
  | x :: a', y :: b' => (x =? y) && string_equal a' b'
  | _, _ => false
  end.

(** The fields of an [OnChainPosition]. *)
Record OnChainPosition := mkOnChainPosition {
  position_key : PublicKey;
  position_owner : PublicKey;
  position_marketId : list Z;
  supplyShares : Z;
  borrowShares : Z;
  collateral : Z
}.

(** The fields of an [OnChainMarket]. *)
Record OnChainMarket := mkOnChainMarket {
  market_key : PublicKey;
  market_marketId : list Z;
  market_loanMint : PublicKey;
  market_collateralMint : PublicKey;
  market_loanDecimals : Z;
  market_collateralDecimals : Z;
  market_oracle : PublicKey;
  market_irm : PublicKey;
  market_lltv : Z;
  market_fee : Z;
  totalSupplyAssets : Z;
  totalSupplyShares : Z;
  totalBorrowAssets : Z;
  totalBorrowShares : Z;
  lastUpdate : Z;
  pendingFeeShares : Z;
  flashLoanLock : Z;
  paused : bool
}.

(** The position [usePosition(marketId)] reports among the positions
    fetched for the wallet, none being fetched yet when [positions] is
    [None]. *)
Definition usePosition (positions : option (list OnChainPosition))
  (marketId : jsstring) : option OnChainPosition :=
  match positions with
  | None => None
  | Some ps =>
      find (fun p =>
              let idHex := hex_encode (Buffer_from_array (position_marketId p)) in
              string_equal idHex marketId)
           ps
  end.

(** The position the market page shows for a market whose id is
    [marketId], and the flag it hands to its forms. *)
Definition page_position (positions : option (list OnChainPosition))
  (marketId : list Z) : option OnChainPosition :=
  match positions with
  | None => None
  | Some ps =>
      find (fun p =>
              let idHex := hex_encode (Buffer_from_array (position_marketId p)) in
              let marketIdHex := hex_encode (Buffer_from_array marketId) in
              string_equal idHex marketIdHex)
           ps
  end.

Definition positionExists_of (positions : option (list OnChainPosition))
  (marketId : list Z) : bool :=
  match page_position positions marketId with
  | Some _ => true
  | None => false
  end.

(* ================================================================== *)
(** ** Liquidating a position (the liquidations page) *)
(* ================================================================== *)

(** The market of the position picked in the list, among the markets
    fetched. *)
Definition selectedMarket (selectedPos : option OnChainPosition)
  (markets : option (list OnChainMarket)) : option OnChainMarket :=
  match selectedPos, markets with
  | Some pos, Some ms =>
      find (fun market =>
              let marketIdHex :=
                hex_encode (Buffer_from_array (market_marketId market)) in
              let posMarketIdHex :=
                hex_encode (Buffer_from_array (position_marketId pos)) in
              string_equal marketIdHex posMarketIdHex)
           ms
  | _, _ => None
  end.

(** The path of [handleLiquidation] inside [try]. *)
Definition liquidation_steps
  (connection : Connection) (wallet : AnchorWallet)
  (pos : OnChainPosition) (market : OnChainMarket) (seizedAmount : jsstring)
  : Page unit :=
  (let marketId := Buffer_from_array (market_marketId market) in
   let marketIdArray := marketIdToArray marketId in
   await loanVault := plift (getLoanVaultPDA marketId) in
   await collateralVault := plift (getCollateralVaultPDA marketId) in
   await borrowerPosition :=
     plift (getPositionPDA marketId (position_owner pos)) in
   await loanAta := of_async (getOrCreateAtaIx connection (publicKey wallet)
                                (publicKey wallet) (market_loanMint market)) in
   await collateralAta :=
     of_async (getOrCreateAtaIx connection (publicKey wallet)
                 (publicKey wallet) (market_collateralMint market)) in
   if negb (equals (ata_tokenProgramId loanAta)
                   (ata_tokenProgramId collateralAta)) then
     plift (Throw (new_Error
                     "Loan and collateral mints use different token programs"))
   else
     await seizedAssets :=
       plift (parseTokenAmount seizedAmount (market_loanDecimals market)) in
     let liquidateIx :=
       MethodInstruction "liquidate"
         [ArgBytes marketIdArray; ArgBN seizedAssets]
         [ ("liquidator", publicKey wallet);
           ("market", market_key market);
           ("borrowerPosition", fst borrowerPosition);
           ("borrower", position_owner pos);
           ("oracle", market_oracle market);
           ("liquidatorLoanAccount", ata_address loanAta);
           ("liquidatorCollateralAccount", ata_address collateralAta);
           ("loanVault", fst loanVault);
           ("collateralVault", fst collateralVault);
           ("loanMint", market_loanMint market);
           ("collateralMint", market_collateralMint market);
           ("tokenProgram", ata_tokenProgramId loanAta) ]%string in
     await signature :=
       of_async (sendInstructions connection wallet
                   [ata_instruction loanAta; ata_instruction collateralAta;
                    Some liquidateIx]) in
     pemit (Core (ToastSuccess (js "Liquidation submitted") signature)) ;;
     pemit (SetSeizedAmount []))%page.

Definition handleLiquidation
  (connection : Connection) (wallet : option AnchorWallet)
  (selectedPos : option OnChainPosition)
  (selectedMarket : option OnChainMarket) (seizedAmount : jsstring)
  : Page unit :=
  match wallet, selectedPos, selectedMarket, seizedAmount with
  | Some w, Some pos, Some market, _ :: _ =>
      (pemit (Core (SetSubmitting true)) ;;
       pemit (Core (ToastLoading (js "Submitting liquidation..."))) ;;
       ptry (liquidation_steps connection w pos market seizedAmount)
            (fun error =>
               pemit (Core (ToastError (js "Liquidation failed")
                              (describe error))))
            [Core (SetSubmitting false)])%page
  | _, _, _, _ => pret tt
  end.

(* ================================================================== *)
(** ** Reading a public key typed into the admin page (admin/page.tsx) *)
(* ================================================================== *)

Definition parsePubkey (value label : jsstring) : result PublicKey :=
  let trimmed := trim value in
  match trimmed with
  | [] => Throw (ErrorObject Error_ (label ++ js " is required") NoLogsField)
  | _ =>
      match PublicKey_of_string trimmed with
      | Ok k => Ok k
      | Throw _ =>
          Throw (ErrorObject Error_ (js "Invalid " ++ label ++ js " public key")
                   NoLogsField)
      end
  end.

(* ================================================================== *)
(** ** Reading a decimal numeral, in the words of the specification *)
(* ================================================================== *)

(** A digit string read as an integer (the empty string reads as 0). *)
Definition digits_value (s : jsstring) : Z :=
  fold_left (fun acc c => acc * 10 + (c - 48)) s 0.

Fixpoint takeWhile (p : code_unit -> bool) (s : jsstring) : jsstring :=
  match s with
  | [] => []
  | c :: r => if p c then c :: takeWhile p r else []
  end.

Definition not_dot (c : code_unit) : bool := negb (c =? 46).

(** The text before the first ['.'], and the text after it (empty when
    there is none). *)
Definition whole_part (s : jsstring) : jsstring := takeWhile not_dot s.
Definition fraction_part (s : jsstring) : jsstring := tl (dropWhile not_dot s).

(** The fractional digits right-padded with zeros to length [d], then
    cut to the first [d] digits. *)
Definition fixed_fraction (f : jsstring) (d : Z) : jsstring :=
  firstn (Z.to_nat d) (f ++ repeat 48 (Z.to_nat d - length f)).

(** The rational a numeral [w] or [w.f] denotes. *)
Definition decimal_denotation (s : jsstring) : Q :=
  let f := fraction_part s in
  (inject_Z (digits_value (whole_part s))
   + inject_Z (digits_value f) / inject_Z (10 ^ Z.of_nat (length f)))%Q.

(** A rational cut to [d] fractional digits: the fractional digits past
    the [d]-th are dropped. *)
Definition truncate_to (d : Z) (q : Q) : Q :=
  (inject_Z (Qfloor (q * inject_Z (10 ^ d))) / inject_Z (10 ^ d))%Q.

(* ================================================================== *)
(** ** Instruction lists and failures, in the words of the specification *)
(* ================================================================== *)

(** The token program that governs a mint, read off its account. *)
Definition token_program_of (info : AccountInfo) : PublicKey :=
  if equals (owner info) TOKEN_2022_PROGRAM_ID
  then TOKEN_2022_PROGRAM_ID else TOKEN_PROGRAM_ID.

(** The ledger once an account exists at [k]. *)
Definition with_account (connection : Connection) (k : PublicKey)
  (info : AccountInfo) : Connection :=
  mkConnection
    (fun q => if equals q k then Ok (Some info) else accountInfo connection q)
    (confirm connection).

(** The present entries of a list of optional instructions, in their
    relative order. *)
Fixpoint present {A} (l : list (option A)) : list A :=
  match l with
  | [] => []
  | Some x :: r => x :: present r
  | None :: r => present r
  end.

(** The log lines a failure carries: those [getLogs] resolves to for a
    [SendTransactionError], else those of the [logs] property. *)
Definition carried_logs (e : Thrown) : option (list jsstring) :=
  match e with
  | SendTransactionErrorObject _ (Resolved lines) => Some lines
  | ErrorObject _ _ (HasLogsField (Some lines)) => Some lines
  | OtherObject (HasLogsField (Some lines)) => Some lines
  | _ => None
  end.

(** What the log lookup of a [SendTransactionError] was rejected with,
    when it was. *)
Definition lookup_failure (e : Thrown) : option Thrown :=
  match e with
  | SendTransactionErrorObject _ (Rejected e') => Some e'
  | _ => None
  end.

Definition as_list {A} (o : option A) : list A :=
  match o with
  | Some x => [x]
  | None => []
  end.

(** The line naming the instruction, then the first line matching the
    error patterns in their order of preference. *)
Definition summary_lines (lines : list jsstring) : list jsstring :=
  as_list (find (includes (js "Program log: Instruction:")) lines)
  ++ as_list
       (match find (includes (js "AnchorError")) lines with
        | Some l => Some l
        | None =>
            match find (includes (js "Error Code")) lines with
            | Some l => Some l
            | None => find (includes (js "custom program error")) lines
            end
        end).

(** A log line without its [Program log:] prefix and surrounding white
    space. *)
Definition clean_line (line : jsstring) : jsstring :=
  trim (strip_log_prefix line).

(** No pattern of the summary occurs in the line. *)
Definition unremarkable (line : jsstring) : Prop :=
  includes (js "Program log: Instruction:") line = false
  /\ includes (js "AnchorError") line = false
  /\ includes (js "Error Code") line = false
  /\ includes (js "custom program error") line = false.

(** The message after annotation by the summary of [lines]. *)
Definition annotated_message (m : jsstring) (lines : list jsstring) : jsstring :=
  match summary_lines lines with
  | [] => m
  | ls =>
      let summary := join (js " | ") (map clean_line ls) in
      if includes summary m then m else m ++ js " | " ++ summary
  end.

(* ================================================================== *)
(** ** Keys, market ids and instructions, in the words of the properties *)
(* ================================================================== *)

(** A key as web3.js keeps it: its number is below [2^256]. *)
Definition valid_key (k : PublicKey) : Prop := 0 <= pk_bn k < 2 ^ 256.

(** The bytes [calculateMarketId] hashes. *)
Definition market_id_input
  (collateralMint loanMint oracle irm : PublicKey) (lltv : Z) : list Z :=
  toBuffer collateralMint ++ toBuffer loanMint ++ toBuffer oracle
  ++ toBuffer irm ++ le_bytes 8 (Z.abs lltv).

(** The method of the program each call of the flash-loan form
    builds. *)
Definition flash_method (type : FlashType) : string :=
  match type with
  | Single => "flashLoan"
  | Start => "flashLoanStart"
  | End_ => "flashLoanEnd"
  end.

(** The creation of the associated token account, when the node
    reports no account at its address, as the first instructions of a
    transaction. *)
Definition token_account_creation
  (payer ata owner mint tokenProgramId : PublicKey)
  (existing : option AccountInfo) : list TransactionInstruction :=
  match existing with
  | Some _ => []
  | None =>
      [createAssociatedTokenAccountInstruction
         payer ata owner mint tokenProgramId ASSOCIATED_TOKEN_PROGRAM_ID]
  end.

(** Whether an instruction is a call of the method [name] of the
    program client. *)
Definition calls_method (name : string) (ix : TransactionInstruction) : bool :=
  match ix with
  | MethodInstruction called _ _ => String.eqb called name
  | RawInstruction _ _ _ => false
  end.

(** The lamports a transfer instruction of the system program
    carries. *)
Definition transfer_lamports (ix : TransactionInstruction) : option Z :=
  match ix with
  | RawInstruction _ _ data => Some (le_value (skipn 4 data))
  | MethodInstruction _ _ _ => None
  end.

(* ================================================================== *)
(** ** Concrete keys, ledgers and markets used in the examples *)
(* ================================================================== *)

Definition key_of_byte (b : Z) : PublicKey := mkPublicKey b.

(** A ledger holding one account, every lookup being answered. *)
Definition single_account (k : PublicKey) (info : AccountInfo)
  : PublicKey -> result (option AccountInfo) :=
  fun q => if equals q k then Ok (Some info) else Ok None.

Definition no_wallet_answer (tx : Transaction) : result jsstring :=
  Throw (new_Error "User rejected the request").

Definition example_mint : PublicKey := mkPublicKey 1000.

(** A node that knows one mint, owned by the system program. *)
Definition odd_owner_connection : Connection :=
  mkConnection
    (single_account example_mint (mkAccountInfo SYSTEM_PROGRAM_ID 1 [] false))
    no_wallet_answer.

(** The public key of the first test vector of RFC 8032, a point of the
    curve. *)
Definition example_wallet : AnchorWallet :=
  mkWallet
    (mkPublicKey
       0xd75a980182b10ab7d54bfed3c964073a0ee172f3daa62325af021a68f707511a).

(** The 32 bytes [02 00 ... 00]: [y = 2] is the ordinate of no point of
    the curve. *)
Definition off_curve_key : PublicKey := mkPublicKey (2 ^ 249).

(** A node that knows one mint, owned by the classic token program, and
    accepts every transaction. *)
Definition token_connection : Connection :=
  mkConnection
    (single_account example_mint (mkAccountInfo TOKEN_PROGRAM_ID 1461600 [] false))
    (fun _ => Ok (js "5VERv8NMvzbJMEkV8xnrLkEaWRtSz9CosKDYjCJjBRnb")).

(** The same mint, with the wallet's token account already created. *)
Definition example_ata : PublicKey :=
  mkPublicKey
    84732424565933508400213193490712688195300633434071249628267301407157770226207.

Definition funded_connection : Connection :=
  mkConnection
    (fun q =>
       if equals q example_ata
       then Ok (Some (mkAccountInfo TOKEN_PROGRAM_ID 2039280 [] false))
       else single_account example_mint
              (mkAccountInfo TOKEN_PROGRAM_ID 1461600 [] false) q)
    (fun _ => Ok (js "5VERv8NMvzbJMEkV8xnrLkEaWRtSz9CosKDYjCJjBRnb")).

(** The market id of the keys 1, 2, 3, 4 at an LLTV of 9000. *)
Definition example_market_id : list Z :=
  Eval vm_compute in
    match calculateMarketId (key_of_byte 1) (key_of_byte 2) (key_of_byte 3)
                            (key_of_byte 4) 9000 with
    | Ok id => id
    | Throw _ => []
    end.

Definition example_market : SupplyMarket := mkSupplyMarket example_mint 6.
Definition example_market_key : PublicKey := mkPublicKey 4242.

Definition example_position : PublicKey :=
  mkPublicKey
    92091180032787205061455225533844693986539280615993824189903125198913263344702.
Definition example_loan_vault : PublicKey :=
  mkPublicKey
    65808703827249663228001528051212226436861812111562797616895890634393465189368.
Definition protocol_state_address : PublicKey :=
  mkPublicKey
    72167876547966618663796048302800890516405549726010791149694292410591417920509.

(** An instruction of the program client, and the log of a run the
    program refused. *)
Definition example_instruction : TransactionInstruction :=
  MethodInstruction "accrueInterest" [ArgBytes example_market_id]
    [("market", example_market_key)]%string.

Definition refusal_logs : list jsstring :=
  [ js "Program 9qYe29CskmZ1mcuLLFcQXovfbqXBqLsXpg4y7Rfk9NsE invoke [1]";
    js "Program log: Instruction: Supply";
    js "Program log: AnchorError occurred. Error Code: MarketPaused.";
    js "Program 9qYe29CskmZ1mcuLLFcQXovfbqXBqLsXpg4y7Rfk9NsE failed: custom program error: 0x1772" ].

(** A node whose simulation refuses every transaction, with the log
    available. *)
Definition refusing_connection : Connection :=
  mkConnection
    (single_account example_mint (mkAccountInfo TOKEN_PROGRAM_ID 1461600 [] false))
    (fun _ => Throw (SendTransactionErrorObject
                       (js "Transaction simulation failed")
                       (Resolved refusal_logs))).

(** A failure whose message already ends with the summary of its
    log. *)
Definition annotated_failure : Thrown :=
  ErrorObject Error_ (js "Transaction simulation failed | Instruction: Supply")
    (HasLogsField (Some [js "Program log: Instruction: Supply"])).

Definition annotated_connection : Connection :=
  mkConnection
    (single_account example_mint (mkAccountInfo TOKEN_PROGRAM_ID 1461600 [] false))
    (fun _ => Throw annotated_failure).

(** A node that knows the mint of wrapped SOL and accepts every
    transaction; the wallet's wrapped-SOL account, bump 253; and a market
    that lends SOL. *)
Definition native_connection : Connection :=
  mkConnection
    (single_account NATIVE_MINT (mkAccountInfo TOKEN_PROGRAM_ID 1461600 [] false))
    (fun _ => Ok (js "5VERv8NMvzbJMEkV8xnrLkEaWRtSz9CosKDYjCJjBRnb")).

Definition example_wrapped_account : PublicKey :=
  mkPublicKey
    20440470417760329714510820684058513513145596923123717544745972782876534279555.

Definition sol_market : SupplyMarket := mkSupplyMarket NATIVE_MINT 9.

(** The accounts of the wallet's calls on the example market. *)
Definition example_repay_accounts : list (string * PublicKey) :=
  [ ("repayer", publicKey example_wallet);
    ("market", example_market_key);
    ("position", example_position);
    ("onBehalfOf", publicKey example_wallet);
    ("repayerTokenAccount", example_ata);
    ("loanVault", example_loan_vault);
    ("loanMint", example_mint);
    ("tokenProgram", TOKEN_PROGRAM_ID) ]%string.

Definition example_flash_end_accounts : list (string * PublicKey) :=
  [ ("borrower", publicKey example_wallet);
    ("market", example_market_key);
    ("borrowerTokenAccount", example_ata);
    ("loanVault", example_loan_vault);
    ("loanMint", example_mint);
    ("tokenProgram", TOKEN_PROGRAM_ID) ]%string.

(** Two positions of the wallet, the second in the example market. *)
Definition other_position : OnChainPosition :=
  mkOnChainPosition (key_of_byte 5) (publicKey example_wallet) (repeat 1 32%nat)
    10 0 0.

Definition market_position : OnChainPosition :=
  mkOnChainPosition example_position (publicKey example_wallet)
    example_market_id 0 25 400.

Definition example_collateral_vault : PublicKey :=
  mkPublicKey
    70048392581502275760495310706978574963319273131233118660042233356809699058141.

(** The example market as fetched from the chain, lending and securing
    with the example mint. *)
Definition fetched_market : OnChainMarket :=
  mkOnChainMarket example_market_key example_market_id
    example_mint example_mint 6 6 (key_of_byte 3) (key_of_byte 4)
    9000 0 5000000 5000000 1000000 1000000 0 0 0 false.

Definition example_liquidate_accounts : list (string * PublicKey) :=
  [ ("liquidator", publicKey example_wallet);
    ("market", example_market_key);
    ("borrowerPosition", example_position);
    ("borrower", publicKey example_wallet);
    ("oracle", key_of_byte 3);
    ("liquidatorLoanAccount", example_ata);
    ("liquidatorCollateralAccount", example_ata);
    ("loanVault", example_loan_vault);
    ("collateralVault", example_collateral_vault);
    ("loanMint", example_mint);
    ("collateralMint", example_mint);
    ("tokenProgram", TOKEN_PROGRAM_ID) ]%string.

(* ================================================================== *)
(** * Properties *)
(* ================================================================== *)

(** ** Regular-expression matching decides language membership *)

Section RegexFacts.
Import Regex.

Lemma nullable_spec r : nullable r = true <-> Matches r [].
Proof.
  induction r; simpl.
  - split; [discriminate | intros H; inversion H].
  - split; [constructor | reflexivity].
  - split; [discriminate | intros H; inversion H].
  - rewrite andb_true_iff, IHr1, IHr2. split.
    + intros [H1 H2]. change (@nil code_unit) with (@nil code_unit ++ []).
      now constructor.
    + intros H. inversion H; subst.
      match goal with E : _ ++ _ = [] |- _ =>
        apply app_eq_nil in E as [-> ->] end.
      now split.
  - rewrite orb_true_iff, IHr1, IHr2. split.
    + intros [H | H]; [now apply MAltL | now apply MAltR].
    + intros H. inversion H; subst; [now left | now right].
  - split; [constructor | reflexivity].
Qed.

Lemma star_cons_inv r c s :
  Matches (Star r) (c :: s) ->
  exists s1 s2, s = s1 ++ s2 /\ Matches r (c :: s1) /\ Matches (Star r) s2.
Proof.
  intros H. remember (Star r) as r' eqn:Er. remember (c :: s) as cs eqn:Es.
  revert Er Es. induction H; intros Er Es; try discriminate.
  injection Er as ->. destruct s1 as [| c' s1'].
  - simpl in Es. now apply IHMatches2.
  - simpl in Es. injection Es as -> <-. now exists s1', s2.
Qed.

Lemma cat_cons_inv r1 r2 c s :
  Matches (Cat r1 r2) (c :: s) ->
  (Matches r1 [] /\ Matches r2 (c :: s)) \/
  exists s1 s2, s = s1 ++ s2 /\ Matches r1 (c :: s1) /\ Matches r2 s2.
Proof.
  intros H. inversion H as [| | ? ? s1 s2 Ha Hb E | | | |]; subst.
  destruct s1 as [| c' s1'].
  - simpl in *. subst. now left.
  - simpl in *. right.
    match goal with E : _ :: _ = _ :: _ |- _ => injection E as -> <- end.
    now exists s1', s2.
Qed.

Lemma deriv_spec c r : forall s, Matches (deriv c r) s <-> Matches r (c :: s).
Proof.
  induction r; intros s; simpl.
  - split; intros H; inversion H.
  - split; intros H; inversion H.
  - destruct (p c) eqn:Ep; split; intros H; inversion H; subst.
    + now constructor.
    + constructor.
    + congruence.
  - split.
    + intros H.
      assert (Hcat : forall t, Matches (Cat (deriv c r1) r2) t ->
                               Matches (Cat r1 r2) (c :: t)).
      { intros t Ht. inversion Ht as [| | ? ? s1 s2 Ha Hb | | | |]; subst.
        apply IHr1 in Ha. change (c :: s1 ++ s2) with ((c :: s1) ++ s2).
        now constructor. }
      destruct (nullable r1) eqn:En; [| now apply Hcat].
      inversion H; subst; [now apply Hcat |].
      change (c :: s) with ([] ++ c :: s).
      constructor; [now apply nullable_spec | now apply IHr2].
    + intros H. apply cat_cons_inv in H as [[Ha Hb] | (s1 & s2 & -> & Ha & Hb)].
      * apply nullable_spec in Ha. rewrite Ha. apply MAltR. now apply IHr2.
      * assert (Hc : Matches (Cat (deriv c r1) r2) (s1 ++ s2))
          by (constructor; [now apply IHr1 | exact Hb]).
        destruct (nullable r1); [now apply MAltL | exact Hc].
  - split; intros H; inversion H; subst.
    + apply MAltL. now apply IHr1.
    + apply MAltR. now apply IHr2.
    + apply MAltL. now apply IHr1.
    + apply MAltR. now apply IHr2.
  - split.
    + intros H. inversion H as [| | ? ? s1 s2 Ha Hb | | | |]; subst.
      apply IHr in Ha. change (c :: s1 ++ s2) with ((c :: s1) ++ s2).
      now constructor.
    + intros H. apply star_cons_inv in H as (s1 & s2 & -> & Ha & Hb).
      constructor; [now apply IHr | exact Hb].
Qed.

(** [test] returns [true] exactly on the strings of the language. *)
Lemma test_spec : forall s r, test r s = true <-> Matches r s.
Proof.
  induction s as [| c s IH]; intros r; simpl.
  - apply nullable_spec.
  - rewrite IH. apply deriv_spec.
Qed.

Lemma test_false_iff r s : test r s = false <-> ~ Matches r s.
Proof.
  rewrite <- test_spec. destruct (test r s); split; congruence.
Qed.

End RegexFacts.

(** ** The shape of the strings the two patterns accept *)

(** A non-empty run of ASCII digits. *)
Definition digit_string (s : jsstring) : Prop :=
  s <> [] /\ forallb is_digit s = true.

Lemma star_digits s :
  Regex.Matches (Regex.Star digit_class) s <-> forallb is_digit s = true.
Proof.
  split.
  - intros H. remember (Regex.Star digit_class) as r eqn:Er.
    induction H; try discriminate; [reflexivity |].
    injection Er as ->. rewrite forallb_app, IHMatches2 by reflexivity.
    inversion H; subst. simpl.
    match goal with E : is_digit _ = true |- _ => now rewrite E end.
  - induction s as [| c s IH]; simpl; intros H; [constructor |].
    apply andb_true_iff in H as [Hc Hs].
    change (c :: s) with ([c] ++ s). constructor; [now constructor | auto].
Qed.

Lemma plus_digits s :
  Regex.Matches (Regex.Plus digit_class) s <-> digit_string s.
Proof.
  unfold Regex.Plus, digit_string. split.
  - intros H. inversion H as [| | ? ? s1 s2 Ha Hb | | | |]; subst.
    inversion Ha; subst. apply star_digits in Hb. simpl.
    split; [discriminate |].
    match goal with E : is_digit _ = true |- _ => now rewrite E, Hb end.
  - intros [Hne H]. destruct s as [| c s]; [congruence |].
    simpl in H. apply andb_true_iff in H as [Hc Hs].
    change (c :: s) with ([c] ++ s).
    constructor; [now constructor | now apply star_digits].
Qed.

(** [^\d+$] accepts the non-empty digit strings. *)
Lemma integer_re_shape s : Regex.Matches integer_re s <-> digit_string s.
Proof. apply plus_digits. Qed.

(** [^\d+(\.\d+)?$] accepts [w] and [w.f] for non-empty digit strings
    [w] and [f]. *)
Lemma decimal_re_shape s :
  Regex.Matches decimal_re s <->
  digit_string s \/
  exists w f, s = w ++ 46 :: f /\ digit_string w /\ digit_string f.
Proof.
  unfold decimal_re, Regex.Opt. split.
  - intros H. inversion H as [| | ? ? s1 s2 Ha Hb | | | |]; subst.
    apply plus_digits in Ha.
    inversion Hb as [| | | ? ? ? Hc | ? ? ? Hc | |]; subst.
    + inversion Hc as [| | ? ? t1 t2 Hd He | | | |]; subst.
      inversion Hd; subst.
      match goal with E : (46 =? _) = true |- _ =>
        apply Z.eqb_eq in E; subst end.
      apply plus_digits in He. right. now exists s1, t2.
    + inversion Hc; subst. rewrite app_nil_r. now left.
  - intros [H | (w & f & -> & Hw & Hf)].
    + rewrite <- (app_nil_r s). constructor; [now apply plus_digits |].
      apply Regex.MAltR. constructor.
    + constructor; [now apply plus_digits |]. apply Regex.MAltL.
      change (46 :: f) with ([46] ++ f).
      constructor; [now constructor | now apply plus_digits].
Qed.

(** ** Digit strings *)

Lemma is_digit_offset c :
  is_digit c = true -> exists k, (k < 10)%nat /\ c = 48 + Z.of_nat k.
Proof.
  unfold is_digit. rewrite andb_true_iff, !Z.leb_le. intros H.
  exists (Z.to_nat (c - 48)). lia.
Qed.

(** Case analysis on the ten digits. *)
Ltac digit_cases H :=
  let k := fresh "k" in
  let Hk := fresh "Hk" in
  apply is_digit_offset in H; destruct H as (k & Hk & ->);
  repeat (destruct k as [| k]; [| try (exfalso; lia)]).

Lemma is_digit_not_ws c : is_digit c = true -> is_ws c = false.
Proof. intros H. digit_cases H; reflexivity. Qed.

Lemma is_digit_not_dot c : is_digit c = true -> not_dot c = true.
Proof. intros H. digit_cases H; reflexivity. Qed.

Lemma digit_in_10 c : is_digit c = true -> digit_in 10 c = Some (c - 48).
Proof. intros H. digit_cases H; reflexivity. Qed.

Lemma forallb_rev (p : code_unit -> bool) s :
  forallb p (rev s) = forallb p s.
Proof.
  induction s as [| c s IH]; simpl; [reflexivity |].
  rewrite forallb_app, IH. simpl. rewrite andb_true_r. apply andb_comm.
Qed.

Lemma dropWhile_ws_digits s :
  forallb is_digit s = true -> dropWhile is_ws s = s.
Proof.
  destruct s as [| c s]; simpl; [reflexivity |].
  intros H. apply andb_true_iff in H as [Hc _].
  now rewrite (is_digit_not_ws _ Hc).
Qed.

Lemma trim_digits s : forallb is_digit s = true -> trim s = s.
Proof.
  intros H. unfold trim, trimStart, trimEnd.
  rewrite (dropWhile_ws_digits _ H), dropWhile_ws_digits.
  - apply rev_involutive.
  - now rewrite forallb_rev.
Qed.

Lemma filter_ws_digits s :
  forallb is_digit s = true -> filter (fun c => negb (is_ws c)) s = s.
Proof.
  induction s as [| c s IH]; simpl; [reflexivity |].
  intros H. apply andb_true_iff in H as [Hc Hs].
  rewrite (is_digit_not_ws _ Hc). simpl. now rewrite IH.
Qed.

Lemma digits_in_10 s :
  forallb is_digit s = true ->
  forall acc,
    digits_in 10 s acc = Some (fold_left (fun a c => a * 10 + (c - 48)) s acc).
Proof.
  induction s as [| c s IH]; simpl; intros H acc; [reflexivity |].
  apply andb_true_iff in H as [Hc Hs].
  now rewrite (digit_in_10 _ Hc), IH.
Qed.

Lemma numeral_in_10 s :
  digit_string s -> numeral_in 10 s = Some (digits_value s).
Proof.
  intros [Hne H]. unfold numeral_in, digits_value.
  destruct s; [congruence | now apply digits_in_10].
Qed.

(** [BigInt(s)] reads a digit string as the integer it spells. *)
Lemma BigInt_of_digit_string s :
  digit_string s -> BigInt_of_string s = Ok (digits_value s).
Proof.
  intros Hs. pose proof (numeral_in_10 _ Hs) as Hn. destruct Hs as [Hne H].
  unfold BigInt_of_string, StringToBigInt. rewrite (trim_digits _ H).
  destruct s as [| c0 [| c1 rest]]; [congruence | now rewrite Hn |].
  assert (H0 : is_digit c0 = true)
    by (simpl in H; now apply andb_true_iff in H as [? _]).
  assert (H1 : is_digit c1 = true).
  { simpl in H. apply andb_true_iff in H as [_ H].
    now apply andb_true_iff in H as [? _]. }
  assert (E1 : (c1 =? 120) || (c1 =? 88) = false) by (digit_cases H1; reflexivity).
  assert (E2 : (c1 =? 111) || (c1 =? 79) = false) by (digit_cases H1; reflexivity).
  assert (E3 : (c1 =? 98) || (c1 =? 66) = false) by (digit_cases H1; reflexivity).
  assert (E4 : (c0 =? 45) = false) by (digit_cases H0; reflexivity).
  assert (E5 : (c0 =? 43) = false) by (digit_cases H0; reflexivity).
  rewrite E1, E2, E3, E4, E5, !andb_false_r. now rewrite Hn.
Qed.

(** [new BN(s)] reads a string of digits as the integer it spells. *)
Lemma BN_of_digits s :
  forallb is_digit s = true -> BN_of_string s = Ok (digits_value s).
Proof.
  intros H. unfold BN_of_string. rewrite (filter_ws_digits _ H).
  assert (E : match s with
              | c :: r => if c =? 45 then (true, r) else (false, s)
              | [] => (false, s)
              end = (false, s)).
  { destruct s as [| c r]; [reflexivity |].
    simpl in H. apply andb_true_iff in H as [Hc _].
    digit_cases Hc; reflexivity. }
  rewrite E, (digits_in_10 _ H). reflexivity.
Qed.

(** ** Printing a bigint and reading it back *)

Lemma decimal_digits_are_digits fuel :
  forall n acc,
    0 <= n -> forallb is_digit acc = true ->
    forallb is_digit (decimal_digits fuel n acc) = true.
Proof.
  induction fuel as [| k IH]; simpl; intros n acc Hn Hacc; [exact Hacc |].
  assert (Hd : forallb is_digit ((48 + n mod 10) :: acc) = true).
  { cbn [forallb]. rewrite Hacc, andb_true_r. unfold is_digit.
    pose proof (Z.mod_pos_bound n 10 ltac:(lia)).
    apply andb_true_iff; split; apply Z.leb_le; lia. }
  destruct (n <? 10); [exact Hd |].
  apply IH; [apply Z.div_pos; lia | exact Hd].
Qed.

Lemma decimal_digits_value fuel :
  forall n acc,
    0 <= n < 2 ^ Z.of_nat fuel ->
    digits_in 10 (decimal_digits fuel n acc) 0 = digits_in 10 acc n.
Proof.
  induction fuel as [| k IH]; intros n acc Hn.
  - simpl in *. now replace n with 0 by lia.
  - cbn [decimal_digits].
    assert (Hdig : digit_in 10 (48 + n mod 10) = Some (n mod 10)).
    { pose proof (Z.mod_pos_bound n 10 ltac:(lia)) as Hm.
      replace (Some (n mod 10)) with (Some (48 + n mod 10 - 48)) by (f_equal; lia).
      apply digit_in_10. unfold is_digit.
      apply andb_true_iff; split; apply Z.leb_le; lia. }
    destruct (Z.ltb_spec n 10) as [Hlt | Hge].
    + cbn [digits_in]. rewrite Hdig. rewrite Z.mod_small by lia. reflexivity.
    + rewrite IH.
      * cbn [digits_in]. rewrite Hdig. f_equal.
        pose proof (Z.div_mod n 10 ltac:(lia)). lia.
      * rewrite Nat2Z.inj_succ, Z.pow_succ_r in Hn by lia.
        split; [apply Z.div_pos; lia |].
        apply Z.div_lt_upper_bound; lia.
Qed.

(** [new BN(raw.toString())] is [raw] for a non-negative bigint. *)
Lemma BN_of_toString raw :
  0 <= raw -> BN_of_string (BigInt_toString raw) = Ok raw.
Proof.
  intros Hraw. unfold BigInt_toString.
  destruct (Z.ltb_spec raw 0) as [? | _]; [lia |].
  rewrite Z.abs_eq by lia.
  set (fuel := S (Z.to_nat (Z.log2 raw))).
  assert (Hfuel : 0 <= raw < 2 ^ Z.of_nat fuel).
  { split; [exact Hraw |]. unfold fuel.
    rewrite Nat2Z.inj_succ, Z2Nat.id by apply Z.log2_nonneg.
    destruct (Z.eq_dec raw 0) as [-> | Hnz]; [reflexivity |].
    apply Z.log2_spec. lia. }
  assert (Hd : forallb is_digit (decimal_digits fuel raw []) = true)
    by now apply decimal_digits_are_digits.
  pose proof (decimal_digits_value fuel _ [] Hfuel) as E.
  rewrite (digits_in_10 _ Hd) in E. cbn [digits_in] in E.
  rewrite (BN_of_digits _ Hd). unfold digits_value. f_equal.
  exact (f_equal (fun o => match o with Some v => v | None => 0 end) E).
Qed.

(** ** Splitting, padding and slicing *)

Lemma forallb_digits_not_dot s :
  forallb is_digit s = true -> forallb not_dot s = true.
Proof.
  induction s as [| c s IH]; simpl; [reflexivity |].
  intros H. apply andb_true_iff in H as [Hc Hs].
  now rewrite (is_digit_not_dot _ Hc), IH.
Qed.

Lemma split_on_nonempty sep s : split_on sep s <> [].
Proof.
  induction s as [| c s IH]; simpl; [discriminate |].
  destruct (c =? sep); [discriminate |].
  destruct (split_on sep s); discriminate.
Qed.

Lemma split_on_no_dot s :
  forallb not_dot s = true -> split_on 46 s = [s].
Proof.
  induction s as [| c s IH]; simpl; [reflexivity |].
  intros H. apply andb_true_iff in H as [Hc Hs].
  unfold not_dot in Hc. apply negb_true_iff in Hc. rewrite Hc.
  now rewrite IH.
Qed.

Lemma split_on_dot w f :
  forallb not_dot w = true ->
  split_on 46 (w ++ 46 :: f) = w :: split_on 46 f.
Proof.
  induction w as [| c w IH]; simpl; [reflexivity |].
  intros H. apply andb_true_iff in H as [Hc Hs].
  unfold not_dot in Hc. apply negb_true_iff in Hc. rewrite Hc.
  now rewrite IH.
Qed.

Lemma whole_part_dot w f :
  forallb not_dot w = true -> whole_part (w ++ 46 :: f) = w.
Proof.
  unfold whole_part. induction w as [| c w IH]; simpl; [reflexivity |].
  intros H. apply andb_true_iff in H as [Hc Hs].
  rewrite Hc. now rewrite IH.
Qed.

Lemma fraction_part_dot w f :
  forallb not_dot w = true -> fraction_part (w ++ 46 :: f) = f.
Proof.
  unfold fraction_part. induction w as [| c w IH]; simpl; [reflexivity |].
  intros H. apply andb_true_iff in H as [Hc Hs].
  rewrite Hc. now apply IH.
Qed.

Lemma whole_part_no_dot w : forallb not_dot w = true -> whole_part w = w.
Proof.
  unfold whole_part. induction w as [| c w IH]; simpl; [reflexivity |].
  intros H. apply andb_true_iff in H as [Hc Hs].
  rewrite Hc. now rewrite IH.
Qed.

Lemma fraction_part_no_dot w :
  forallb not_dot w = true -> fraction_part w = [].
Proof.
  unfold fraction_part. induction w as [| c w IH]; simpl; [reflexivity |].
  intros H. apply andb_true_iff in H as [Hc Hs].
  rewrite Hc. now apply IH.
Qed.

(** [fraction.padEnd(d, '0').slice(0, d)] pads, then cuts, to exactly
    [d] characters. *)
Lemma slice0_padEnd f d :
  0 <= d -> slice0 (padEnd f d 48) d = fixed_fraction f d.
Proof.
  intros Hd. unfold slice0, padEnd, fixed_fraction.
  destruct (Z.ltb_spec d 0) as [? | _]; [lia |].
  replace (Z.to_nat (d - Z.of_nat (length f))) with (Z.to_nat d - length f)%nat
    by lia.
  f_equal. rewrite length_app, repeat_length. lia.
Qed.

Lemma fixed_fraction_length f d :
  0 <= d -> length (fixed_fraction f d) = Z.to_nat d.
Proof.
  intros Hd. unfold fixed_fraction.
  rewrite length_firstn, length_app, repeat_length. lia.
Qed.

Lemma forallb_firstn (p : code_unit -> bool) n s :
  forallb p s = true -> forallb p (firstn n s) = true.
Proof.
  revert n. induction s as [| c s IH]; intros [| n]; simpl; auto.
  intros H. apply andb_true_iff in H as [Hc Hs]. now rewrite Hc, IH.
Qed.

Lemma fixed_fraction_digits f d :
  forallb is_digit f = true -> forallb is_digit (fixed_fraction f d) = true.
Proof.
  intros H. apply forallb_firstn. rewrite forallb_app, H. simpl.
  induction (Z.to_nat d - length f)%nat; simpl; auto.
Qed.

Lemma fold_digits_nonneg s :
  forallb is_digit s = true ->
  forall acc, 0 <= acc ->
    0 <= fold_left (fun a c => a * 10 + (c - 48)) s acc.
Proof.
  induction s as [| c s IH]; simpl; intros H acc Hacc; [exact Hacc |].
  apply andb_true_iff in H as [Hc Hs]. apply IH; [exact Hs |].
  unfold is_digit in Hc. rewrite andb_true_iff, !Z.leb_le in Hc. lia.
Qed.

Lemma digits_value_nonneg s :
  forallb is_digit s = true -> 0 <= digits_value s.
Proof. intros H. apply fold_digits_nonneg; [exact H | lia]. Qed.

(** ** parseTokenAmount on a well-formed amount *)

Lemma parseTokenAmount_nonempty s d :
  trim s <> [] ->
  parseTokenAmount s d =
  if negb (Regex.test decimal_re (trim s)) then
    Throw (new_Error "Invalid amount format")
  else
    let parts := split_on 46 (trim s) in
    let? base := BigInt_pow 10 d in
    let? w := BigInt_of_string (or_else (nth 0 parts []) (js "0")) in
    let? f := BigInt_of_string
                (or_else (slice0 (padEnd (nth 1 parts []) d 48) d) (js "0")) in
    BN_of_string (BigInt_toString (w * base + f)).
Proof.
  intros H. unfold parseTokenAmount. destruct (trim s); [congruence | reflexivity].
Qed.

Lemma BigInt_of_padded f d :
  forallb is_digit f = true ->
  BigInt_of_string (or_else (fixed_fraction f d) (js "0")) =
  Ok (digits_value (fixed_fraction f d)).
Proof.
  intros H. pose proof (fixed_fraction_digits f d H) as Hd.
  destruct (fixed_fraction f d) as [| c r] eqn:E; [reflexivity |].
  cbn [or_else]. apply BigInt_of_digit_string. split; [discriminate | exact Hd].
Qed.

Lemma parse_parts w f d :
  digit_string w -> forallb is_digit f = true -> 0 <= d ->
  (let? base := BigInt_pow 10 d in
   let? w' := BigInt_of_string (or_else w (js "0")) in
   let? f' := BigInt_of_string (or_else (slice0 (padEnd f d 48) d) (js "0")) in
   BN_of_string (BigInt_toString (w' * base + f')))
  = Ok (digits_value w * 10 ^ d + digits_value (fixed_fraction f d)).
Proof.
  intros Hw Hf Hd. unfold BigInt_pow.
  destruct (Z.ltb_spec d 0) as [? | _]; [lia |]. cbn [rbind].
  replace (or_else w (js "0")) with w
    by (destruct Hw as [Hne _]; destruct w; [congruence | reflexivity]).
  rewrite (BigInt_of_digit_string _ Hw). cbn [rbind].
  rewrite slice0_padEnd by exact Hd.
  rewrite BigInt_of_padded by exact Hf. cbn [rbind].
  apply BN_of_toString.
  pose proof (digits_value_nonneg _ (proj2 Hw)).
  pose proof (digits_value_nonneg _ (fixed_fraction_digits f d Hf)).
  pose proof (Z.pow_nonneg 10 d ltac:(lia)). nia.
Qed.

Lemma digit_string_no_dot w : digit_string w -> forallb not_dot w = true.
Proof. intros [_ H]. now apply forallb_digits_not_dot. Qed.

(** On a string of the accepted shape the result is
    [whole * 10^d + fraction padded and cut to d digits]. *)
Lemma parseTokenAmount_wellformed s d :
  0 <= d -> Regex.Matches decimal_re (trim s) ->
  parseTokenAmount s d =
  Ok (digits_value (whole_part (trim s)) * 10 ^ d
      + digits_value (fixed_fraction (fraction_part (trim s)) d)).
Proof.
  intros Hd Hm.
  assert (Hne : trim s <> []).
  { apply decimal_re_shape in Hm as [[Hne _] | (w & f & E & _)];
      [exact Hne | rewrite E; now destruct w]. }
  rewrite (parseTokenAmount_nonempty _ d Hne).
  rewrite (proj2 (test_spec _ _) Hm). cbn [negb].
  apply decimal_re_shape in Hm as [Hw | (w & f & E & Hw & Hf)].
  - pose proof (digit_string_no_dot _ Hw) as Hnd.
    rewrite (split_on_no_dot _ Hnd), (whole_part_no_dot _ Hnd),
      (fraction_part_no_dot _ Hnd).
    cbv zeta. cbn [nth]. now apply parse_parts.
  - rewrite E. pose proof (digit_string_no_dot _ Hw) as Hnd.
    rewrite (split_on_dot _ _ Hnd), (split_on_no_dot _ (digit_string_no_dot _ Hf)),
      (whole_part_dot _ _ Hnd), (fraction_part_dot _ _ Hnd).
    cbv zeta. cbn [nth]. apply parse_parts; [exact Hw | apply Hf | exact Hd].
Qed.

(** ** The parsed amount as a truncated rational *)

Lemma fold_digits_shift b :
  forall acc,
    fold_left (fun a c => a * 10 + (c - 48)) b acc =
    acc * 10 ^ Z.of_nat (length b) + digits_value b.
Proof.
  unfold digits_value.
  induction b as [| c b IH]; intros acc; cbn [fold_left length].
  - change (Z.of_nat 0) with 0. rewrite Z.pow_0_r. lia.
  - rewrite IH, (IH (0 * 10 + (c - 48))), Nat2Z.inj_succ, Z.pow_succ_r by lia.
    ring.
Qed.

Lemma digits_value_app a b :
  digits_value (a ++ b) =
  digits_value a * 10 ^ Z.of_nat (length b) + digits_value b.
Proof.
  unfold digits_value at 1. rewrite fold_left_app.
  now rewrite fold_digits_shift.
Qed.

Lemma digits_value_bound b :
  forallb is_digit b = true -> digits_value b < 10 ^ Z.of_nat (length b).
Proof.
  induction b as [| c b IH]; intros H.
  - reflexivity.
  - cbn [forallb] in H. apply andb_true_iff in H as [Hc Hb].
    change (c :: b) with ([c] ++ b). rewrite digits_value_app.
    cbn [length app]. rewrite Nat2Z.inj_succ, Z.pow_succ_r by lia.
    specialize (IH Hb). unfold digits_value at 1. cbn [fold_left].
    unfold is_digit in Hc. rewrite andb_true_iff, !Z.leb_le in Hc.
    pose proof (Z.pow_pos_nonneg 10 (Z.of_nat (length b)) ltac:(lia) ltac:(lia)).
    nia.
Qed.

Lemma digits_value_zeros m : digits_value (repeat 48 m) = 0.
Proof.
  unfold digits_value. induction m as [| m IH]; [reflexivity | exact IH].
Qed.

(** Padding and cutting the fraction to [d] digits is scaling its value
    by [10^d / 10^length] and dropping what is left over. *)
Lemma fixed_fraction_value f d :
  forallb is_digit f = true -> 0 <= d ->
  digits_value (fixed_fraction f d) =
  digits_value f * 10 ^ d / 10 ^ Z.of_nat (length f).
Proof.
  intros Hf Hd. unfold fixed_fraction.
  set (n := length f). set (k := Z.to_nat d).
  assert (Ed : d = Z.of_nat k) by (unfold k; lia).
  destruct (le_lt_dec n k) as [Hle | Hlt].
  - rewrite firstn_all2 by (rewrite length_app, repeat_length; fold n; lia).
    rewrite digits_value_app, digits_value_zeros, repeat_length, Z.add_0_r.
    replace (10 ^ d) with (10 ^ Z.of_nat (k - n) * 10 ^ Z.of_nat n)
      by (rewrite <- Z.pow_add_r by lia; f_equal; lia).
    rewrite Z.mul_assoc, Z.div_mul; [reflexivity |].
    apply Z.pow_nonzero; lia.
  - replace (k - n)%nat with 0%nat by lia. cbn [repeat]. rewrite app_nil_r.
    rewrite <- (firstn_skipn k f) at 2. rewrite digits_value_app.
    assert (Hlen : length (skipn k f) = (n - k)%nat) by (rewrite length_skipn; reflexivity).
    rewrite Hlen.
    assert (Hb : 0 <= digits_value (skipn k f) < 10 ^ Z.of_nat (n - k)).
    { assert (Hs : forallb is_digit (skipn k f) = true).
      { rewrite <- (firstn_skipn k f) in Hf. rewrite forallb_app in Hf.
        now apply andb_true_iff in Hf as [_ ?]. }
      split; [now apply digits_value_nonneg |].
      rewrite <- Hlen. now apply digits_value_bound. }
    set (A := digits_value (firstn k f)) in *.
    set (B := digits_value (skipn k f)) in *.
    replace (10 ^ Z.of_nat n) with (10 ^ d * 10 ^ Z.of_nat (n - k))
      by (rewrite <- Z.pow_add_r by lia; f_equal; lia).
    assert (Hp : 0 < 10 ^ d) by (apply Z.pow_pos_nonneg; lia).
    assert (Hq : 0 < 10 ^ Z.of_nat (n - k)) by (apply Z.pow_pos_nonneg; lia).
    rewrite (Z.mul_comm _ (10 ^ d)), Z.div_mul_cancel_l by lia.
    rewrite Z.div_add_l by lia. rewrite Z.div_small by lia. lia.
Qed.

Lemma Qfloor_inject_div a n :
  0 < n -> Qfloor (inject_Z a / inject_Z n) = a / n.
Proof.
  intros Hn. destruct n as [| p | p]; try lia.
  unfold Qdiv, Qmult, Qinv, inject_Z, Qfloor. cbn [Qnum Qden].
  now rewrite Z.mul_1_r, Pos.mul_1_l.
Qed.

(** The scaled value of a numeral, cut to an integer. *)
Lemma floor_of_denotation W F n d :
  0 <= n -> 0 <= d ->
  Qfloor ((inject_Z W + inject_Z F / inject_Z (10 ^ n)) * inject_Z (10 ^ d))
  = W * 10 ^ d + F * 10 ^ d / 10 ^ n.
Proof.
  intros Hn Hd.
  assert (Hp : 0 < 10 ^ n) by (apply Z.pow_pos_nonneg; lia).
  assert (E : ((inject_Z W + inject_Z F / inject_Z (10 ^ n)) * inject_Z (10 ^ d)
               == inject_Z (W * 10 ^ d * 10 ^ n + F * 10 ^ d) / inject_Z (10 ^ n))%Q).
  { rewrite inject_Z_plus, !inject_Z_mult. field.
    intros C. unfold Qeq, inject_Z in C. cbn [Qnum Qden] in C. lia. }
  rewrite E, Qfloor_inject_div by exact Hp.
  rewrite Z.div_add_l by lia. reflexivity.
Qed.

(** parseTokenAmount returns the numeral's value scaled by [10^d] and
    cut to an integer. *)
Lemma parseTokenAmount_floor s d :
  0 <= d -> Regex.Matches decimal_re (trim s) ->
  parseTokenAmount s d =
  Ok (Qfloor (decimal_denotation (trim s) * inject_Z (10 ^ d))).
Proof.
  intros Hd Hm. rewrite parseTokenAmount_wellformed by assumption.
  unfold decimal_denotation. rewrite floor_of_denotation by lia.
  rewrite fixed_fraction_value; [reflexivity | | exact Hd].
  apply decimal_re_shape in Hm as [Hw | (w & f & E & Hw & Hf)].
  - now rewrite (fraction_part_no_dot _ (digit_string_no_dot _ Hw)).
  - rewrite E, (fraction_part_dot _ _ (digit_string_no_dot _ Hw)). apply Hf.
Qed.

Lemma truncate_to_eq d q1 q2 :
  0 <= d ->
  (truncate_to d q1 == truncate_to d q2)%Q <->
  Qfloor (q1 * inject_Z (10 ^ d)) = Qfloor (q2 * inject_Z (10 ^ d)).
Proof.
  intros Hd. unfold truncate_to.
  assert (Hp : 0 < 10 ^ d) by (apply Z.pow_pos_nonneg; lia).
  destruct (10 ^ d) as [| p | p] eqn:Ep; try lia.
  set (a := Qfloor (q1 * inject_Z (Z.pos p))).
  set (b := Qfloor (q2 * inject_Z (Z.pos p))).
  unfold Qeq, Qdiv, Qmult, Qinv, inject_Z. cbn [Qnum Qden].
  rewrite !Z.mul_1_r, !Pos.mul_1_l. split; [nia | now intros ->].
Qed.

(** A string the pattern accepts has no white space at either end. *)
Lemma dropWhile_ws_head c s : is_ws c = false -> dropWhile is_ws (c :: s) = c :: s.
Proof. intros H. simpl. now rewrite H. Qed.

Lemma trim_digit_ends s :
  (exists c r, s = c :: r /\ is_digit c = true) ->
  (exists c r, rev s = c :: r /\ is_digit c = true) ->
  trim s = s.
Proof.
  intros (c & r & -> & Hc) (c' & r' & E & Hc').
  unfold trim, trimStart, trimEnd.
  rewrite dropWhile_ws_head by now apply is_digit_not_ws.
  rewrite E, dropWhile_ws_head by now apply is_digit_not_ws.
  rewrite <- E. apply rev_involutive.
Qed.

Lemma digit_string_head s :
  digit_string s -> exists c r, s = c :: r /\ is_digit c = true.
Proof.
  intros [Hne H]. destruct s as [| c r]; [congruence |].
  exists c, r. split; [reflexivity |].
  cbn [forallb] in H. now apply andb_true_iff in H as [? _].
Qed.

Lemma digit_string_rev s : digit_string s -> digit_string (rev s).
Proof.
  intros [Hne H]. split; [| now rewrite forallb_rev].
  intros E. apply Hne. rewrite <- (rev_involutive s), E. reflexivity.
Qed.

Lemma trim_matched s : Regex.Matches decimal_re s -> trim s = s.
Proof.
  intros Hm. apply decimal_re_shape in Hm as [Hw | (w & f & -> & Hw & Hf)].
  - apply trim_digits, Hw.
  - apply trim_digit_ends.
    + destruct (digit_string_head _ Hw) as (c & r & -> & Hc).
      now exists c, (r ++ 46 :: f).
    + destruct (digit_string_head _ (digit_string_rev _ Hf)) as (c & r & E & Hc).
      exists c, (r ++ 46 :: rev w). split; [| exact Hc].
      rewrite rev_app_distr. change (rev (46 :: f)) with (rev f ++ [46]).
      rewrite E, <- app_assoc. reflexivity.
Qed.

(** The whole and fractional parts of an accepted string are the [w]
    and [f] of its shape. *)
Lemma decimal_parts w f :
  digit_string w -> digit_string f ->
  whole_part (w ++ 46 :: f) = w /\ fraction_part (w ++ 46 :: f) = f.
Proof.
  intros Hw _. pose proof (digit_string_no_dot _ Hw) as Hnd.
  split; [now apply whole_part_dot | now apply fraction_part_dot].
Qed.

Lemma integer_parts w :
  digit_string w -> whole_part w = w /\ fraction_part w = [].
Proof.
  intros Hw. pose proof (digit_string_no_dot _ Hw) as Hnd.
  split; [now apply whole_part_no_dot | now apply fraction_part_no_dot].
Qed.

(** ** Amount parsing: the claims *)

(** C2. For every string [s] and decimal count [d >= 0]: when [s] trims
    to the empty string, [parseTokenAmount s d] is 0; when the trimmed
    string matches [^\d+(\.\d+)?$], with whole part [w] and fractional
    part [f], it is [w * 10^d] plus [f] right-padded with zeros to
    length [d], cut to its first [d] digits and read as an integer.
    Digits past the [d]-th are dropped, not rounded: ["0.9999999"] at 6
    decimals is 999999, and ["1.5"] at 6 decimals is 1500000. *)
Theorem parseTokenAmount_value :
  forall (s : jsstring) (d : Z),
    0 <= d ->
    (trim s = [] -> parseTokenAmount s d = Ok 0)
    /\ (Regex.Matches decimal_re (trim s) ->
        parseTokenAmount s d =
        Ok (digits_value (whole_part (trim s)) * 10 ^ d
            + digits_value (fixed_fraction (fraction_part (trim s)) d)))
    /\ parseTokenAmount (js "0.9999999") 6 = Ok 999999
    /\ parseTokenAmount (js "1.5") 6 = Ok 1500000.
Proof.
  intros s d Hd. repeat split.
  - intros E. unfold parseTokenAmount. now rewrite E.
  - intros Hm. now apply parseTokenAmount_wellformed.
Qed.

Lemma parseTokenAmount_value_witness :
  0 <= 2
  /\ Regex.Matches decimal_re (trim (js " 12.345 "))
  /\ parseTokenAmount (js " 12.345 ") 2 = Ok 1234.
Proof.
  assert (Hm : Regex.Matches decimal_re (trim (js " 12.345 ")))
    by (apply test_spec; reflexivity).
  split; [lia |]. split; [exact Hm |].
  destruct (parseTokenAmount_value (js " 12.345 ") 2 ltac:(lia)) as (_ & H & _).
  exact (H Hm).
Defined.

(** C8. Every string whose trimmed form is non-empty and does not match
    [^\d+(\.\d+)?$] makes [parseTokenAmount] throw 'Invalid amount
    format', whatever the decimal count; every string whose trimmed form
    does not match [^\d+$] makes [parseIntegerAmount] throw 'Invalid
    integer amount'.  Negative numbers, exponents and text are refused
    in this way; no value is returned in their place. *)
Theorem malformed_amounts_rejected :
  (forall (s : jsstring) (d : Z),
      trim s <> [] -> ~ Regex.Matches decimal_re (trim s) ->
      parseTokenAmount s d = Throw (new_Error "Invalid amount format"))
  /\ (forall s : jsstring,
      ~ Regex.Matches integer_re (trim s) ->
      parseIntegerAmount s = Throw (new_Error "Invalid integer amount"))
  /\ (forall d : Z,
      parseTokenAmount (js "abc") d = Throw (new_Error "Invalid amount format")
      /\ parseTokenAmount (js "-1") d = Throw (new_Error "Invalid amount format")
      /\ parseTokenAmount (js "1e5") d = Throw (new_Error "Invalid amount format")
      /\ parseTokenAmount (js "1.") d = Throw (new_Error "Invalid amount format")
      /\ parseTokenAmount (js ".5") d = Throw (new_Error "Invalid amount format"))
  /\ parseIntegerAmount (js "1.5") = Throw (new_Error "Invalid integer amount")
  /\ parseIntegerAmount (js "-1") = Throw (new_Error "Invalid integer amount")
  /\ parseIntegerAmount (js "") = Throw (new_Error "Invalid integer amount").
Proof.
  split; [| split; [| split; [| repeat split]]].
  - intros s d Hne Hm. rewrite parseTokenAmount_nonempty by exact Hne.
    apply test_false_iff in Hm. now rewrite Hm.
  - intros s Hm. unfold parseIntegerAmount.
    apply test_false_iff in Hm. now rewrite Hm.
  - intros d. repeat split.
Qed.

Lemma malformed_amounts_rejected_witness :
  trim (js " 12,5 ") <> []
  /\ ~ Regex.Matches decimal_re (trim (js " 12,5 "))
  /\ parseTokenAmount (js " 12,5 ") 6 = Throw (new_Error "Invalid amount format").
Proof.
  assert (Hne : trim (js " 12,5 ") <> []) by discriminate.
  assert (Hm : ~ Regex.Matches decimal_re (trim (js " 12,5 ")))
    by (apply test_false_iff; reflexivity).
  split; [exact Hne |]. split; [exact Hm |].
  exact (proj1 malformed_amounts_rejected (js " 12,5 ") 6 Hne Hm).
Defined.

(** C9. For every decimal count [d >= 0] and strings [s1], [s2] matching
    [^\d+(\.\d+)?$], [parseTokenAmount] gives the same amount for both
    exactly when the rationals they denote are equal once cut to [d]
    fractional digits; ["1.5"] at 6 decimals gives 1500000. *)
Theorem parseTokenAmount_injective_on_truncations :
  forall (d : Z) (s1 s2 : jsstring),
    0 <= d ->
    Regex.Matches decimal_re s1 ->
    Regex.Matches decimal_re s2 ->
    (parseTokenAmount s1 d = parseTokenAmount s2 d <->
     (truncate_to d (decimal_denotation s1)
      == truncate_to d (decimal_denotation s2))%Q)
    /\ parseTokenAmount (js "1.5") 6 = Ok 1500000.
Proof.
  intros d s1 s2 Hd H1 H2. split; [| reflexivity].
  rewrite truncate_to_eq by exact Hd.
  pose proof (trim_matched _ H1) as T1. pose proof (trim_matched _ H2) as T2.
  rewrite (parseTokenAmount_floor s1 d Hd), (parseTokenAmount_floor s2 d Hd)
    by (rewrite ?T1, ?T2; assumption).
  rewrite T1, T2.
  generalize (Qfloor (decimal_denotation s1 * inject_Z (10 ^ d)))
             (Qfloor (decimal_denotation s2 * inject_Z (10 ^ d))).
  intros a b. split; [intros [= E]; exact E | intros ->; reflexivity].
Qed.

Lemma parseTokenAmount_injective_on_truncations_witness :
  0 <= 6
  /\ Regex.Matches decimal_re (js "1.5")
  /\ Regex.Matches decimal_re (js "01.50000049")
  /\ parseTokenAmount (js "1.5") 6 = parseTokenAmount (js "01.50000049") 6
  /\ (truncate_to 6 (decimal_denotation (js "1.5"))
      == truncate_to 6 (decimal_denotation (js "01.50000049")))%Q.
Proof.
  assert (H1 : Regex.Matches decimal_re (js "1.5"))
    by (apply test_spec; reflexivity).
  assert (H2 : Regex.Matches decimal_re (js "01.50000049"))
    by (apply test_spec; reflexivity).
  split; [lia |]. split; [exact H1 |]. split; [exact H2 |].
  split; [reflexivity |].
  apply (proj1 (parseTokenAmount_injective_on_truncations
                  6 (js "1.5") (js "01.50000049") ltac:(lia) H1 H2)).
  reflexivity.
Defined.


(** ** Byte encodings *)

Lemma le_bytes_length n m : length (le_bytes n m) = n.
Proof. unfold le_bytes. now rewrite length_map, length_seq. Qed.

Lemma be_bytes_length n m : length (be_bytes n m) = n.
Proof. unfold be_bytes. now rewrite length_rev, le_bytes_length. Qed.

Lemma le_bytes_succ n m :
  le_bytes (S n) m = (m mod 256) :: le_bytes n (m / 256).
Proof.
  unfold le_bytes. cbn [seq map]. f_equal.
  - now rewrite Z.mul_0_r, Z.pow_0_r, Z.div_1_r.
  - rewrite <- seq_shift, map_map. apply map_ext. intros i.
    rewrite Nat2Z.inj_succ, Z.mul_succ_r, Z.pow_add_r by lia.
    rewrite (Z.mul_comm (2 ^ (8 * Z.of_nat i))), <- Z.div_div by
      (try apply Z.pow_pos_nonneg; lia).
    reflexivity.
Qed.

Lemma le_bytes_are_bytes n m : Forall is_byte (le_bytes n m).
Proof.
  unfold le_bytes. apply Forall_map, Forall_forall. intros i _.
  apply Z.mod_pos_bound. lia.
Qed.

(** Reading [n] little-endian bytes of [m] back gives [m] modulo
    [256^n]. *)
Lemma le_value_le_bytes n :
  forall m, le_value (le_bytes n m) = m mod 256 ^ Z.of_nat n.
Proof.
  induction n as [| n IH]; intros m.
  - cbn. now rewrite Z.mod_1_r.
  - rewrite le_bytes_succ. cbn [le_value fold_right]. fold (le_value (le_bytes n (m / 256))).
    rewrite IH, Nat2Z.inj_succ, Z.pow_succ_r by lia.
    rewrite Z.rem_mul_r; [reflexivity | lia | apply Z.pow_pos_nonneg; lia].
Qed.

Lemma le_bytes_roundtrip n m :
  0 <= m < 256 ^ Z.of_nat n -> le_value (le_bytes n m) = m.
Proof. intros H. rewrite le_value_le_bytes. now apply Z.mod_small. Qed.

Lemma toBuffer_length k : length (toBuffer k) = 32%nat.
Proof. apply be_bytes_length. Qed.

(** A key below [2^256] is read back from its buffer. *)
Lemma toBuffer_roundtrip k :
  0 <= pk_bn k < 2 ^ 256 -> be_value (toBuffer k) = pk_bn k.
Proof.
  intros H. unfold be_value, toBuffer, be_bytes. rewrite rev_involutive.
  apply le_bytes_roundtrip. exact H.
Qed.

(** ** Hexadecimal text *)

Lemma digit_in_hex_digit n :
  0 <= n < 16 -> digit_in 16 (hex_digit n) = Some n.
Proof.
  intros H. rewrite <- (Z2Nat.id n) by lia.
  assert (Hk : (Z.to_nat n < 16)%nat) by lia.
  revert Hk. generalize (Z.to_nat n) as k. intros k Hk.
  repeat (destruct k as [| k]; [reflexivity | try (exfalso; lia)]).
Qed.

(** Decoding the hexadecimal text of a byte sequence gives it back. *)
Lemma Buffer_from_hex_encode bs :
  Forall is_byte bs -> Buffer_from_hex (hex_encode bs) = bs.
Proof.
  induction 1 as [| b bs Hb _ IH]; [reflexivity |].
  unfold is_byte in Hb. cbn [hex_encode flat_map app Buffer_from_hex].
  fold (hex_encode bs).
  rewrite !digit_in_hex_digit.
  - rewrite IH. f_equal. pose proof (Z.div_mod b 16 ltac:(lia)). lia.
  - apply Z.mod_pos_bound. lia.
  - split; [apply Z.div_pos; lia | apply Z.div_lt_upper_bound; lia].
Qed.

(** ** Keccak-256 output *)

Lemma digest_length msg : length (Keccak.digest msg) = 32%nat.
Proof. unfold Keccak.digest, Keccak.squeeze. now rewrite length_map, length_seq. Qed.

Lemma digest_bytes msg : Forall is_byte (Keccak.digest msg).
Proof.
  unfold Keccak.digest, Keccak.squeeze. apply Forall_map, Forall_forall.
  intros i _. apply Z.mod_pos_bound. lia.
Qed.

(** [Buffer.from(keccak256(data), 'hex')] is the 32-byte digest. *)
Lemma keccak256_buffer data :
  Buffer_from_hex (keccak256 data) = Keccak.digest data.
Proof. apply Buffer_from_hex_encode, digest_bytes. Qed.

(** ** [BN] from a number *)

Lemma BN_byteLength_small v : Z.abs v < 2 ^ 53 -> BN_byteLength v <= 7.
Proof.
  intros H. unfold BN_byteLength. destruct (Z.eqb_spec (Z.abs v) 0); [lia |].
  assert (Z.log2 (Z.abs v) < 53) by (apply Z.log2_lt_pow2; lia).
  pose proof (Z.log2_nonneg (Z.abs v)).
  assert (Z.log2 (Z.abs v) / 8 < 7) by (apply Z.div_lt_upper_bound; lia).
  lia.
Qed.

Lemma lltv_buffer lltv :
  Z.abs lltv < 2 ^ 53 ->
  (let? bn := BN_of_number lltv in BN_toArrayLike_le bn 8)
  = Ok (le_bytes 8 (Z.abs lltv)).
Proof.
  intros H. unfold BN_of_number.
  destruct (Z.ltb_spec (Z.abs lltv) (2 ^ 53)); [| lia]. cbn [rbind].
  unfold BN_toArrayLike_le. pose proof (BN_byteLength_small _ H).
  destruct (Z.ltb_spec (Z.of_nat 8) (BN_byteLength lltv)); [lia | reflexivity].
Qed.

(** ** Market id: the claim *)

(** C1 (amended).  For every four public keys and every integer [lltv]
    of magnitude below [2^53], [calculateMarketId] returns the 32-byte
    Keccak-256 digest of [collateralMint || loanMint || oracle || irm]
    followed by the magnitude of [lltv] as 8 little-endian bytes, each
    key being written as its 32 bytes; that 8-byte field is the
    little-endian encoding of [lltv] itself when [lltv] is not
    negative.  For an integer of magnitude [2^53] or more the call
    throws and returns no identifier. *)
Theorem calculateMarketId_digest :
  forall (collateralMint loanMint oracle irm : PublicKey) (lltv : Z),
    (Z.abs lltv < 2 ^ 53 ->
     let data := toBuffer collateralMint ++ toBuffer loanMint
                 ++ toBuffer oracle ++ toBuffer irm
                 ++ le_bytes 8 (Z.abs lltv) in
     calculateMarketId collateralMint loanMint oracle irm lltv
     = Ok (Keccak.digest data)
     /\ length (Keccak.digest data) = 32%nat
     /\ length data = 136%nat
     /\ le_value (le_bytes 8 (Z.abs lltv)) = Z.abs lltv
     /\ (0 <= lltv -> le_bytes 8 (Z.abs lltv) = le_bytes 8 lltv))
    /\ (2 ^ 53 <= Z.abs lltv ->
        calculateMarketId collateralMint loanMint oracle irm lltv
        = Throw (new_Error "Assertion failed")).
Proof.
  intros cm lm o irm lltv. split.
  - intros H data. split; [| split; [| split; [| split]]].
    + unfold calculateMarketId.
      pose proof (lltv_buffer lltv H) as E. unfold rbind in E |- *.
      destruct (BN_of_number lltv) as [bn |]; [| discriminate].
      rewrite E. rewrite keccak256_buffer. cbn [concat]. rewrite app_nil_r.
      reflexivity.
    + apply digest_length.
    + unfold data. now rewrite !length_app, !toBuffer_length, le_bytes_length.
    + apply le_bytes_roundtrip. change (256 ^ Z.of_nat 8) with (2 ^ 64). lia.
    + intros Hpos. now rewrite Z.abs_eq.
  - intros H. unfold calculateMarketId, BN_of_number.
    destruct (Z.ltb_spec (Z.abs lltv) (2 ^ 53)); [lia | reflexivity].
Qed.

Lemma calculateMarketId_digest_witness :
  Z.abs 8500 < 2 ^ 53
  /\ calculateMarketId (key_of_byte 1) (key_of_byte 2) (key_of_byte 3)
                       (key_of_byte 4) 8500
     = Ok (Keccak.digest (toBuffer (key_of_byte 1) ++ toBuffer (key_of_byte 2)
                          ++ toBuffer (key_of_byte 3) ++ toBuffer (key_of_byte 4)
                          ++ le_bytes 8 8500)).
Proof.
  split; [reflexivity |].
  exact (proj1 (proj1 (calculateMarketId_digest (key_of_byte 1) (key_of_byte 2)
                         (key_of_byte 3) (key_of_byte 4) 8500) eq_refl)).
Defined.

(** C1 as stated fails: the number [2^53] is an integer, and
    [new BN(2^53)] throws, so no identifier is returned; and for a
    negative integer the sign is dropped, so [-1] and [1] give the same
    identifier. *)
Lemma calculateMarketId_rejects_large_lltv :
  calculateMarketId (key_of_byte 1) (key_of_byte 2) (key_of_byte 3)
                    (key_of_byte 4) (2 ^ 53)
  = Throw (new_Error "Assertion failed")
  /\ calculateMarketId (key_of_byte 1) (key_of_byte 2) (key_of_byte 3)
                       (key_of_byte 4) (-1)
     = calculateMarketId (key_of_byte 1) (key_of_byte 2) (key_of_byte 3)
                         (key_of_byte 4) 1.
Proof. split; vm_compute; reflexivity. Qed.

(** ** Async computations *)

Lemma abind_Ok {A B} (m : Async A) (f : A -> Async B) a :
  snd m = Ok a -> abind m f = (fst m ++ fst (f a), snd (f a)).
Proof. intros H. unfold abind. now rewrite H. Qed.

Lemma abind_Throw {A B} (m : Async A) (f : A -> Async B) e :
  snd m = Throw e -> abind m f = (fst m, Throw e).
Proof. intros H. unfold abind. now rewrite H. Qed.

Lemma abind_lift_Ok {A B} (a : A) (f : A -> Async B) :
  abind (lift (Ok a)) f = f a.
Proof. unfold abind, lift. cbn. now destruct (f a). Qed.

Lemma abind_lift_Throw {A B} e (f : A -> Async B) :
  abind (lift (Throw e)) f = ([], Throw e).
Proof. reflexivity. Qed.

Lemma abind_rpc {B} connection k (f : option AccountInfo -> Async B) :
  abind (rpc_getAccountInfo connection k) f =
  match accountInfo connection k with
  | Ok answer => (GetAccountInfo k :: fst (f answer), snd (f answer))
  | Throw e => ([GetAccountInfo k], Throw e)
  end.
Proof.
  unfold rpc_getAccountInfo, abind, emit, lift. cbn [fst snd app].
  now destruct (accountInfo connection k).
Qed.

Lemma equals_iff a b : equals a b = true <-> a = b.
Proof.
  unfold equals. rewrite Z.eqb_eq. destruct a, b; cbn. split; congruence.
Qed.

(** ** Token program of a mint: the claim *)

Lemma getTokenProgramId_run connection mint :
  getTokenProgramId connection mint =
  ([GetAccountInfo mint],
   match accountInfo connection mint with
   | Ok None => Throw (new_Error "Mint account not found")
   | Ok (Some i) =>
       Ok (if equals (owner i) TOKEN_2022_PROGRAM_ID
           then TOKEN_2022_PROGRAM_ID else TOKEN_PROGRAM_ID)
   | Throw e => Throw e
   end).
Proof.
  unfold getTokenProgramId. rewrite abind_rpc.
  destruct (accountInfo connection mint) as [[i |] | e]; try reflexivity.
  now destruct (equals (owner i) TOKEN_2022_PROGRAM_ID).
Qed.

(** C10.  For a mint account that exists (the lookup of the mint
    answers with it), [getTokenProgramId] returns the Token-2022 program
    id exactly when the account's owner is that id, and the classic
    token program id for every other owner, token program or not; it
    does not fail, and it makes the one account lookup. *)
Theorem getTokenProgramId_by_owner :
  forall (connection : Connection) (mint : PublicKey) (info : AccountInfo),
    accountInfo connection mint = Ok (Some info) ->
    (snd (getTokenProgramId connection mint) = Ok TOKEN_2022_PROGRAM_ID
     <-> owner info = TOKEN_2022_PROGRAM_ID)
    /\ (owner info <> TOKEN_2022_PROGRAM_ID ->
        snd (getTokenProgramId connection mint) = Ok TOKEN_PROGRAM_ID)
    /\ (exists k, snd (getTokenProgramId connection mint) = Ok k)
    /\ fst (getTokenProgramId connection mint) = [GetAccountInfo mint].
Proof.
  intros connection mint info H. rewrite getTokenProgramId_run, H. cbn [fst snd].
  destruct (equals (owner info) TOKEN_2022_PROGRAM_ID) eqn:E.
  - apply equals_iff in E. split; [| split; [| split]].
    + split; [intros _; exact E | reflexivity].
    + intros C. contradiction.
    + now eexists.
    + reflexivity.
  - assert (N : owner info <> TOKEN_2022_PROGRAM_ID).
    { intros C. apply equals_iff in C. congruence. }
    split; [| split; [| split]].
    + split; [intros C; discriminate C | intros C; contradiction].
    + reflexivity.
    + now eexists.
    + reflexivity.
Qed.

Lemma getTokenProgramId_by_owner_witness :
  accountInfo odd_owner_connection example_mint
  = Ok (Some (mkAccountInfo SYSTEM_PROGRAM_ID 1 [] false))
  /\ snd (getTokenProgramId odd_owner_connection example_mint)
     = Ok TOKEN_PROGRAM_ID.
Proof.
  split; [reflexivity |].
  apply (getTokenProgramId_by_owner odd_owner_connection example_mint
           (mkAccountInfo SYSTEM_PROGRAM_ID 1 [] false) eq_refl).
  discriminate.
Defined.

(** ** Associated token account: the claim *)

Lemma getOrCreateAtaIx_mint_rejected connection payer owner mint e :
  accountInfo connection mint = Throw e ->
  getOrCreateAtaIx connection payer owner mint = ([GetAccountInfo mint], Throw e).
Proof.
  intros H. unfold getOrCreateAtaIx.
  rewrite (abind_Throw _ _ e) by now rewrite getTokenProgramId_run, H.
  now rewrite getTokenProgramId_run.
Qed.

Lemma getOrCreateAtaIx_no_mint connection payer owner mint :
  accountInfo connection mint = Ok None ->
  getOrCreateAtaIx connection payer owner mint =
  ([GetAccountInfo mint], Throw (new_Error "Mint account not found")).
Proof.
  intros H. unfold getOrCreateAtaIx.
  rewrite (abind_Throw _ _ (new_Error "Mint account not found"))
    by now rewrite getTokenProgramId_run, H.
  now rewrite getTokenProgramId_run.
Qed.

Lemma getOrCreateAtaIx_underivable connection payer owner mint info e :
  accountInfo connection mint = Ok (Some info) ->
  getAssociatedTokenAddressSync mint owner false (token_program_of info)
    ASSOCIATED_TOKEN_PROGRAM_ID = Throw e ->
  getOrCreateAtaIx connection payer owner mint = ([GetAccountInfo mint], Throw e).
Proof.
  intros H D. unfold getOrCreateAtaIx.
  rewrite (abind_Ok _ _ (token_program_of info))
    by now rewrite getTokenProgramId_run, H.
  rewrite getTokenProgramId_run. cbn [fst]. now rewrite D, abind_lift_Throw.
Qed.

(** Once the mint is found and the address derived, the outcome is
    that of the lookup of the address. *)
Lemma getOrCreateAtaIx_looked_up connection payer owner mint info ata :
  accountInfo connection mint = Ok (Some info) ->
  getAssociatedTokenAddressSync mint owner false (token_program_of info)
    ASSOCIATED_TOKEN_PROGRAM_ID = Ok ata ->
  getOrCreateAtaIx connection payer owner mint =
  ([GetAccountInfo mint; GetAccountInfo ata],
   match accountInfo connection ata with
   | Ok existing =>
       Ok (mkAtaResult ata (token_program_of info)
             match existing with
             | Some _ => None
             | None =>
                 Some (createAssociatedTokenAccountInstruction
                         payer ata owner mint (token_program_of info)
                         ASSOCIATED_TOKEN_PROGRAM_ID)
             end)
   | Throw e => Throw e
   end).
Proof.
  intros H D. unfold getOrCreateAtaIx.
  rewrite (abind_Ok _ _ (token_program_of info))
    by now rewrite getTokenProgramId_run, H.
  rewrite getTokenProgramId_run. cbn [fst]. rewrite D, abind_lift_Ok, abind_rpc.
  now destruct (accountInfo connection ata) as [[existing |] | e].
Qed.

Lemma getOrCreateAtaIx_derived connection payer owner mint info ata existing :
  accountInfo connection mint = Ok (Some info) ->
  getAssociatedTokenAddressSync mint owner false (token_program_of info)
    ASSOCIATED_TOKEN_PROGRAM_ID = Ok ata ->
  accountInfo connection ata = Ok existing ->
  getOrCreateAtaIx connection payer owner mint =
  ([GetAccountInfo mint; GetAccountInfo ata],
   Ok (mkAtaResult ata (token_program_of info)
         match existing with
         | Some _ => None
         | None =>
             Some (createAssociatedTokenAccountInstruction
                     payer ata owner mint (token_program_of info)
                     ASSOCIATED_TOKEN_PROGRAM_ID)
         end)).
Proof.
  intros H D E. rewrite (getOrCreateAtaIx_looked_up _ payer _ _ _ _ H D).
  now rewrite E.
Qed.

(** C6 (amended).  [getOrCreateAtaIx] fails exactly when a lookup of
    the node is rejected (that of the mint, or that of the derived
    address), when the mint account does not exist, or when the
    associated address cannot be derived for the mint's token program;
    a rejected lookup of the mint is what the call rejects with, and an
    owner key off the ed25519 curve is refused by the derivation.  When
    the mint exists, the address is derived and its lookup is answered,
    the result holds the address and the token program id, with the
    creation instruction for (payer, address, owner, mint, token program
    id) exactly when no account exists at the address. *)
Theorem getOrCreateAtaIx_outcome :
  forall (connection : Connection) (payer owner mint : PublicKey),
    ((exists e, snd (getOrCreateAtaIx connection payer owner mint) = Throw e)
     <-> ((exists e, accountInfo connection mint = Throw e)
          \/ accountInfo connection mint = Ok None
          \/ exists info,
               accountInfo connection mint = Ok (Some info)
               /\ ((exists e,
                       getAssociatedTokenAddressSync
                         mint owner false (token_program_of info)
                         ASSOCIATED_TOKEN_PROGRAM_ID = Throw e)
                   \/ exists ata e,
                        getAssociatedTokenAddressSync
                          mint owner false (token_program_of info)
                          ASSOCIATED_TOKEN_PROGRAM_ID = Ok ata
                        /\ accountInfo connection ata = Throw e)))
    /\ (forall e,
          accountInfo connection mint = Throw e ->
          snd (getOrCreateAtaIx connection payer owner mint) = Throw e)
    /\ (forall info ata e,
          accountInfo connection mint = Ok (Some info) ->
          getAssociatedTokenAddressSync
            mint owner false (token_program_of info)
            ASSOCIATED_TOKEN_PROGRAM_ID = Ok ata ->
          accountInfo connection ata = Throw e ->
          snd (getOrCreateAtaIx connection payer owner mint) = Throw e)
    /\ (forall info,
          accountInfo connection mint = Ok (Some info) ->
          isOnCurve (toBuffer owner) = false ->
          snd (getOrCreateAtaIx connection payer owner mint)
          = Throw (ErrorObject TokenOwnerOffCurveError_ [] NoLogsField))
    /\ (forall info ata existing,
          accountInfo connection mint = Ok (Some info) ->
          getAssociatedTokenAddressSync
            mint owner false (token_program_of info)
            ASSOCIATED_TOKEN_PROGRAM_ID = Ok ata ->
          accountInfo connection ata = Ok existing ->
          snd (getOrCreateAtaIx connection payer owner mint)
          = Ok (mkAtaResult ata (token_program_of info)
                  match existing with
                  | Some _ => None
                  | None =>
                      Some (createAssociatedTokenAccountInstruction
                              payer ata owner mint (token_program_of info)
                              ASSOCIATED_TOKEN_PROGRAM_ID)
                  end)).
Proof.
  intros connection payer owner mint. split; [| split; [| split; [| split]]].
  - destruct (accountInfo connection mint) as [[info |] | e0] eqn:H.
    + destruct (getAssociatedTokenAddressSync mint owner false
                  (token_program_of info) ASSOCIATED_TOKEN_PROGRAM_ID)
        as [ata | e] eqn:D.
      * rewrite (getOrCreateAtaIx_looked_up _ payer _ _ _ _ H D). cbn [snd].
        destruct (accountInfo connection ata) as [existing | e] eqn:E.
        -- split.
           ++ intros [e C]. discriminate C.
           ++ intros [[e C] | [C | (info' & Hi & [[e C] | (a & e & C & F)])]];
                congruence.
        -- split; [| intros _; now exists e].
           intros _. right. right. exists info. split; [reflexivity |].
           right. now exists ata, e.
      * rewrite (getOrCreateAtaIx_underivable _ payer _ _ _ _ H D). cbn [snd].
        split; [| intros _; now exists e].
        intros _. right. right. exists info. split; [reflexivity |].
        left. now exists e.
    + rewrite (getOrCreateAtaIx_no_mint _ payer owner _ H). cbn [snd].
      split; [intros _; right; now left | intros _; now eexists].
    + rewrite (getOrCreateAtaIx_mint_rejected _ payer owner _ _ H). cbn [snd].
      split; [intros _; left; now exists e0 | intros _; now exists e0].
  - intros e H. now rewrite (getOrCreateAtaIx_mint_rejected _ payer owner _ _ H).
  - intros info ata e H D E.
    rewrite (getOrCreateAtaIx_looked_up _ payer _ _ _ _ H D). cbn [snd].
    now rewrite E.
  - intros info H Hoff.
    rewrite (getOrCreateAtaIx_underivable _ payer _ _ _
               (ErrorObject TokenOwnerOffCurveError_ [] NoLogsField) H);
      [reflexivity |].
    unfold getAssociatedTokenAddressSync. now rewrite Hoff.
  - intros info ata existing H D E.
    now rewrite (getOrCreateAtaIx_derived _ payer _ _ _ _ _ H D E).
Qed.

(** The derivations of the example scenario, computed once. *)
Lemma example_wallet_on_curve :
  isOnCurve (toBuffer (publicKey example_wallet)) = true.
Proof. vm_compute. reflexivity. Qed.

Lemma off_curve_key_is_off : isOnCurve (toBuffer off_curve_key) = false.
Proof. vm_compute. reflexivity. Qed.

Lemma example_ata_derived :
  getAssociatedTokenAddressSync example_mint (publicKey example_wallet) false
    TOKEN_PROGRAM_ID ASSOCIATED_TOKEN_PROGRAM_ID = Ok example_ata.
Proof. vm_compute. reflexivity. Qed.

Lemma example_position_derived :
  getPositionPDA example_market_id (publicKey example_wallet)
  = Ok (example_position, 255).
Proof. vm_compute. reflexivity. Qed.

Lemma example_loan_vault_derived :
  getLoanVaultPDA example_market_id = Ok (example_loan_vault, 255).
Proof. vm_compute. reflexivity. Qed.

(** The protocol state account of the deployed program:
    Bjq2ixFnAg366cJ9Fo47g1yw1TvpBF3vWULeiuQ2TFEL, bump 255. *)
Lemma protocol_state_derived :
  getProtocolStatePDA = Ok (protocol_state_address, 255).
Proof. vm_compute. reflexivity. Qed.

Lemma getOrCreateAtaIx_outcome_witness :
  accountInfo token_connection example_mint
  = Ok (Some (mkAccountInfo TOKEN_PROGRAM_ID 1461600 [] false))
  /\ snd (getOrCreateAtaIx token_connection (publicKey example_wallet)
            (publicKey example_wallet) example_mint)
     = Ok (mkAtaResult example_ata TOKEN_PROGRAM_ID
             (Some (createAssociatedTokenAccountInstruction
                      (publicKey example_wallet) example_ata
                      (publicKey example_wallet) example_mint
                      TOKEN_PROGRAM_ID ASSOCIATED_TOKEN_PROGRAM_ID)))
  /\ snd (getOrCreateAtaIx funded_connection (publicKey example_wallet)
            (publicKey example_wallet) example_mint)
     = Ok (mkAtaResult example_ata TOKEN_PROGRAM_ID None).
Proof.
  split; [reflexivity |]. split.
  - exact (proj2 (proj2 (proj2 (proj2
             (getOrCreateAtaIx_outcome token_connection
                (publicKey example_wallet) (publicKey example_wallet)
                example_mint))))
             (mkAccountInfo TOKEN_PROGRAM_ID 1461600 [] false) example_ata
             None eq_refl example_ata_derived eq_refl).
  - exact (proj2 (proj2 (proj2 (proj2
             (getOrCreateAtaIx_outcome funded_connection
                (publicKey example_wallet) (publicKey example_wallet)
                example_mint))))
             (mkAccountInfo TOKEN_PROGRAM_ID 1461600 [] false) example_ata
             (Some (mkAccountInfo TOKEN_PROGRAM_ID 2039280 [] false))
             eq_refl example_ata_derived eq_refl).
Defined.

(** C6 as stated fails: the mint exists, and the call still fails,
    because the owner key is off the curve and the address derivation is
    called with [allowOwnerOffCurve = false]. *)
Lemma getOrCreateAtaIx_fails_with_existing_mint :
  accountInfo token_connection example_mint
  = Ok (Some (mkAccountInfo TOKEN_PROGRAM_ID 1461600 [] false))
  /\ getOrCreateAtaIx token_connection (publicKey example_wallet)
       off_curve_key example_mint
     = ([GetAccountInfo example_mint],
        Throw (ErrorObject TokenOwnerOffCurveError_ [] NoLogsField)).
Proof.
  split; [reflexivity |].
  apply (getOrCreateAtaIx_underivable token_connection
           (publicKey example_wallet) off_curve_key example_mint
           (mkAccountInfo TOKEN_PROGRAM_ID 1461600 [] false)).
  - reflexivity.
  - unfold getAssociatedTokenAddressSync.
    now rewrite off_curve_key_is_off.
Qed.

(** ** Sending: which instructions reach the wallet *)

Lemma added_present (ixs : list (option TransactionInstruction)) :
  flat_map (fun ix => match ix with Some i => [i] | None => [] end) ixs
  = present ixs.
Proof.
  induction ixs as [| [i |] r IH]; cbn [flat_map present app]; congruence.
Qed.

Lemma present_all_absent {A} (l : list (option A)) :
  Forall (fun x => x = None) l <-> present l = [].
Proof.
  split.
  - induction 1 as [| x l -> _ IH]; [reflexivity | exact IH].
  - induction l as [| [a |] l IH]; cbn [present]; intros H;
      [constructor | discriminate | constructor; auto].
Qed.

Lemma present_app {A} (l1 l2 : list (option A)) :
  present (l1 ++ l2) = present l1 ++ present l2.
Proof.
  induction l1 as [| [a |] l1 IH]; cbn [present app]; congruence.
Qed.

Section Sending.

Variable connection : Connection.
Variable wallet : AnchorWallet.

Lemma sendInstructions_nothing ixs :
  present ixs = [] ->
  sendInstructions connection wallet ixs
  = ([], Throw (new_Error "No instructions to send")).
Proof.
  intros H. unfold sendInstructions. now rewrite added_present, H.
Qed.

Lemma sendInstructions_something ixs :
  present ixs <> [] ->
  sendInstructions connection wallet ixs =
  let tx := mkTransaction (Some (publicKey wallet)) (present ixs) in
  try_catch
    (emit (SendAndConfirm tx) ;; lift (confirm connection tx))
    (fun error =>
       await logs := logs_of_failure error in
       athrow (annotate error logs)).
Proof.
  intros H. unfold sendInstructions. rewrite added_present.
  destruct (present ixs); [congruence | reflexivity].
Qed.

Lemma sendInstructions_confirmed ixs signature :
  present ixs <> [] ->
  confirm connection (mkTransaction (Some (publicKey wallet)) (present ixs))
  = Ok signature ->
  sendInstructions connection wallet ixs
  = ([SendAndConfirm (mkTransaction (Some (publicKey wallet)) (present ixs))],
     Ok signature).
Proof.
  intros H C. rewrite sendInstructions_something by exact H. cbv zeta.
  unfold try_catch, abind, emit, lift. cbn [fst snd]. now rewrite C.
Qed.

Lemma sendInstructions_failed ixs e :
  present ixs <> [] ->
  confirm connection (mkTransaction (Some (publicKey wallet)) (present ixs))
  = Throw e ->
  sendInstructions connection wallet ixs
  = (SendAndConfirm (mkTransaction (Some (publicKey wallet)) (present ixs))
       :: fst (logs_of_failure e),
     match snd (logs_of_failure e) with
     | Ok logs => Throw (annotate e logs)
     | Throw e' => Throw e'
     end).
Proof.
  intros H C. rewrite sendInstructions_something by exact H. cbv zeta.
  unfold try_catch, abind, emit, lift, athrow. cbn [fst snd]. rewrite C.
  cbn [fst snd app].
  destruct (snd (logs_of_failure e)); cbn [fst snd]; now rewrite ?app_nil_r.
Qed.

Lemma submitted_app t1 t2 : submitted (t1 ++ t2) = submitted t1 ++ submitted t2.
Proof. apply flat_map_app. Qed.

Lemma logs_of_failure_sends_nothing e : submitted (fst (logs_of_failure e)) = [].
Proof.
  destruct e as [c m [| v] | m [lines | e'] | [| v] | v]; reflexivity.
Qed.

(** One transaction at most reaches the wallet, made of the present
    instructions in their order, with the wallet as fee payer. *)
Lemma submitted_sendInstructions ixs :
  submitted (fst (sendInstructions connection wallet ixs)) =
  match present ixs with
  | [] => []
  | sent => [mkTransaction (Some (publicKey wallet)) sent]
  end.
Proof.
  destruct (present ixs) as [| i sent] eqn:P.
  - now rewrite sendInstructions_nothing.
  - assert (N : present ixs <> []) by (rewrite P; discriminate).
    destruct (confirm connection
                (mkTransaction (Some (publicKey wallet)) (present ixs)))
      as [sig | e] eqn:C.
    + rewrite (sendInstructions_confirmed _ _ N C). cbn. now rewrite P.
    + rewrite (sendInstructions_failed _ _ N C). cbn [fst].
      change (submitted (?x :: ?t)) with (submitted ([x] ++ t)).
      rewrite submitted_app, logs_of_failure_sends_nothing. cbn. now rewrite P.
Qed.

End Sending.

(** C4.  When every entry of the instruction list is absent, the empty
    list included, [sendInstructions] throws 'No instructions to send'
    and its trace is empty: neither the wallet nor the node is
    called. *)
Theorem sendInstructions_all_absent :
  forall (connection : Connection) (wallet : AnchorWallet)
         (ixs : list (option TransactionInstruction)),
    Forall (fun ix => ix = None) ixs ->
    sendInstructions connection wallet ixs
    = ([], Throw (new_Error "No instructions to send")).
Proof.
  intros connection wallet ixs H. apply sendInstructions_nothing.
  now apply present_all_absent.
Qed.

Lemma sendInstructions_all_absent_witness :
  Forall (fun ix : option TransactionInstruction => ix = None) [None; None]
  /\ sendInstructions token_connection example_wallet [None; None]
     = ([], Throw (new_Error "No instructions to send"))
  /\ sendInstructions token_connection example_wallet []
     = ([], Throw (new_Error "No instructions to send")).
Proof.
  assert (H2 : Forall (fun ix : option TransactionInstruction => ix = None)
                 [None; None]) by (repeat constructor).
  split; [exact H2 |]. split.
  - exact (sendInstructions_all_absent token_connection example_wallet _ H2).
  - exact (sendInstructions_all_absent token_connection example_wallet []
             (Forall_nil _)).
Defined.

(** C5.  Whatever the mix of present and absent entries, the one
    transaction [sendInstructions] hands to the wallet holds exactly the
    present instructions in their relative order (and nothing is handed
    over when none is present); [undefined, ixA, undefined, ixB] sends
    [ixA, ixB]. *)
Theorem sendInstructions_sends_present :
  forall (connection : Connection) (wallet : AnchorWallet)
         (ixs : list (option TransactionInstruction)),
    submitted (fst (sendInstructions connection wallet ixs)) =
    match present ixs with
    | [] => []
    | sent => [mkTransaction (Some (publicKey wallet)) sent]
    end
    /\ (forall ixA ixB : TransactionInstruction,
          submitted (fst (sendInstructions connection wallet
                            [None; Some ixA; None; Some ixB]))
          = [mkTransaction (Some (publicKey wallet)) [ixA; ixB]]).
Proof.
  intros connection wallet ixs. split.
  - apply submitted_sendInstructions.
  - intros ixA ixB. now rewrite submitted_sendInstructions.
Qed.

(** ** The summary of the log lines *)

Lemma includes_nil m : includes [] m = true.
Proof. destruct m; reflexivity. Qed.

Lemma includes_in_nil pat : pat <> [] -> includes pat [] = false.
Proof. destruct pat; [congruence | reflexivity]. Qed.

Lemma found_line_nonempty pat lines l :
  pat <> [] -> find (includes pat) lines = Some l -> l <> [].
Proof.
  intros Hp Hf E. apply find_some in Hf as [_ Hi]. subst l.
  rewrite includes_in_nil in Hi by exact Hp. discriminate.
Qed.

Lemma find_none_when_all_false {A} (f : A -> bool) l :
  Forall (fun x => f x = false) l -> find f l = None.
Proof.
  induction 1 as [| x l Hx _ IH]; [reflexivity |].
  cbn [find]. now rewrite Hx.
Qed.

Lemma js_nonempty_1 : js "Program log: Instruction:" <> [].
Proof. discriminate. Qed.
Lemma js_nonempty_2 : js "AnchorError" <> [].
Proof. discriminate. Qed.
Lemma js_nonempty_3 : js "Error Code" <> [].
Proof. discriminate. Qed.
Lemma js_nonempty_4 : js "custom program error" <> [].
Proof. discriminate. Qed.

(** [formatTxLogSummary] joins the cleaned summary lines, and is [null]
    when there is none. *)
Lemma formatTxLogSummary_lines lines :
  formatTxLogSummary (Some lines) =
  match summary_lines lines with
  | [] => None
  | ls => Some (join (js " | ") (map clean_line ls))
  end.
Proof.
  destruct lines as [| l0 rest]; [reflexivity |].
  unfold formatTxLogSummary, summary_lines.
  pose proof (fun l => found_line_nonempty _ (l0 :: rest) l js_nonempty_1) as N1.
  pose proof (fun l => found_line_nonempty _ (l0 :: rest) l js_nonempty_2) as N2.
  pose proof (fun l => found_line_nonempty _ (l0 :: rest) l js_nonempty_3) as N3.
  pose proof (fun l => found_line_nonempty _ (l0 :: rest) l js_nonempty_4) as N4.
  destruct (find (includes (js "Program log: Instruction:")) (l0 :: rest))
    as [[| c1 t1] |];
    [exfalso; exact (N1 [] eq_refl eq_refl) | |];
    (destruct (find (includes (js "AnchorError")) (l0 :: rest))
       as [[| c2 t2] |];
     [exfalso; exact (N2 [] eq_refl eq_refl) | reflexivity |]);
    (destruct (find (includes (js "Error Code")) (l0 :: rest))
       as [[| c3 t3] |];
     [exfalso; exact (N3 [] eq_refl eq_refl) | reflexivity |]);
    (destruct (find (includes (js "custom program error")) (l0 :: rest))
       as [[| c4 t4] |];
     [exfalso; exact (N4 [] eq_refl eq_refl) | reflexivity | reflexivity]).
Qed.

Lemma summary_lines_unremarkable lines :
  Forall unremarkable lines -> summary_lines lines = [].
Proof.
  intros H. unfold summary_lines.
  rewrite !find_none_when_all_false; [reflexivity | | | |];
    (eapply Forall_impl; [| exact H]); intros l (H1 & H2 & H3 & H4);
    assumption.
Qed.

Lemma set_message_same e : set_message e (message_of e) = e.
Proof. now destruct e. Qed.

Lemma message_of_set_message e m :
  instanceof_Error e = true -> message_of (set_message e m) = m.
Proof. now destruct e. Qed.

(** The annotation of an [Error]: the summary is appended unless the
    message already contains it. *)
Lemma annotate_Error e lines :
  instanceof_Error e = true ->
  annotate e (Some lines)
  = set_message e (annotated_message (message_of e) lines).
Proof.
  intros He. unfold annotate, annotated_message.
  rewrite formatTxLogSummary_lines.
  destruct (summary_lines lines) as [| l ls]; [now rewrite set_message_same |].
  cbv zeta. set (summary := join (js " | ") (map clean_line (l :: ls))).
  rewrite He, andb_true_r.
  destruct summary as [| c t] eqn:E.
  - cbn [truthy andb]. now rewrite includes_nil, set_message_same.
  - cbn [truthy andb].
    destruct (includes (c :: t) (message_of e));
      [now rewrite set_message_same | reflexivity].
Qed.

Lemma annotate_not_Error e logs :
  instanceof_Error e = false -> annotate e logs = e.
Proof.
  intros He. unfold annotate. destruct (formatTxLogSummary logs); [| reflexivity].
  now rewrite He, andb_false_r.
Qed.

Lemma annotated_message_extends m lines :
  exists suffix, annotated_message m lines = m ++ suffix.
Proof.
  unfold annotated_message. destruct (summary_lines lines) as [| l ls].
  - exists []. now rewrite app_nil_r.
  - cbv zeta. destruct (includes _ m).
    + exists []. now rewrite app_nil_r.
    + now eexists.
Qed.

Lemma logs_of_failure_carried e lines :
  instanceof_Error e = true -> carried_logs e = Some lines ->
  snd (logs_of_failure e) = Ok (Some lines).
Proof.
  destruct e as [c m [| [v |]] | m [ls | e'] | lf | v]; cbn; congruence.
Qed.

Lemma logs_of_failure_not_Error e :
  instanceof_Error e = false -> exists logs, snd (logs_of_failure e) = Ok logs.
Proof.
  destruct e as [c m lf | m lk | [| v] | v]; cbn; try discriminate;
    intros _; now eexists.
Qed.

(** A failure that carries no log lines, and whose log lookup was not
    rejected, yields none. *)
Lemma logs_of_failure_none e :
  carried_logs e = None -> lookup_failure e = None ->
  snd (logs_of_failure e) = Ok None.
Proof.
  destruct e as [c m [| [v |]] | m [ls | e'] | [| [v |]] | v]; cbn;
    congruence.
Qed.

(** When the log lookup of a [SendTransactionError] is rejected, the
    [await] inside [catch] throws what the lookup was rejected with. *)
Lemma sendInstructions_lookup_rejected connection wallet ixs e e' :
  present ixs <> [] ->
  confirm connection (mkTransaction (Some (publicKey wallet)) (present ixs))
  = Throw e ->
  lookup_failure e = Some e' ->
  snd (sendInstructions connection wallet ixs) = Throw e'.
Proof.
  intros Hp Hc Hl.
  rewrite (sendInstructions_failed _ _ _ _ Hp Hc). cbn [snd].
  destruct e as [c m lf | m [ls | r] | lf | v]; try discriminate Hl.
  cbn in Hl |- *. congruence.
Qed.

(** ** Failure of a submission: the claim *)

(** C7 (amended).  The log lines of a failure are those of its [logs]
    property or, for a [SendTransactionError], those its log lookup
    returns.  When the submission fails with an [Error] that carries log
    lines, [sendInstructions] throws that same error again, its message
    extended by [' | '] and the summary (the cleaned line naming the
    instruction and the cleaned first line matching an error pattern,
    joined by [' | ']) unless the message already contains the summary,
    in which case the message is left as it is; the original message
    always remains the beginning of the new one.  When no line matches a
    pattern, when the thrown value is not an [Error], or when the
    failure carries no log lines (its log lookup, if it has one, not
    having been rejected), the value is thrown again unchanged. *)
Theorem sendInstructions_annotates_failure :
  forall (connection : Connection) (wallet : AnchorWallet)
         (ixs : list (option TransactionInstruction)) (e : Thrown),
    present ixs <> [] ->
    confirm connection (mkTransaction (Some (publicKey wallet)) (present ixs))
    = Throw e ->
    (forall lines,
        instanceof_Error e = true -> carried_logs e = Some lines ->
        snd (sendInstructions connection wallet ixs)
        = Throw (set_message e (annotated_message (message_of e) lines))
        /\ (exists suffix,
               annotated_message (message_of e) lines
               = message_of e ++ suffix)
        /\ annotated_message (message_of e) lines
           = match formatTxLogSummary (Some lines) with
             | Some summary =>
                 if includes summary (message_of e) then message_of e
                 else message_of e ++ js " | " ++ summary
             | None => message_of e
             end)
    /\ (forall lines,
          carried_logs e = Some lines -> Forall unremarkable lines ->
          formatTxLogSummary (Some lines) = None
          /\ snd (sendInstructions connection wallet ixs) = Throw e)
    /\ (instanceof_Error e = false ->
        snd (sendInstructions connection wallet ixs) = Throw e)
    /\ (carried_logs e = None -> lookup_failure e = None ->
        snd (sendInstructions connection wallet ixs) = Throw e).
Proof.
  intros connection wallet ixs e Hp Hc.
  rewrite (sendInstructions_failed _ _ _ _ Hp Hc). cbn [snd].
  split; [| split; [| split]].
  - intros lines He Hl. rewrite (logs_of_failure_carried _ _ He Hl).
    split; [| split].
    + now rewrite annotate_Error.
    + apply annotated_message_extends.
    + rewrite formatTxLogSummary_lines. unfold annotated_message.
      now destruct (summary_lines lines).
  - intros lines Hl Hu.
    pose proof (summary_lines_unremarkable _ Hu) as Hs.
    split; [now rewrite formatTxLogSummary_lines, Hs |].
    destruct (instanceof_Error e) eqn:He.
    + rewrite (logs_of_failure_carried _ _ He Hl), annotate_Error by exact He.
      unfold annotated_message. now rewrite Hs, set_message_same.
    + destruct (logs_of_failure_not_Error _ He) as [logs ->].
      now rewrite annotate_not_Error.
  - intros He. destruct (logs_of_failure_not_Error _ He) as [logs ->].
    now rewrite annotate_not_Error.
  - intros Hl Hr. now rewrite (logs_of_failure_none _ Hl Hr).
Qed.

Lemma sendInstructions_annotates_failure_witness :
  present [None; Some example_instruction] <> []
  /\ instanceof_Error (SendTransactionErrorObject
                         (js "Transaction simulation failed")
                         (Resolved refusal_logs)) = true
  /\ snd (sendInstructions refusing_connection example_wallet
            [None; Some example_instruction])
     = Throw (SendTransactionErrorObject
                (js "Transaction simulation failed | Instruction: Supply | AnchorError occurred. Error Code: MarketPaused.")
                (Resolved refusal_logs)).
Proof.
  assert (Hp : present [None; Some example_instruction] <> []) by discriminate.
  split; [exact Hp |]. split; [reflexivity |].
  exact (proj1 (proj1 (sendInstructions_annotates_failure
                         refusing_connection example_wallet
                         [None; Some example_instruction] _ Hp eq_refl)
                  refusal_logs eq_refl eq_refl)).
Defined.

(** C7 as stated fails: the failure carries a log line naming the
    instruction, its summary is 'Instruction: Supply', and the error is
    thrown again with its message as it was, nothing appended, because
    the message already contains the summary. *)
Lemma sendInstructions_keeps_annotated_message :
  carried_logs annotated_failure = Some [js "Program log: Instruction: Supply"]
  /\ formatTxLogSummary (Some [js "Program log: Instruction: Supply"])
     = Some (js "Instruction: Supply")
  /\ snd (sendInstructions annotated_connection example_wallet
            [Some example_instruction])
     = Throw annotated_failure
  /\ message_of annotated_failure
     <> message_of annotated_failure ++ js " | " ++ js "Instruction: Supply".
Proof.
  split; [reflexivity |]. split; [reflexivity |]. split; [reflexivity |].
  intros C. apply (f_equal (@length Z)) in C. vm_compute in C. discriminate C.
Qed.

(** ** The supply flow: the claim *)

Lemma submitted_abind {A B} (m : Async A) (f : A -> Async B) :
  submitted (fst (abind m f)) =
  submitted (fst m)
  ++ match snd m with
     | Ok a => submitted (fst (f a))
     | Throw _ => []
     end.
Proof.
  unfold abind. destruct (snd m); cbn [fst].
  - apply submitted_app.
  - now rewrite app_nil_r.
Qed.

(** Once the position address is derived, the outcome is that of its
    lookup. *)
Lemma ensurePositionIx_looked_up connection marketId market owner payer pda bump :
  getPositionPDA marketId owner = Ok (pda, bump) ->
  ensurePositionIx connection marketId market owner payer =
  ([GetAccountInfo pda],
   match accountInfo connection pda with
   | Ok existing =>
       Ok (mkPositionResult pda
             match existing with
             | Some _ => None
             | None =>
                 Some (MethodInstruction "createPosition"
                         [ArgBytes (marketIdToArray marketId)]
                         [ ("payer", payer); ("owner", owner);
                           ("market", market); ("position", pda);
                           ("systemProgram", SYSTEM_PROGRAM_ID) ]%string)
             end)
   | Throw e => Throw e
   end).
Proof.
  intros H. unfold ensurePositionIx. rewrite H, abind_lift_Ok. cbn [fst].
  rewrite abind_rpc. now destruct (accountInfo connection pda) as [[i |] | e].
Qed.

Lemma ensurePositionIx_run connection marketId market owner payer pda bump
      existing :
  getPositionPDA marketId owner = Ok (pda, bump) ->
  accountInfo connection pda = Ok existing ->
  ensurePositionIx connection marketId market owner payer =
  ([GetAccountInfo pda],
   Ok (mkPositionResult pda
         match existing with
         | Some _ => None
         | None =>
             Some (MethodInstruction "createPosition"
                     [ArgBytes (marketIdToArray marketId)]
                     [ ("payer", payer); ("owner", owner); ("market", market);
                       ("position", pda);
                       ("systemProgram", SYSTEM_PROGRAM_ID) ]%string)
         end)).
Proof.
  intros H E.
  rewrite (ensurePositionIx_looked_up _ _ market _ payer _ _ H). now rewrite E.
Qed.

Lemma parse_100_00 : parseTokenAmount (js "100.00") 6 = Ok 100000000.
Proof. vm_compute. reflexivity. Qed.

Lemma parse_zero_shares : parseIntegerAmount (js "0") = Ok 0.
Proof. vm_compute. reflexivity. Qed.

Lemma handleSupply_started connection w market marketId marketKey amount :
  amount <> [] ->
  handleSupply connection (Some w) market marketId marketKey amount =
  (emit (SetSubmitting true) ;;
   emit (ToastLoading (js "Submitting supply...")) ;;
   finally
     (try_catch
        (supply_steps connection w market marketId marketKey amount)
        (fun error =>
           emit (ToastError (js "Supply failed")
                   (if instanceof_Error error then message_of error
                    else js "Unknown error"))))
     [SetSubmitting false]).
Proof.
  intros H. unfold handleSupply. destruct amount; [congruence | reflexivity].
Qed.

(** The UI calls around the steps hand nothing to the wallet. *)
Lemma submitted_handleSupply connection w market marketId marketKey amount :
  amount <> [] ->
  submitted (fst (handleSupply connection (Some w) market marketId marketKey
                    amount))
  = submitted (fst (supply_steps connection w market marketId marketKey amount)).
Proof.
  intros H. rewrite handleSupply_started by exact H.
  destruct (supply_steps connection w market marketId marketKey amount)
    as [trace [u | e]]; unfold finally, try_catch, abind, emit;
    cbn [fst snd app]; unfold submitted; cbn [flat_map app];
    rewrite !flat_map_app; cbn [flat_map app]; now rewrite ?app_nil_r.
Qed.

(** C3.  A user with a connected wallet supplies the amount "100.00" of
    a loan asset with 6 decimals whose mint exists, in a market where
    the position account does not exist yet: the one transaction handed
    to the wallet holds, in this order, the instruction creating the
    associated token account (left out when that account exists), the
    instruction creating the position, and
    [supply(marketId, 100000000, 0)]; should the node reject the lookup
    of the token account, nothing is handed to the wallet. *)
Theorem handleSupply_instruction_list :
  forall (connection : Connection) (wallet : AnchorWallet)
         (market : SupplyMarket) (marketId : list Z) (marketKey : PublicKey)
         (loanVault position ata : PublicKey) (vaultBump positionBump : Z)
         (mintInfo : AccountInfo),
    loanDecimals market = 6 ->
    getLoanVaultPDA marketId = Ok (loanVault, vaultBump) ->
    getPositionPDA marketId (publicKey wallet) = Ok (position, positionBump) ->
    accountInfo connection (loanMint market) = Ok (Some mintInfo) ->
    getAssociatedTokenAddressSync (loanMint market) (publicKey wallet) false
      (token_program_of mintInfo) ASSOCIATED_TOKEN_PROGRAM_ID = Ok ata ->
    accountInfo connection position = Ok None ->
    submitted (fst (handleSupply connection (Some wallet) market marketId
                      marketKey (js "100.00")))
    = match accountInfo connection ata with
      | Ok tokenAccount =>
          [ mkTransaction (Some (publicKey wallet))
              (match tokenAccount with
               | Some _ => []
               | None =>
                   [createAssociatedTokenAccountInstruction
                      (publicKey wallet) ata (publicKey wallet)
                      (loanMint market) (token_program_of mintInfo)
                      ASSOCIATED_TOKEN_PROGRAM_ID]
               end
               ++ [ MethodInstruction "createPosition"
                      [ArgBytes marketId]
                      [ ("payer", publicKey wallet);
                        ("owner", publicKey wallet);
                        ("market", marketKey); ("position", position);
                        ("systemProgram", SYSTEM_PROGRAM_ID) ]%string;
                    MethodInstruction "supply"
                      [ArgBytes marketId; ArgBN 100000000; ArgBN 0]
                      [ ("supplier", publicKey wallet);
                        ("protocolState", protocol_state_address);
                        ("market", marketKey);
                        ("position", position);
                        ("onBehalfOf", publicKey wallet);
                        ("supplierTokenAccount", ata);
                        ("loanVault", loanVault);
                        ("loanMint", loanMint market);
                        ("tokenProgram", token_program_of mintInfo)
                      ]%string ]) ]
      | Throw _ => []
      end.
Proof.
  intros connection wallet market marketId marketKey loanVault position ata
         vaultBump positionBump mintInfo
         Hdec Hvault Hpos Hmint Hata Hnone.
  rewrite submitted_handleSupply by discriminate.
  unfold supply_steps.
  rewrite protocol_state_derived, abind_lift_Ok.
  rewrite Hvault, abind_lift_Ok.
  rewrite submitted_abind,
    (getOrCreateAtaIx_looked_up _ _ _ _ _ _ Hmint Hata).
  destruct (accountInfo connection ata) as [tokenAccount | e];
    cbn [fst snd]; [| reflexivity].
  rewrite submitted_abind,
    (ensurePositionIx_run _ _ marketKey _ (publicKey wallet) _ _ _ Hpos Hnone).
  cbn [fst snd].
  rewrite Hdec, parse_100_00, abind_lift_Ok.
  rewrite parse_zero_shares, abind_lift_Ok.
  rewrite submitted_abind, submitted_sendInstructions.
  cbn [ata_instruction position_instruction positionPda ata_address
       ata_tokenProgramId present fst marketIdToArray].
  destruct tokenAccount;
    cbn [present app submitted flat_map];
    destruct (snd (sendInstructions _ _ _)); reflexivity.
Qed.

Lemma handleSupply_instruction_list_witness :
  loanDecimals example_market = 6
  /\ accountInfo token_connection (loanMint example_market)
     = Ok (Some (mkAccountInfo TOKEN_PROGRAM_ID 1461600 [] false))
  /\ accountInfo token_connection example_position = Ok None
  /\ accountInfo token_connection example_ata = Ok None
  /\ submitted (fst (handleSupply token_connection (Some example_wallet)
                       example_market example_market_id example_market_key
                       (js "100.00")))
     = [ mkTransaction (Some (publicKey example_wallet))
           [ createAssociatedTokenAccountInstruction
               (publicKey example_wallet) example_ata
               (publicKey example_wallet) example_mint
               TOKEN_PROGRAM_ID ASSOCIATED_TOKEN_PROGRAM_ID;
             MethodInstruction "createPosition"
               [ArgBytes example_market_id]
               [ ("payer", publicKey example_wallet);
                 ("owner", publicKey example_wallet);
                 ("market", example_market_key);
                 ("position", example_position);
                 ("systemProgram", SYSTEM_PROGRAM_ID) ]%string;
             MethodInstruction "supply"
               [ArgBytes example_market_id; ArgBN 100000000; ArgBN 0]
               [ ("supplier", publicKey example_wallet);
                 ("protocolState", protocol_state_address);
                 ("market", example_market_key);
                 ("position", example_position);
                 ("onBehalfOf", publicKey example_wallet);
                 ("supplierTokenAccount", example_ata);
                 ("loanVault", example_loan_vault);
                 ("loanMint", example_mint);
                 ("tokenProgram", TOKEN_PROGRAM_ID) ]%string ] ].
Proof.
  split; [reflexivity |]. split; [reflexivity |].
  split; [reflexivity |]. split; [reflexivity |].
  exact (handleSupply_instruction_list token_connection example_wallet
           example_market example_market_id example_market_key
           example_loan_vault example_position example_ata 255 255
           (mkAccountInfo TOKEN_PROGRAM_ID 1461600 [] false)
           eq_refl example_loan_vault_derived example_position_derived
           eq_refl example_ata_derived eq_refl).
Defined.

(** ** Arithmetic modulo [2^255 - 19] *)

(** Folding the high bits back in computes the remainder. *)
Lemma reduce_spec x :
  0 <= x < 2 ^ 510 -> Ed25519.reduce x = x mod Ed25519.p.
Proof.
  intros Hx. unfold Ed25519.reduce. cbv zeta.
  rewrite !Z.land_ones, !Z.shiftr_div_pow2 by lia.
  set (q := 2 ^ 255) in *.
  assert (Hq : q = Ed25519.p + 19) by reflexivity.
  assert (Hp : Ed25519.p = 2 ^ 255 - 19) by reflexivity.
  assert (Hq2 : 2 ^ 510 = q * q) by reflexivity.
  assert (Hqpos : 0 < q) by reflexivity.
  pose proof (Z.div_mod x q ltac:(lia)) as Ex.
  pose proof (Z.mod_pos_bound x q Hqpos) as Blo.
  assert (Bhi : 0 <= x / q < q).
  { split; [apply Z.div_pos; lia | apply Z.div_lt_upper_bound; lia]. }
  set (lo := x mod q) in *. set (hi := x / q) in *.
  set (x1 := lo + 19 * hi).
  pose proof (Z.div_mod x1 q ltac:(lia)) as Ex1.
  pose proof (Z.mod_pos_bound x1 q Hqpos) as Blo1.
  assert (Bhi1 : 0 <= x1 / q < 20).
  { split; [apply Z.div_pos; unfold x1; lia |].
    apply Z.div_lt_upper_bound; unfold x1; lia. }
  set (lo1 := x1 mod q) in *. set (hi1 := x1 / q) in *.
  set (x2 := lo1 + 19 * hi1).
  assert (Bq : q = 2 ^ 255) by reflexivity.
  destruct (Z.leb_spec Ed25519.p x2) as [Hge | Hlt].
  - apply (Z.mod_unique_pos x Ed25519.p (hi + hi1 + 1) (x2 - Ed25519.p));
      unfold x2, x1 in *; lia.
  - apply (Z.mod_unique_pos x Ed25519.p (hi + hi1) x2);
      unfold x2, x1 in *; lia.
Qed.

Lemma p_positive : 0 < Ed25519.p.
Proof. reflexivity. Qed.

(** [pow_p] is exponentiation modulo [p]. *)
Lemma pow_p_spec e :
  forall b, 0 <= b < Ed25519.p ->
    Ed25519.pow_p b e = b ^ Z.pos e mod Ed25519.p.
Proof.
  assert (Hsq : forall r, 0 <= r < Ed25519.p -> 0 <= r * r < 2 ^ 510).
  { intros r Hr. assert (Ed25519.p * Ed25519.p < 2 ^ 510) by reflexivity. nia. }
  assert (Hmul : forall r b, 0 <= r < Ed25519.p -> 0 <= b < Ed25519.p ->
                             0 <= r * b < 2 ^ 510).
  { intros r b Hr Hb. assert (Ed25519.p * Ed25519.p < 2 ^ 510) by reflexivity. nia. }
  induction e as [e IH | e IH |]; intros b Hb; cbn [Ed25519.pow_p].
  - assert (Hr := Z.mod_pos_bound (b ^ Z.pos e) _ p_positive).
    rewrite IH by exact Hb. set (r := b ^ Z.pos e mod Ed25519.p) in *.
    rewrite (reduce_spec (r * r)) by (apply Hsq; exact Hr).
    rewrite reduce_spec
      by (apply Hmul; [apply Z.mod_pos_bound; exact p_positive | exact Hb]).
    unfold r. rewrite <- Z.mul_mod, Z.mul_mod_idemp_l by (cbv; discriminate).
    f_equal. rewrite Pos2Z.inj_xI.
    replace (2 * Z.pos e + 1) with (Z.pos e + Z.pos e + 1) by lia.
    rewrite !Z.pow_add_r, Z.pow_1_r by lia. reflexivity.
  - assert (Hr := Z.mod_pos_bound (b ^ Z.pos e) _ p_positive).
    rewrite IH by exact Hb.
    rewrite reduce_spec by (apply Hsq; exact Hr).
    rewrite <- Z.mul_mod by (cbv; discriminate).
    f_equal. rewrite Pos2Z.inj_xO.
    replace (2 * Z.pos e) with (Z.pos e + Z.pos e) by lia.
    rewrite Z.pow_add_r by lia. reflexivity.
  - rewrite Z.pow_1_r. apply reduce_spec.
    assert (Ed25519.p < 2 ^ 510) by reflexivity. lia.
Qed.

(** ** Further properties of the specification's test list *)

Lemma find_nonce_long_seed nonce seeds programId :
  existsb (fun seed => (MAX_SEED_LENGTH <? length seed)%nat) seeds = true ->
  nonce <> O ->
  find_nonce nonce seeds programId
  = Throw (ErrorObject TypeError_ (js "Max seed length exceeded") NoLogsField).
Proof.
  intros H Hn. destruct nonce as [| k]; [congruence |].
  cbn [find_nonce]. unfold createProgramAddressSync.
  now rewrite existsb_app, H.
Qed.

(** X1.  A market id longer than the 32 bytes a seed may have makes every
    derivation that uses it fail with 'Max seed length exceeded'; no
    address is derived from a shortened seed. *)
Theorem derivation_rejects_long_market_id :
  forall (marketId : list Z) (owner : PublicKey),
    (32 < length marketId)%nat ->
    let refused :=
      Throw (ErrorObject TypeError_ (js "Max seed length exceeded") NoLogsField) in
    getMarketPDA marketId = refused
    /\ getPositionPDA marketId owner = refused
    /\ getLoanVaultPDA marketId = refused
    /\ getCollateralVaultPDA marketId = refused.
Proof.
  intros marketId owner H refused.
  assert (L : (MAX_SEED_LENGTH <? length marketId)%nat = true)
    by now apply Nat.ltb_lt.
  unfold getMarketPDA, getPositionPDA, getLoanVaultPDA, getCollateralVaultPDA,
    findProgramAddressSync.
  repeat split; apply find_nonce_long_seed; try discriminate;
    cbn [existsb]; rewrite L; now rewrite ?orb_true_r.
Qed.

Lemma derivation_rejects_long_market_id_witness :
  (32 < length (repeat 7 33))%nat
  /\ getMarketPDA (repeat 7 33)
     = Throw (ErrorObject TypeError_ (js "Max seed length exceeded") NoLogsField).
Proof.
  assert (H : (32 < length (repeat 7 33))%nat) by (cbn; lia).
  split; [exact H |].
  exact (proj1 (derivation_rejects_long_market_id (repeat 7 33)
                  (key_of_byte 1) H)).
Defined.

Lemma equals_refl k : equals k k = true.
Proof. now apply equals_iff. Qed.

Lemma equals_neq a b : a <> b -> equals a b = false.
Proof.
  intros H. destruct (equals a b) eqn:E; [| reflexivity].
  apply equals_iff in E. contradiction.
Qed.

(** X2.  Resolving the token account a second time, once the instruction
    returned by the first call has created the account, reports the same
    address with no instruction. *)
Theorem getOrCreateAtaIx_after_creation :
  forall (connection : Connection) (payer owner mint ata : PublicKey)
         (mintInfo created : AccountInfo),
    accountInfo connection mint = Ok (Some mintInfo) ->
    getAssociatedTokenAddressSync mint owner false (token_program_of mintInfo)
      ASSOCIATED_TOKEN_PROGRAM_ID = Ok ata ->
    accountInfo connection ata = Ok None ->
    snd (getOrCreateAtaIx connection payer owner mint)
    = Ok (mkAtaResult ata (token_program_of mintInfo)
            (Some (createAssociatedTokenAccountInstruction
                     payer ata owner mint (token_program_of mintInfo)
                     ASSOCIATED_TOKEN_PROGRAM_ID)))
    /\ snd (getOrCreateAtaIx (with_account connection ata created)
              payer owner mint)
       = Ok (mkAtaResult ata (token_program_of mintInfo) None).
Proof.
  intros connection payer owner mint ata mintInfo created Hmint Hata Hnone.
  split.
  - now rewrite (getOrCreateAtaIx_derived _ payer _ _ _ _ _ Hmint Hata Hnone).
  - assert (Hneq : mint <> ata) by (intros ->; congruence).
    assert (Hmint' : accountInfo (with_account connection ata created) mint
                     = Ok (Some mintInfo)).
    { cbn. now rewrite (equals_neq _ _ Hneq). }
    assert (Hata' : accountInfo (with_account connection ata created) ata
                    = Ok (Some created)).
    { cbn. now rewrite equals_refl. }
    now rewrite (getOrCreateAtaIx_derived _ payer _ _ _ _ _ Hmint' Hata Hata').
Qed.

Lemma getOrCreateAtaIx_after_creation_witness :
  accountInfo token_connection example_ata = Ok None
  /\ snd (getOrCreateAtaIx
            (with_account token_connection example_ata
               (mkAccountInfo TOKEN_PROGRAM_ID 2039280 [] false))
            (publicKey example_wallet) (publicKey example_wallet) example_mint)
     = Ok (mkAtaResult example_ata TOKEN_PROGRAM_ID None).
Proof.
  split; [reflexivity |].
  exact (proj2 (getOrCreateAtaIx_after_creation token_connection
                  (publicKey example_wallet) (publicKey example_wallet)
                  example_mint example_ata
                  (mkAccountInfo TOKEN_PROGRAM_ID 1461600 [] false)
                  (mkAccountInfo TOKEN_PROGRAM_ID 2039280 [] false)
                  eq_refl example_ata_derived eq_refl)).
Defined.

(** X3.  On a string whose trimmed form matches [^\d+$],
    [parseIntegerAmount] returns the integer the digits spell. *)
Theorem parseIntegerAmount_value :
  forall s : jsstring,
    Regex.Matches integer_re (trim s) ->
    parseIntegerAmount s = Ok (digits_value (trim s)).
Proof.
  intros s Hm. unfold parseIntegerAmount.
  rewrite (proj2 (test_spec _ _) Hm). cbn [negb].
  apply BN_of_digits. now apply integer_re_shape in Hm as [_ H].
Qed.

Lemma parseIntegerAmount_value_witness :
  Regex.Matches integer_re (trim (js " 0042 "))
  /\ parseIntegerAmount (js " 0042 ") = Ok 42.
Proof.
  assert (Hm : Regex.Matches integer_re (trim (js " 0042 ")))
    by (apply test_spec; reflexivity).
  split; [exact Hm |].
  exact (parseIntegerAmount_value (js " 0042 ") Hm).
Defined.

(** X5.  When the wallet and the node accept the transaction,
    [sendInstructions] makes the one call that sends it and returns the
    signature. *)
Theorem sendInstructions_returns_signature :
  forall (connection : Connection) (wallet : AnchorWallet)
         (ixs : list (option TransactionInstruction)) (signature : jsstring),
    present ixs <> [] ->
    confirm connection (mkTransaction (Some (publicKey wallet)) (present ixs))
    = Ok signature ->
    sendInstructions connection wallet ixs
    = ([SendAndConfirm (mkTransaction (Some (publicKey wallet)) (present ixs))],
       Ok signature).
Proof.
  intros connection wallet ixs signature Hp Hc.
  now apply sendInstructions_confirmed.
Qed.

Lemma sendInstructions_returns_signature_witness :
  sendInstructions token_connection example_wallet
    [None; Some example_instruction]
  = ([SendAndConfirm (mkTransaction (Some (publicKey example_wallet))
                        [example_instruction])],
     Ok (js "5VERv8NMvzbJMEkV8xnrLkEaWRtSz9CosKDYjCJjBRnb")).
Proof.
  apply (sendInstructions_returns_signature token_connection example_wallet
           [None; Some example_instruction]).
  - discriminate.
  - reflexivity.
Defined.

(** ** Reading bytes back *)

Lemma le_value_bound bs :
  Forall is_byte bs -> 0 <= le_value bs < 256 ^ Z.of_nat (length bs).
Proof.
  induction 1 as [| b bs Hb _ IH]; [cbn; lia |].
  unfold is_byte in Hb. cbn [le_value fold_right length].
  fold (le_value bs). rewrite Nat2Z.inj_succ, Z.pow_succ_r by lia. lia.
Qed.

Lemma le_bytes_le_value bs :
  Forall is_byte bs -> le_bytes (length bs) (le_value bs) = bs.
Proof.
  induction 1 as [| b bs Hb _ IH]; [reflexivity |].
  unfold is_byte in Hb. cbn [length]. rewrite le_bytes_succ.
  cbn [le_value fold_right]. fold (le_value bs).
  replace ((b + 256 * le_value bs) mod 256) with b
    by (rewrite Z.mul_comm, Z.mod_add, Z.mod_small; lia).
  replace ((b + 256 * le_value bs) / 256) with (le_value bs)
    by (rewrite Z.mul_comm, Z.div_add, Z.div_small; lia).
  now rewrite IH.
Qed.

Lemma Forall_rev_bytes bs : Forall is_byte bs -> Forall is_byte (rev bs).
Proof.
  intros H. apply Forall_forall. intros x Hx. apply in_rev in Hx.
  revert x Hx. now apply Forall_forall.
Qed.

Lemma be_bytes_be_value bs :
  Forall is_byte bs -> be_bytes (length bs) (be_value bs) = bs.
Proof.
  intros H. unfold be_bytes, be_value.
  rewrite <- (length_rev bs), le_bytes_le_value by now apply Forall_rev_bytes.
  apply rev_involutive.
Qed.

Lemma be_bytes_are_bytes n m : Forall is_byte (be_bytes n m).
Proof. apply Forall_rev_bytes, le_bytes_are_bytes. Qed.

Lemma be_value_bound bs :
  Forall is_byte bs -> 0 <= be_value bs < 256 ^ Z.of_nat (length bs).
Proof.
  intros H. unfold be_value. rewrite <- (length_rev bs).
  now apply le_value_bound, Forall_rev_bytes.
Qed.

Lemma BN_byteLength_32 v : 0 <= v < 2 ^ 256 -> BN_byteLength v <= 32.
Proof.
  intros H. unfold BN_byteLength. rewrite Z.abs_eq by lia.
  destruct (Z.eqb_spec v 0); [lia |].
  assert (Z.log2 v < 256) by (apply Z.log2_lt_pow2; lia).
  assert (Z.log2 v / 8 < 32) by (apply Z.div_lt_upper_bound; lia).
  lia.
Qed.

(** Thirty-two bytes make a key whose buffer they are. *)
Lemma PublicKey_of_32_bytes bs :
  Forall is_byte bs -> length bs = 32%nat ->
  exists k, PublicKey_of_bytes bs = Ok k /\ toBuffer k = bs
            /\ 0 <= pk_bn k < 2 ^ 256.
Proof.
  intros Hb Hl. pose proof (be_value_bound bs Hb) as B. rewrite Hl in B.
  assert (E : 256 ^ Z.of_nat 32 = 2 ^ 256) by (vm_compute; reflexivity).
  rewrite E in B. clear E.
  exists (mkPublicKey (be_value bs)). split; [| split].
  - unfold PublicKey_of_bytes. pose proof (BN_byteLength_32 _ B).
    destruct (Z.ltb_spec 32 (BN_byteLength (be_value bs))); [lia | reflexivity].
  - unfold toBuffer. cbn [pk_bn]. rewrite <- Hl. now apply be_bytes_be_value.
  - exact B.
Qed.

(** ** SHA-256 output *)

Lemma step_length s kw : length (Sha256.step s kw) = length s.
Proof.
  unfold Sha256.step.
  do 9 (destruct s as [| ? s]; [reflexivity |]). reflexivity.
Qed.

Lemma fold_step_length l : forall s, length (fold_left Sha256.step l s) = length s.
Proof.
  induction l as [| kw l IH]; intros s; [reflexivity |].
  cbn [fold_left]. now rewrite IH, step_length.
Qed.

Lemma compress_length h block : length (Sha256.compress h block) = length h.
Proof.
  unfold Sha256.compress. rewrite length_map, length_combine, fold_step_length.
  apply Nat.min_id.
Qed.

Lemma absorb_length n : forall h data, length (Sha256.absorb n h data) = length h.
Proof.
  induction n as [| n IH]; intros h data; [reflexivity |].
  cbn [Sha256.absorb]. now rewrite IH, compress_length.
Qed.

Lemma flat_map_be_bytes_length l :
  length (flat_map (be_bytes 4) l) = (4 * length l)%nat.
Proof.
  induction l as [| x l IH]; [reflexivity |].
  cbn [flat_map]. rewrite length_app, be_bytes_length, IH. cbn [length]. lia.
Qed.

Lemma sha256_length data : length (sha256 data) = 32%nat.
Proof.
  unfold sha256, Sha256.digest. cbv zeta.
  now rewrite flat_map_be_bytes_length, absorb_length.
Qed.

Lemma sha256_bytes data : Forall is_byte (sha256 data).
Proof.
  unfold sha256, Sha256.digest. cbv zeta. apply Forall_flat_map, Forall_forall.
  intros x _. apply be_bytes_are_bytes.
Qed.

(** ** Program-derived addresses lie off the curve *)

Lemma createProgramAddressSync_Ok seeds programId a :
  createProgramAddressSync seeds programId = Ok a ->
  toBuffer a = sha256 (concat seeds ++ toBuffer programId
                       ++ js "ProgramDerivedAddress")
  /\ isOnCurve (toBuffer a) = false
  /\ 0 <= pk_bn a < 2 ^ 256
  /\ Forall (fun seed => (length seed <= 32)%nat) seeds.
Proof.
  unfold createProgramAddressSync. intros H.
  set (hash := sha256 (concat seeds ++ toBuffer programId
                       ++ js "ProgramDerivedAddress")) in *.
  destruct (existsb _ seeds) eqn:Ex; [discriminate |].
  destruct (isOnCurve hash) eqn:On; [discriminate |].
  destruct (PublicKey_of_32_bytes hash (sha256_bytes _) (sha256_length _))
    as (k & Hk & Hb & Hr).
  rewrite Hk in H. injection H as <-. rewrite Hb.
  split; [reflexivity |]. split; [exact On |]. split; [exact Hr |].
  apply Forall_forall. intros seed Hin.
  destruct (Nat.ltb_spec MAX_SEED_LENGTH (length seed)) as [Hl | Hl];
    [| exact Hl].
  exfalso. apply (proj2 (not_true_iff_false _) Ex).
  apply existsb_exists. exists seed. split; [exact Hin |].
  now apply Nat.ltb_lt.
Qed.

Lemma find_nonce_Ok nonce seeds programId a bump :
  find_nonce nonce seeds programId = Ok (a, bump) ->
  1 <= bump <= Z.of_nat nonce
  /\ createProgramAddressSync (seeds ++ [[bump]]) programId = Ok a.
Proof.
  induction nonce as [| k IH]; [discriminate |].
  cbn [find_nonce].
  destruct (createProgramAddressSync (seeds ++ [[Z.of_nat (S k)]]) programId)
    as [a' | e] eqn:C.
  - intros [= <- <-]. split; [lia | exact C].
  - destruct (is_TypeError e); [discriminate |].
    intros H. destruct (IH H) as [B D]. split; [lia | exact D].
Qed.

(** X6.  An address [findProgramAddressSync] returns comes with a bump
    between 1 and 255; it is the address [createProgramAddressSync]
    gives for the seeds followed by that bump; its 32 bytes are the
    SHA-256 digest of the seeds, the bump, the program id and the text
    'ProgramDerivedAddress'; those bytes are no point of the ed25519
    curve; and no seed was longer than 32 bytes. *)
Theorem findProgramAddressSync_off_curve :
  forall (seeds : list (list Z)) (programId derived : PublicKey) (bump : Z),
    findProgramAddressSync seeds programId = Ok (derived, bump) ->
    1 <= bump <= 255
    /\ createProgramAddressSync (seeds ++ [[bump]]) programId = Ok derived
    /\ toBuffer derived
       = sha256 (concat seeds ++ [bump] ++ toBuffer programId
                 ++ js "ProgramDerivedAddress")
    /\ isOnCurve (toBuffer derived) = false
    /\ Forall (fun seed => (length seed <= 32)%nat) seeds.
Proof.
  intros seeds programId derived bump H.
  unfold findProgramAddressSync in H.
  apply find_nonce_Ok in H as [Hb Hc].
  pose proof (createProgramAddressSync_Ok _ _ _ Hc) as (Hbuf & Hoff & _ & Hlen).
  rewrite concat_app in Hbuf. cbn [concat] in Hbuf.
  rewrite app_nil_r, <- app_assoc in Hbuf.
  split; [exact Hb |]. split; [exact Hc |]. split; [exact Hbuf |].
  split; [exact Hoff |].
  apply Forall_app in Hlen. apply Hlen.
Qed.

(** The helpers of client.ts are calls of [findProgramAddressSync]. *)
Lemma getProtocolStatePDA_call :
  findProgramAddressSync [PROGRAM_SEED_PREFIX; PROTOCOL_STATE_SEED]
    MORPHO_PROGRAM_ID = getProtocolStatePDA.
Proof. exact eq_refl. Qed.

Lemma getPositionPDA_call marketId owner :
  findProgramAddressSync
    [PROGRAM_SEED_PREFIX; POSITION_SEED; marketId; toBuffer owner]
    MORPHO_PROGRAM_ID = getPositionPDA marketId owner.
Proof. exact eq_refl. Qed.

Lemma protocol_state_found :
  findProgramAddressSync [PROGRAM_SEED_PREFIX; PROTOCOL_STATE_SEED]
    MORPHO_PROGRAM_ID = Ok (protocol_state_address, 255).
Proof. rewrite getProtocolStatePDA_call. exact protocol_state_derived. Qed.

Lemma example_position_found :
  findProgramAddressSync
    [PROGRAM_SEED_PREFIX; POSITION_SEED; example_market_id;
     toBuffer (publicKey example_wallet)]
    MORPHO_PROGRAM_ID = Ok (example_position, 255).
Proof. rewrite getPositionPDA_call. exact example_position_derived. Qed.

Lemma findProgramAddressSync_off_curve_witness :
  findProgramAddressSync [PROGRAM_SEED_PREFIX; PROTOCOL_STATE_SEED]
    MORPHO_PROGRAM_ID = Ok (protocol_state_address, 255)
  /\ isOnCurve (toBuffer protocol_state_address) = false.
Proof.
  split; [exact protocol_state_found |].
  exact (proj1 (proj2 (proj2 (proj2
           (findProgramAddressSync_off_curve
              [PROGRAM_SEED_PREFIX; PROTOCOL_STATE_SEED] MORPHO_PROGRAM_ID
              protocol_state_address 255 protocol_state_found))))).
Defined.

(** X7.  [getOrCreateAtaIx] refuses an owner that is a program-derived
    address: for a mint that exists, and an owner that
    [findProgramAddressSync] returned for any seeds and program (a
    position or a vault of this program, for one), it fails with
    [TokenOwnerOffCurveError] after the one lookup of the mint. *)
Theorem getOrCreateAtaIx_rejects_derived_owner :
  forall (connection : Connection) (payer mint : PublicKey)
         (seeds : list (list Z)) (programId owner : PublicKey) (bump : Z)
         (mintInfo : AccountInfo),
    findProgramAddressSync seeds programId = Ok (owner, bump) ->
    accountInfo connection mint = Ok (Some mintInfo) ->
    getOrCreateAtaIx connection payer owner mint
    = ([GetAccountInfo mint],
       Throw (ErrorObject TokenOwnerOffCurveError_ [] NoLogsField)).
Proof.
  intros connection payer mint seeds programId owner bump mintInfo Hd Hmint.
  unfold findProgramAddressSync in Hd.
  apply find_nonce_Ok in Hd as [_ Hc].
  pose proof (createProgramAddressSync_Ok _ _ _ Hc) as (_ & Hoff & _).
  apply (getOrCreateAtaIx_underivable _ _ _ _ mintInfo); [exact Hmint |].
  unfold getAssociatedTokenAddressSync. now rewrite Hoff.
Qed.

Lemma getOrCreateAtaIx_rejects_derived_owner_witness :
  accountInfo token_connection example_mint
  = Ok (Some (mkAccountInfo TOKEN_PROGRAM_ID 1461600 [] false))
  /\ getOrCreateAtaIx token_connection (publicKey example_wallet)
       example_position example_mint
     = ([GetAccountInfo example_mint],
        Throw (ErrorObject TokenOwnerOffCurveError_ [] NoLogsField)).
Proof.
  split; [reflexivity |].
  exact (getOrCreateAtaIx_rejects_derived_owner token_connection
           (publicKey example_wallet) example_mint
           [PROGRAM_SEED_PREFIX; POSITION_SEED; example_market_id;
            toBuffer (publicKey example_wallet)]
           MORPHO_PROGRAM_ID example_position 255
           (mkAccountInfo TOKEN_PROGRAM_ID 1461600 [] false)
           example_position_found eq_refl).
Defined.

(** ** The bytes behind a market id *)

Lemma app_inj_length {A} (a b c d : list A) :
  length a = length b -> a ++ c = b ++ d -> a = b /\ c = d.
Proof.
  revert b. induction a as [| x a IH]; intros [| y b] Hl H;
    try discriminate Hl.
  - now split.
  - cbn [app] in H. injection H as -> H. injection Hl as Hl.
    destruct (IH b Hl H) as [-> ->]. now split.
Qed.

Lemma toBuffer_injective a b :
  valid_key a -> valid_key b -> toBuffer a = toBuffer b -> a = b.
Proof.
  intros Ha Hb H. apply (f_equal be_value) in H.
  rewrite !toBuffer_roundtrip in H by assumption.
  destruct a, b. cbn in H. now subst.
Qed.

(** X8.  For keys as web3.js keeps them and a loan-to-value number that
    is an integer from 0 to below [2^53], [calculateMarketId] returns
    the Keccak-256 digest of 136 bytes that determine the five
    parameters: two such parameter tuples that differ anywhere are
    hashed from different bytes. *)
Theorem calculateMarketId_input_unambiguous :
  forall (cm lm oracle irm cm' lm' oracle' irm' : PublicKey) (lltv lltv' : Z),
    valid_key cm -> valid_key lm -> valid_key oracle -> valid_key irm ->
    valid_key cm' -> valid_key lm' -> valid_key oracle' -> valid_key irm' ->
    0 <= lltv < 2 ^ 53 -> 0 <= lltv' < 2 ^ 53 ->
    calculateMarketId cm lm oracle irm lltv
    = Ok (Keccak.digest (market_id_input cm lm oracle irm lltv))
    /\ calculateMarketId cm' lm' oracle' irm' lltv'
       = Ok (Keccak.digest (market_id_input cm' lm' oracle' irm' lltv'))
    /\ (market_id_input cm lm oracle irm lltv
        = market_id_input cm' lm' oracle' irm' lltv'
        <-> cm = cm' /\ lm = lm' /\ oracle = oracle' /\ irm = irm'
            /\ lltv = lltv').
Proof.
  intros cm lm oracle irm cm' lm' oracle' irm' lltv lltv'
         Hcm Hlm Ho Hi Hcm' Hlm' Ho' Hi' Hl Hl'.
  assert (Hid : forall a b c d l, 0 <= l < 2 ^ 53 ->
            calculateMarketId a b c d l
            = Ok (Keccak.digest (market_id_input a b c d l))).
  { intros a b c d l Hr. unfold calculateMarketId.
    assert (Ha : Z.abs l < 2 ^ 53) by lia.
    pose proof (lltv_buffer l Ha) as E. unfold rbind in E |- *.
    destruct (BN_of_number l) as [bn |]; [| discriminate].
    rewrite E, keccak256_buffer. cbn [concat]. now rewrite app_nil_r. }
  split; [now apply Hid |]. split; [now apply Hid |].
  split.
  - unfold market_id_input. intros H.
    apply app_inj_length in H as [H1 H]; [| now rewrite !toBuffer_length].
    apply app_inj_length in H as [H2 H]; [| now rewrite !toBuffer_length].
    apply app_inj_length in H as [H3 H]; [| now rewrite !toBuffer_length].
    apply app_inj_length in H as [H4 H]; [| now rewrite !toBuffer_length].
    apply toBuffer_injective in H1, H2, H3, H4; try assumption.
    apply (f_equal le_value) in H.
    rewrite !le_bytes_roundtrip in H
      by (change (256 ^ Z.of_nat 8) with (2 ^ 64); lia).
    repeat split; try assumption. lia.
  - now intros (-> & -> & -> & -> & ->).
Qed.

Lemma valid_small_key b : 0 <= b < 256 -> valid_key (key_of_byte b).
Proof. unfold valid_key, key_of_byte. cbn [pk_bn]. intros H.
  assert (256 < 2 ^ 256) by reflexivity. lia.
Qed.

Lemma calculateMarketId_input_unambiguous_witness :
  market_id_input (key_of_byte 1) (key_of_byte 2) (key_of_byte 3)
    (key_of_byte 4) 8500
  <> market_id_input (key_of_byte 1) (key_of_byte 2) (key_of_byte 3)
       (key_of_byte 4) 9000.
Proof.
  intros H.
  apply (proj2 (proj2 (calculateMarketId_input_unambiguous
                  (key_of_byte 1) (key_of_byte 2) (key_of_byte 3) (key_of_byte 4)
                  (key_of_byte 1) (key_of_byte 2) (key_of_byte 3) (key_of_byte 4)
                  8500 9000
                  (valid_small_key 1 ltac:(lia)) (valid_small_key 2 ltac:(lia))
                  (valid_small_key 3 ltac:(lia)) (valid_small_key 4 ltac:(lia))
                  (valid_small_key 1 ltac:(lia)) (valid_small_key 2 ltac:(lia))
                  (valid_small_key 3 ltac:(lia)) (valid_small_key 4 ltac:(lia))
                  ltac:(lia) ltac:(lia)))) in H.
  destruct H as (_ & _ & _ & _ & H). discriminate H.
Defined.

(** ** Annotating twice *)

Lemma startsWith_refl s : startsWith s s = true.
Proof.
  induction s as [| c s IH]; [reflexivity |].
  cbn [startsWith]. now rewrite Z.eqb_refl, IH.
Qed.

Lemma includes_cons needle c hay :
  includes needle (c :: hay)
  = startsWith needle (c :: hay) || includes needle hay.
Proof. reflexivity. Qed.

Lemma includes_refl s : includes s s = true.
Proof.
  destruct s as [| c s]; [reflexivity |].
  now rewrite includes_cons, startsWith_refl.
Qed.

Lemma includes_suffix s a : includes s (a ++ s) = true.
Proof.
  induction a as [| c a IH]; [apply includes_refl |].
  cbn [app]. rewrite includes_cons, IH. apply orb_true_r.
Qed.

(** X9.  Annotating a failure is idempotent: once the summary of the
    log lines has been appended to the message, annotating the result
    with the same lines changes nothing, so an error that passes through
    the [catch] block again keeps one copy of the summary. *)
Theorem annotate_idempotent :
  forall (error : Thrown) (logs : option (list jsstring)),
    annotate (annotate error logs) logs = annotate error logs.
Proof.
  intros error logs. unfold annotate.
  destruct (formatTxLogSummary logs) as [s |] eqn:F; [| reflexivity].
  fold (annotate error logs).
  destruct (truthy (Some s) && instanceof_Error error
            && negb (includes s (message_of error))) eqn:C.
  - apply andb_true_iff in C as [C _]. apply andb_true_iff in C as [_ Hi].
    assert (Hm : message_of (set_message error (message_of error ++ js " | " ++ s))
                 = message_of error ++ js " | " ++ s)
      by (destruct error; try discriminate Hi; reflexivity).
    rewrite Hm, app_assoc, includes_suffix. cbn [negb].
    now rewrite andb_false_r.
  - now rewrite C.
Qed.

(** ** Amounts are never negative *)

(** X4.  Neither parser returns a negative amount: whatever the string
    and the decimal count, a value [parseTokenAmount] or
    [parseIntegerAmount] returns is zero or more, and with a negative
    decimal count [parseTokenAmount] returns a value for a blank string
    only. *)
Theorem parsed_amounts_nonnegative :
  forall (s : jsstring) (d v : Z),
    (parseTokenAmount s d = Ok v -> 0 <= v /\ (d < 0 -> trim s = [] /\ v = 0))
    /\ (parseIntegerAmount s = Ok v -> 0 <= v).
Proof.
  intros s d v. split.
  - intros H. destruct (trim s) as [| c r] eqn:T.
    + unfold parseTokenAmount in H. rewrite T in H. injection H as <-.
      split; [lia | now split].
    + assert (Hne : trim s <> []) by (rewrite T; discriminate).
      rewrite <- T in *. clear T.
      destruct (Regex.test decimal_re (trim s)) eqn:R.
      2:{ rewrite (parseTokenAmount_nonempty _ d Hne), R in H. discriminate H. }
      destruct (Z.ltb_spec d 0) as [Hd | Hd].
      * exfalso. rewrite (parseTokenAmount_nonempty _ d Hne), R in H.
        cbn [negb] in H. cbv zeta in H. unfold BigInt_pow in H.
        destruct (Z.ltb_spec d 0); [discriminate H | lia].
      * split; [| lia]. apply test_spec in R.
        rewrite (parseTokenAmount_wellformed s d Hd R) in H.
        injection H as <-.
        assert (forallb is_digit (whole_part (trim s)) = true
                /\ forallb is_digit (fraction_part (trim s)) = true) as [Hw Hf].
        { apply decimal_re_shape in R as [Hw | (w & f & E & Hw & Hf)].
          - pose proof (digit_string_no_dot _ Hw) as Hnd.
            rewrite (whole_part_no_dot _ Hnd), (fraction_part_no_dot _ Hnd).
            split; [apply Hw | reflexivity].
          - rewrite E. pose proof (digit_string_no_dot _ Hw) as Hnd.
            rewrite (whole_part_dot _ _ Hnd), (fraction_part_dot _ _ Hnd).
            split; [apply Hw | apply Hf]. }
        pose proof (digits_value_nonneg _ Hw).
        pose proof (digits_value_nonneg _ (fixed_fraction_digits _ d Hf)).
        pose proof (Z.pow_nonneg 10 d ltac:(lia)). nia.
  - intros H. unfold parseIntegerAmount in H.
    destruct (Regex.test integer_re (trim s)) eqn:R; [| discriminate H].
    apply test_spec in R. cbn [negb] in H.
    pose proof R as Hs. apply integer_re_shape in Hs as [_ Hd].
    rewrite (BN_of_digits _ Hd) in H.
    injection H as <-. now apply digits_value_nonneg.
Qed.

Lemma parsed_amounts_nonnegative_witness :
  parseTokenAmount (js "0.5") 1 = Ok 5 /\ 0 <= 5.
Proof.
  assert (H : parseTokenAmount (js "0.5") 1 = Ok 5) by reflexivity.
  split; [exact H |].
  exact (proj1 (proj1 (parsed_amounts_nonnegative (js "0.5") 1 5) H)).
Defined.

(** ** Finding the position of a market *)

Lemma string_equal_iff a : forall b, string_equal a b = true <-> a = b.
Proof.
  induction a as [| x a IH]; intros [| y b]; cbn [string_equal];
    try (split; [discriminate | congruence]); [now split |].
  rewrite andb_true_iff, Z.eqb_eq, IH. split; [intros [-> ->] | intros [= -> ->]];
    auto.
Qed.

Lemma Buffer_from_array_bytes a : Forall is_byte a -> Buffer_from_array a = a.
Proof.
  induction 1 as [| b a Hb _ IH]; [reflexivity |].
  unfold Buffer_from_array in *. cbn [map]. rewrite IH. f_equal.
  apply Z.mod_small. exact Hb.
Qed.

Lemma hex_encode_injective a b :
  Forall is_byte a -> Forall is_byte b -> hex_encode a = hex_encode b -> a = b.
Proof.
  intros Ha Hb H. apply (f_equal Buffer_from_hex) in H.
  now rewrite !Buffer_from_hex_encode in H.
Qed.

(** X10.  The position the market page picks for a market, and the one
    [usePosition] picks for the hexadecimal text of its id, is the first
    fetched position whose market id has the same bytes: comparing the
    hexadecimal texts of byte arrays compares the arrays.  Before any
    position is fetched none is reported. *)
Theorem page_position_by_market_id :
  forall (positions : list OnChainPosition) (marketId : list Z),
    Forall is_byte marketId ->
    Forall (fun p => Forall is_byte (position_marketId p)) positions ->
    (forall p,
        page_position (Some positions) marketId = Some p <->
        exists before after,
          positions = before ++ p :: after
          /\ position_marketId p = marketId
          /\ Forall (fun q => position_marketId q <> marketId) before)
    /\ (page_position (Some positions) marketId = None <->
        Forall (fun q => position_marketId q <> marketId) positions)
    /\ usePosition (Some positions) (hex_encode marketId)
       = page_position (Some positions) marketId
    /\ page_position None marketId = None.
Proof.
  intros positions marketId Hm Hps.
  assert (Hsame : forall p, Forall is_byte (position_marketId p) ->
            string_equal (hex_encode (Buffer_from_array (position_marketId p)))
                         (hex_encode (Buffer_from_array marketId)) = true
            <-> position_marketId p = marketId).
  { intros p Hp. rewrite string_equal_iff, !Buffer_from_array_bytes by assumption.
    split; [now apply hex_encode_injective | congruence]. }
  cbn [page_position usePosition].
  split; [| split; [| split]].
  - induction Hps as [| q positions Hq Hps IH]; intros p.
    + cbn [find]. split; [discriminate |].
      intros (before & after & E & _). now destruct before.
    + cbn [find]. specialize (Hsame q Hq). cbv zeta.
      destruct (string_equal _ _).
      * assert (S : position_marketId q = marketId) by now apply Hsame.
        split.
        -- intros [= <-]. exists [], positions. now repeat split.
        -- intros ([| b before] & after & E & Hid & Hb).
           ++ now injection E as ->.
           ++ injection E as -> _. inversion Hb; subst. contradiction.
      * assert (Hn : position_marketId q <> marketId).
        { intros C. apply Hsame in C. discriminate C. }
        rewrite IH. split.
        -- intros (before & after & -> & Hid & Hb).
           exists (q :: before), after. repeat split; auto.
        -- intros ([| b before] & after & E & Hid & Hb).
           ++ injection E as <- _. contradiction.
           ++ injection E as _ ->. inversion Hb; subst.
              now exists before, after.
  - induction Hps as [| q positions Hq Hps IH]; cbn [find].
    + now split.
    + specialize (Hsame q Hq). cbv zeta. destruct (string_equal _ _).
      * assert (S : position_marketId q = marketId) by now apply Hsame.
        split; [discriminate |].
        intros C. inversion C; subst. contradiction.
      * assert (Hn : position_marketId q <> marketId).
        { intros C. apply Hsame in C. discriminate C. }
        rewrite IH. split; [now constructor | intros C; now inversion C].
  - cbv zeta. now rewrite (Buffer_from_array_bytes marketId).
  - reflexivity.
Qed.

Lemma example_market_id_bytes : Forall is_byte example_market_id.
Proof.
  apply Forall_forall. intros b Hb. unfold is_byte.
  assert (H : forallb (fun b => (0 <=? b) && (b <? 256)) example_market_id = true)
    by reflexivity.
  rewrite forallb_forall in H. specialize (H b Hb).
  apply andb_true_iff in H as [H1 H2]. apply Z.leb_le in H1. apply Z.ltb_lt in H2.
  lia.
Qed.

Lemma page_position_by_market_id_witness :
  page_position (Some [other_position; market_position]) example_market_id
  = Some market_position.
Proof.
  assert (Hps : Forall (fun p => Forall is_byte (position_marketId p))
                  [other_position; market_position]).
  { repeat constructor; try exact example_market_id_bytes;
      unfold is_byte; lia. }
  apply (proj1 (page_position_by_market_id [other_position; market_position]
                  example_market_id example_market_id_bytes Hps)).
  exists [other_position], []. split; [reflexivity |]. split; [reflexivity |].
  repeat constructor. discriminate.
Defined.

(** X22.  The market the liquidations page selects for a position is the
    first fetched market whose id has the bytes of the position's market
    id; without a selected position, or before the markets are fetched,
    there is none. *)
Theorem selectedMarket_matches_position :
  forall (pos : OnChainPosition) (markets : list OnChainMarket)
         (market : OnChainMarket),
    Forall is_byte (position_marketId pos) ->
    Forall (fun m => Forall is_byte (market_marketId m)) markets ->
    selectedMarket (Some pos) (Some markets) = Some market ->
    In market markets
    /\ market_marketId market = position_marketId pos
    /\ selectedMarket None (Some markets) = None
    /\ selectedMarket (Some pos) None = None.
Proof.
  intros pos markets market Hp Hms H. cbn [selectedMarket] in H.
  apply find_some in H as [Hin Heq]. cbv zeta in Heq.
  apply string_equal_iff in Heq.
  rewrite Forall_forall in Hms. specialize (Hms _ Hin).
  rewrite !Buffer_from_array_bytes in Heq by assumption.
  apply hex_encode_injective in Heq; try assumption.
  now repeat split.
Qed.

Lemma selectedMarket_matches_position_witness :
  selectedMarket (Some market_position) (Some [fetched_market])
  = Some fetched_market
  /\ market_marketId fetched_market = position_marketId market_position.
Proof.
  assert (H : selectedMarket (Some market_position) (Some [fetched_market])
              = Some fetched_market) by reflexivity.
  split; [exact H |].
  apply (selectedMarket_matches_position market_position [fetched_market]
           fetched_market example_market_id_bytes).
  - constructor; [exact example_market_id_bytes | constructor].
  - exact H.
Defined.

(** ** A key typed into the admin page *)

Lemma base58_decode_bytes s bs : base58_decode s = Some bs -> Forall is_byte bs.
Proof.
  unfold base58_decode. destruct (base58_value s 0) as [v |]; [| discriminate].
  intros [= <-]. apply Forall_app. split.
  - apply Forall_forall. intros x Hx. apply repeat_spec in Hx. subst.
    unfold is_byte. lia.
  - apply be_bytes_are_bytes.
Qed.

(** X11.  [parsePubkey] fails in two ways only, each naming the field: a
    blank value gives '<label> is required', and every other value that
    is not the base58 text of 32 bytes gives 'Invalid <label> public
    key', whatever the key library threw.  A key it returns is the key
    of the 32 bytes the trimmed text decodes to. *)
Theorem parsePubkey_outcome :
  forall (value label : jsstring),
    (trim value = [] ->
     parsePubkey value label
     = Throw (ErrorObject Error_ (label ++ js " is required") NoLogsField))
    /\ (trim value <> [] ->
        forall e, parsePubkey value label = Throw e ->
          e = ErrorObject Error_ (js "Invalid " ++ label ++ js " public key")
                NoLogsField)
    /\ (forall k, parsePubkey value label = Ok k ->
          base58_decode (trim value) = Some (toBuffer k) /\ valid_key k)
    /\ (forall bs, base58_decode (trim value) = Some bs -> length bs = 32%nat ->
          exists k, parsePubkey value label = Ok k /\ toBuffer k = bs).
Proof.
  intros value label. unfold parsePubkey. cbv zeta.
  split; [| split; [| split]].
  - now intros ->.
  - intros Hne e. destruct (trim value) as [| c r]; [congruence |].
    destruct (PublicKey_of_string (c :: r)); [discriminate | now intros [= <-]].
  - intros k. destruct (trim value) as [| c r] eqn:T; [discriminate |].
    unfold PublicKey_of_string.
    destruct (base58_decode (c :: r)) as [bs |] eqn:D; [| discriminate].
    destruct (Nat.eqb_spec (length bs) 32) as [Hl | Hl]; [| discriminate].
    destruct (PublicKey_of_32_bytes bs (base58_decode_bytes _ _ D) Hl)
      as (k' & Hk & Hb & Hv).
    rewrite Hk. intros [= <-]. now rewrite Hb.
  - intros bs D Hl. destruct (trim value) as [| c r] eqn:T.
    + cbn in D. injection D as <-. discriminate Hl.
    + unfold PublicKey_of_string. rewrite D.
      destruct (Nat.eqb_spec (length bs) 32) as [_ | C]; [| contradiction].
      destruct (PublicKey_of_32_bytes bs (base58_decode_bytes _ _ D) Hl)
        as (k' & Hk & Hb & Hv).
      rewrite Hk. now exists k'.
Qed.

(** ** Runs of the page's handlers *)

Lemma pbind_plift_Ok {A B} (a : A) (f : A -> Page B) :
  pbind (plift (Ok a)) f = f a.
Proof. unfold pbind, plift. cbn. now destruct (f a). Qed.

Lemma pbind_plift_Throw {A B} e (f : A -> Page B) :
  pbind (plift (Throw e)) f = ([], Throw e).
Proof. reflexivity. Qed.

Lemma page_submitted_app t1 t2 :
  page_submitted (t1 ++ t2) = page_submitted t1 ++ page_submitted t2.
Proof. apply flat_map_app. Qed.

Lemma page_submitted_Core t : page_submitted (map Core t) = submitted t.
Proof.
  unfold page_submitted, submitted.
  induction t as [| ev t IH]; [reflexivity |].
  cbn [map flat_map]. now rewrite IH.
Qed.

Lemma page_submitted_pbind {A B} (m : Page A) (f : A -> Page B) :
  page_submitted (fst (pbind m f)) =
  page_submitted (fst m)
  ++ match snd m with
     | Ok a => page_submitted (fst (f a))
     | Throw _ => []
     end.
Proof.
  unfold pbind. destruct (snd m); cbn [fst].
  - apply page_submitted_app.
  - now rewrite app_nil_r.
Qed.

(** What the [catch] and [finally] blocks of the handlers do hands
    nothing to the wallet. *)
Lemma page_submitted_ptry {A} (m : Page A) h f :
  (forall e, page_submitted (fst (h e)) = []) ->
  page_submitted f = [] ->
  page_submitted (fst (ptry m h f)) = page_submitted (fst m).
Proof.
  intros Hh Hf. unfold ptry.
  destruct (snd m); cbn [fst];
    rewrite !page_submitted_app, ?Hh, Hf; now rewrite ?app_nil_r.
Qed.

Lemma page_submitted_of_async {A B} (m : Async A) (f : A -> Page B) :
  page_submitted (fst (pbind (of_async m) f)) =
  submitted (fst m)
  ++ match snd m with
     | Ok a => page_submitted (fst (f a))
     | Throw _ => []
     end.
Proof.
  rewrite page_submitted_pbind. unfold of_async. cbn [fst snd].
  now rewrite page_submitted_Core.
Qed.

Lemma submitted_getOrCreateAtaIx connection payer owner mint :
  submitted (fst (getOrCreateAtaIx connection payer owner mint)) = [].
Proof.
  destruct (accountInfo connection mint) as [[info |] | e0] eqn:H.
  - destruct (getAssociatedTokenAddressSync mint owner false
                (token_program_of info) ASSOCIATED_TOKEN_PROGRAM_ID)
      as [ata | e] eqn:D.
    + now rewrite (getOrCreateAtaIx_looked_up _ payer _ _ _ _ H D).
    + now rewrite (getOrCreateAtaIx_underivable _ payer _ _ _ _ H D).
  - now rewrite (getOrCreateAtaIx_no_mint _ payer owner _ H).
  - now rewrite (getOrCreateAtaIx_mint_rejected _ payer owner _ _ H).
Qed.

(** The first call of [getOrCreateAtaIx] is the lookup of the mint. *)
Lemma getOrCreateAtaIx_first_call connection payer owner mint :
  exists rest,
    fst (getOrCreateAtaIx connection payer owner mint)
    = GetAccountInfo mint :: rest.
Proof.
  destruct (accountInfo connection mint) as [[info |] | e0] eqn:H.
  - destruct (getAssociatedTokenAddressSync mint owner false
                (token_program_of info) ASSOCIATED_TOKEN_PROGRAM_ID)
      as [ata | e] eqn:D.
    + rewrite (getOrCreateAtaIx_looked_up _ payer _ _ _ _ H D). now eexists.
    + rewrite (getOrCreateAtaIx_underivable _ payer _ _ _ _ H D). now eexists.
  - rewrite (getOrCreateAtaIx_no_mint _ payer owner _ H). now eexists.
  - rewrite (getOrCreateAtaIx_mint_rejected _ payer owner _ _ H). now eexists.
Qed.

Lemma submitted_ensurePositionIx connection marketId market owner payer :
  submitted (fst (ensurePositionIx connection marketId market owner payer)) = [].
Proof.
  destruct (getPositionPDA marketId owner) as [[pda bump] | e] eqn:H.
  - now rewrite (ensurePositionIx_looked_up _ _ market _ payer _ _ H).
  - unfold ensurePositionIx. now rewrite H, abind_lift_Throw.
Qed.

(** A token account is resolved for a mint that exists, at the derived
    address, once the lookup of that address is answered. *)
Lemma getOrCreateAtaIx_Ok connection payer owner mint resolved :
  snd (getOrCreateAtaIx connection payer owner mint) = Ok resolved ->
  exists info ata existing,
    accountInfo connection mint = Ok (Some info)
    /\ getAssociatedTokenAddressSync mint owner false (token_program_of info)
         ASSOCIATED_TOKEN_PROGRAM_ID = Ok ata
    /\ accountInfo connection ata = Ok existing
    /\ ata_address resolved = ata
    /\ ata_tokenProgramId resolved = token_program_of info
    /\ present [ata_instruction resolved]
       = token_account_creation payer ata owner mint (token_program_of info)
           existing.
Proof.
  destruct (accountInfo connection mint) as [[info |] | e0] eqn:H.
  - destruct (getAssociatedTokenAddressSync mint owner false
                (token_program_of info) ASSOCIATED_TOKEN_PROGRAM_ID)
      as [ata | e] eqn:D.
    + rewrite (getOrCreateAtaIx_looked_up _ payer _ _ _ _ H D). cbn [snd].
      destruct (accountInfo connection ata) as [existing | e] eqn:E;
        [| discriminate].
      intros [= <-]. exists info, ata, existing.
      cbn [ata_tokenProgramId ata_address ata_instruction].
      split; [reflexivity |]. split; [exact D |]. split; [exact E |].
      split; [reflexivity |]. split; [reflexivity |].
      now destruct existing.
    + rewrite (getOrCreateAtaIx_underivable _ payer _ _ _ _ H D). discriminate.
  - rewrite (getOrCreateAtaIx_no_mint _ payer owner _ H). discriminate.
  - rewrite (getOrCreateAtaIx_mint_rejected _ payer owner _ _ H). discriminate.
Qed.

(** The transaction [sendInstructions] hands over when the last entry
    of its list is present. *)
Lemma submitted_send_last connection wallet ixs ix :
  submitted (fst (sendInstructions connection wallet (ixs ++ [Some ix])))
  = [mkTransaction (Some (publicKey wallet)) (present ixs ++ [ix])].
Proof.
  rewrite submitted_sendInstructions, present_app. cbn [present].
  now destruct (present ixs).
Qed.

Lemma submitted_send_after connection wallet a ix :
  submitted (fst (sendInstructions connection wallet [a; Some ix]))
  = [mkTransaction (Some (publicKey wallet)) (present [a] ++ [ix])].
Proof. apply (submitted_send_last connection wallet [a] ix). Qed.

Lemma present_length {A} (l : list (option A)) :
  (length (present l) <= length l)%nat.
Proof.
  induction l as [| [a |] l IH]; cbn [present length]; lia.
Qed.

(** ** Supplying, in general *)

Lemma submitted_send_after_two connection wallet a b ix :
  submitted (fst (sendInstructions connection wallet [a; b; Some ix]))
  = [mkTransaction (Some (publicKey wallet)) (present [a; b] ++ [ix])].
Proof. apply (submitted_send_last connection wallet [a; b] ix). Qed.

(** What [handleSupply] hands to the wallet, by the outcome of each of
    its steps. *)
Lemma handleSupply_submitted connection w market marketId marketKey amount :
  amount <> [] ->
  submitted (fst (handleSupply connection (Some w) market marketId marketKey
                    amount)) =
  match getLoanVaultPDA marketId,
        snd (getOrCreateAtaIx connection (publicKey w) (publicKey w)
               (loanMint market)),
        snd (ensurePositionIx connection marketId marketKey (publicKey w)
               (publicKey w)),
        parseTokenAmount amount (loanDecimals market)
  with
  | Ok loanVault, Ok ata, Ok position, Ok assets =>
      [ mkTransaction (Some (publicKey w))
          (present [ata_instruction ata; position_instruction position]
           ++ [ MethodInstruction "supply"
                  [ArgBytes marketId; ArgBN assets; ArgBN 0]
                  [ ("supplier", publicKey w);
                    ("protocolState", protocol_state_address);
                    ("market", marketKey);
                    ("position", positionPda position);
                    ("onBehalfOf", publicKey w);
                    ("supplierTokenAccount", ata_address ata);
                    ("loanVault", fst loanVault);
                    ("loanMint", loanMint market);
                    ("tokenProgram", ata_tokenProgramId ata) ]%string ]) ]
  | _, _, _, _ => []
  end.
Proof.
  intros Hne. rewrite submitted_handleSupply by exact Hne.
  unfold supply_steps. cbv zeta.
  rewrite protocol_state_derived, abind_lift_Ok.
  destruct (getLoanVaultPDA marketId) as [loanVault | e1];
    [rewrite abind_lift_Ok | reflexivity].
  rewrite submitted_abind, submitted_getOrCreateAtaIx. cbn [app].
  destruct (snd (getOrCreateAtaIx connection (publicKey w) (publicKey w)
                   (loanMint market))) as [ata | e2]; [| reflexivity].
  rewrite submitted_abind, submitted_ensurePositionIx. cbn [app].
  destruct (snd (ensurePositionIx connection marketId marketKey (publicKey w)
                   (publicKey w))) as [position | e3]; [| reflexivity].
  destruct (parseTokenAmount amount (loanDecimals market)) as [assets | e4];
    [rewrite abind_lift_Ok | reflexivity].
  rewrite parse_zero_shares, abind_lift_Ok.
  rewrite submitted_abind, submitted_send_after_two.
  unfold marketIdToArray. cbn [fst].
  destruct (snd (sendInstructions _ _ _)); reflexivity.
Qed.



(** ** Repaying *)

Lemma handleRepay_started connection w market marketId marketKey mode amount :
  amount <> [] ->
  handleRepay connection (Some w) market marketId marketKey true mode amount =
  (pemit (Core (SetSubmitting true)) ;;
   pemit (Core (ToastLoading (js "Submitting repay..."))) ;;
   ptry (repay_steps connection w market marketId marketKey mode amount)
        (fun error =>
           pemit (Core (ToastError (js "Repay failed") (describe error))))
        [Core (SetSubmitting false)])%page.
Proof.
  intros H. unfold handleRepay. destruct amount; [congruence | reflexivity].
Qed.

(** What [handleRepay] hands to the wallet, by the outcome of each of
    its steps. *)
Lemma handleRepay_submitted connection w market marketId marketKey mode amount :
  amount <> [] ->
  page_submitted (fst (handleRepay connection (Some w) market marketId
                         marketKey true mode amount)) =
  match getLoanVaultPDA marketId,
        getPositionPDA marketId (publicKey w),
        snd (getOrCreateAtaIx connection (publicKey w) (publicKey w)
               (loanMint market)),
        match mode with
        | Assets => parseTokenAmount amount (loanDecimals market)
        | Shares => parseIntegerAmount (js "0")
        end,
        match mode with
        | Shares => parseIntegerAmount amount
        | Assets => parseIntegerAmount (js "0")
        end
  with
  | Ok loanVault, Ok position, Ok ata, Ok assets, Ok shares =>
      [ mkTransaction (Some (publicKey w))
          (present [ata_instruction ata]
           ++ [ MethodInstruction "repay"
                  [ArgBytes marketId; ArgBN assets; ArgBN shares]
                  [ ("repayer", publicKey w);
                    ("market", marketKey);
                    ("position", fst position);
                    ("onBehalfOf", publicKey w);
                    ("repayerTokenAccount", ata_address ata);
                    ("loanVault", fst loanVault);
                    ("loanMint", loanMint market);
                    ("tokenProgram", ata_tokenProgramId ata) ]%string ]) ]
  | _, _, _, _, _ => []
  end.
Proof.
  intros Hne. rewrite handleRepay_started by exact Hne.
  rewrite !page_submitted_pbind. cbn [pemit fst snd page_submitted flat_map app].
  rewrite page_submitted_ptry by reflexivity.
  unfold repay_steps. cbv zeta.
  destruct (getLoanVaultPDA marketId) as [loanVault | e1];
    [rewrite pbind_plift_Ok | reflexivity].
  destruct (getPositionPDA marketId (publicKey w)) as [position | e2];
    [rewrite pbind_plift_Ok | reflexivity].
  rewrite page_submitted_of_async, submitted_getOrCreateAtaIx. cbn [app].
  destruct (snd (getOrCreateAtaIx connection (publicKey w) (publicKey w)
                   (loanMint market))) as [ata | e3]; [| reflexivity].
  destruct (match mode with
            | Assets => parseTokenAmount amount (loanDecimals market)
            | Shares => parseIntegerAmount (js "0")
            end) as [assets | e4]; [rewrite pbind_plift_Ok | reflexivity].
  destruct (match mode with
            | Shares => parseIntegerAmount amount
            | Assets => parseIntegerAmount (js "0")
            end) as [shares | e5]; [rewrite pbind_plift_Ok | reflexivity].
  rewrite page_submitted_of_async.
  rewrite submitted_send_after.
  unfold marketIdToArray.
  destruct (snd (sendInstructions _ _ _)); reflexivity.
Qed.

(** X13.  Whatever the node answers, a transaction [handleRepay] hands
    to the wallet is the only one of the run, and the handler was told
    that the position exists.  The vault and the position were derived,
    the loan mint exists and the wallet's token account was derived and
    looked up; the wallet pays the fee; and the transaction holds the
    creation of that token account when the node reported none, then the
    one [repay] instruction and nothing else.  That instruction names an
    amount on one side only (in assets mode the parsed token amount and
    zero shares, in shares mode the parsed integer and zero assets), and
    no instruction of the transaction creates a position. *)
Theorem handleRepay_one_sided :
  forall (connection : Connection) (wallet : option AnchorWallet)
         (market : SupplyMarket) (marketId : list Z) (marketKey : PublicKey)
         (positionExists : bool) (mode : Mode) (amount : jsstring)
         (tx : Transaction),
    In tx (page_submitted
             (fst (handleRepay connection wallet market marketId marketKey
                     positionExists mode amount))) ->
    positionExists = true
    /\ page_submitted
         (fst (handleRepay connection wallet market marketId marketKey
                 positionExists mode amount)) = [tx]
    /\ forallb (fun ix => negb (calls_method "createPosition" ix))
         (instructions tx) = true
    /\ exists w loanVault vaultBump position positionBump mintInfo ata
              tokenAccount assets shares,
         wallet = Some w
         /\ getLoanVaultPDA marketId = Ok (loanVault, vaultBump)
         /\ getPositionPDA marketId (publicKey w) = Ok (position, positionBump)
         /\ accountInfo connection (loanMint market) = Ok (Some mintInfo)
         /\ getAssociatedTokenAddressSync (loanMint market) (publicKey w)
              false (token_program_of mintInfo) ASSOCIATED_TOKEN_PROGRAM_ID
            = Ok ata
         /\ accountInfo connection ata = Ok tokenAccount
         /\ match mode with
            | Assets =>
                parseTokenAmount amount (loanDecimals market) = Ok assets
                /\ shares = 0
            | Shares =>
                parseIntegerAmount amount = Ok shares /\ assets = 0
            end
         /\ tx = mkTransaction (Some (publicKey w))
                   (token_account_creation (publicKey w) ata (publicKey w)
                      (loanMint market) (token_program_of mintInfo)
                      tokenAccount
                    ++ [ MethodInstruction "repay"
                           [ArgBytes marketId; ArgBN assets; ArgBN shares]
                           [ ("repayer", publicKey w);
                             ("market", marketKey);
                             ("position", position);
                             ("onBehalfOf", publicKey w);
                             ("repayerTokenAccount", ata);
                             ("loanVault", loanVault);
                             ("loanMint", loanMint market);
                             ("tokenProgram", token_program_of mintInfo)
                           ]%string ]).
Proof.
  intros connection wallet market marketId marketKey positionExists mode
         amount tx Hin.
  destruct wallet as [w |]; [| destruct Hin].
  destruct amount as [| c amount]; [destruct Hin |].
  destruct positionExists; [| destruct Hin].
  split; [reflexivity |].
  rewrite handleRepay_submitted in Hin |- * by discriminate.
  destruct (getLoanVaultPDA marketId) as [[loanVault vaultBump] |] eqn:Hv;
    [| destruct Hin].
  destruct (getPositionPDA marketId (publicKey w))
    as [[position positionBump] |] eqn:Hp; [| destruct Hin].
  destruct (snd (getOrCreateAtaIx connection (publicKey w) (publicKey w)
                   (loanMint market))) as [resolved |] eqn:R; [| destruct Hin].
  apply getOrCreateAtaIx_Ok in R
    as (mintInfo & ata & tokenAccount & Hmint & Hata & Hacct & Ea & Ep & Ec).
  rewrite Ea, Ep, Ec in Hin |- *. cbn [fst] in Hin |- *.
  assert (Hshape : forall assets shares,
            tx = mkTransaction (Some (publicKey w))
                   (token_account_creation (publicKey w) ata (publicKey w)
                      (loanMint market) (token_program_of mintInfo)
                      tokenAccount
                    ++ [ MethodInstruction "repay"
                           [ArgBytes marketId; ArgBN assets; ArgBN shares]
                           [ ("repayer", publicKey w);
                             ("market", marketKey);
                             ("position", position);
                             ("onBehalfOf", publicKey w);
                             ("repayerTokenAccount", ata);
                             ("loanVault", loanVault);
                             ("loanMint", loanMint market);
                             ("tokenProgram", token_program_of mintInfo)
                           ]%string ]) ->
            forallb (fun ix => negb (calls_method "createPosition" ix))
              (instructions tx) = true).
  { intros assets shares ->. now destruct tokenAccount. }
  destruct mode.
  - destruct (parseTokenAmount (c :: amount) (loanDecimals market))
      as [assets |] eqn:Pa; [| destruct Hin].
    rewrite parse_zero_shares in Hin |- *.
    destruct Hin as [<- | []]. split; [reflexivity |].
    split; [now apply (Hshape assets 0) |].
    exists w, loanVault, vaultBump, position, positionBump, mintInfo, ata,
      tokenAccount, assets, 0.
    repeat match goal with |- _ /\ _ => split end;
      first [reflexivity | eassumption].
  - rewrite parse_zero_shares in Hin |- *.
    destruct (parseIntegerAmount (c :: amount)) as [shares |] eqn:Ps;
      [| destruct Hin].
    destruct Hin as [<- | []]. split; [reflexivity |].
    split; [now apply (Hshape 0 shares) |].
    exists w, loanVault, vaultBump, position, positionBump, mintInfo, ata,
      tokenAccount, 0, shares.
    repeat match goal with |- _ /\ _ => split end;
      first [reflexivity | eassumption].
Qed.

Lemma funded_ata_resolved :
  getOrCreateAtaIx funded_connection (publicKey example_wallet)
    (publicKey example_wallet) example_mint
  = ([GetAccountInfo example_mint; GetAccountInfo example_ata],
     Ok (mkAtaResult example_ata TOKEN_PROGRAM_ID None)).
Proof.
  exact (getOrCreateAtaIx_derived funded_connection (publicKey example_wallet)
           (publicKey example_wallet) example_mint
           (mkAccountInfo TOKEN_PROGRAM_ID 1461600 [] false) example_ata
           (Some (mkAccountInfo TOKEN_PROGRAM_ID 2039280 [] false))
           eq_refl example_ata_derived eq_refl).
Qed.

Lemma parse_25_shares : parseIntegerAmount (js "25") = Ok 25.
Proof. vm_compute. reflexivity. Qed.

Lemma handleRepay_one_sided_witness :
  page_submitted
    (fst (handleRepay funded_connection (Some example_wallet) example_market
            example_market_id example_market_key true Shares (js "25")))
  = [ mkTransaction (Some (publicKey example_wallet))
        [ MethodInstruction "repay"
            [ArgBytes example_market_id; ArgBN 0; ArgBN 25]
            example_repay_accounts ] ].
Proof.
  assert (Hrun : page_submitted
            (fst (handleRepay funded_connection (Some example_wallet)
                    example_market example_market_id example_market_key true
                    Shares (js "25")))
          = [ mkTransaction (Some (publicKey example_wallet))
                [ MethodInstruction "repay"
                    [ArgBytes example_market_id; ArgBN 0; ArgBN 25]
                    example_repay_accounts ] ]).
  { rewrite handleRepay_submitted by discriminate.
    rewrite example_loan_vault_derived, example_position_derived.
    change (loanMint example_market) with example_mint.
    rewrite funded_ata_resolved. cbn [snd].
    now rewrite parse_zero_shares, parse_25_shares. }
  apply (handleRepay_one_sided funded_connection (Some example_wallet)
           example_market example_market_id example_market_key true Shares
           (js "25")).
  rewrite Hrun. now left.
Defined.

(** ** Flash loans *)

Lemma executeFlashLoan_started connection w market marketId marketKey amount type :
  amount <> [] ->
  executeFlashLoan connection (Some w) market marketId marketKey amount type =
  (pemit (Core (SetSubmitting true)) ;;
   pemit (Core (ToastLoading (flash_loading type))) ;;
   ptry (flash_steps connection w market marketId marketKey type amount)
        (fun error =>
           pemit (Core (ToastError (js "Flash loan failed") (describe error))))
        [Core (SetSubmitting false)])%page.
Proof.
  intros H. unfold executeFlashLoan. destruct amount; [congruence | reflexivity].
Qed.

(** What [executeFlashLoan] hands to the wallet, by the outcome of each
    of its steps. *)
Lemma executeFlashLoan_submitted connection w market marketId marketKey amount type :
  amount <> [] ->
  page_submitted (fst (executeFlashLoan connection (Some w) market marketId
                         marketKey amount type)) =
  match getLoanVaultPDA marketId,
        snd (getOrCreateAtaIx connection (publicKey w) (publicKey w)
               (loanMint market)),
        parseTokenAmount amount (loanDecimals market)
  with
  | Ok loanVault, Ok ata, Ok amountBn =>
      [ mkTransaction (Some (publicKey w))
          (present [ata_instruction ata]
           ++ [ MethodInstruction (flash_method type)
                  [ArgBytes marketId; ArgBN amountBn]
                  ([ ("borrower", publicKey w) ]%string
                   ++ match type with
                      | End_ => []
                      | _ => [ ("protocolState", protocol_state_address) ]%string
                      end
                   ++ [ ("market", marketKey);
                        ("borrowerTokenAccount", ata_address ata);
                        ("loanVault", fst loanVault);
                        ("loanMint", loanMint market);
                        ("tokenProgram", ata_tokenProgramId ata) ]%string) ]) ]
  | _, _, _ => []
  end.
Proof.
  intros Hne. rewrite executeFlashLoan_started by exact Hne.
  rewrite !page_submitted_pbind. cbn [pemit fst snd page_submitted flat_map app].
  rewrite page_submitted_ptry by reflexivity.
  unfold flash_steps. cbv zeta.
  rewrite protocol_state_derived, pbind_plift_Ok.
  destruct (getLoanVaultPDA marketId) as [loanVault | e1];
    [rewrite pbind_plift_Ok | reflexivity].
  rewrite page_submitted_of_async, submitted_getOrCreateAtaIx. cbn [app].
  destruct (snd (getOrCreateAtaIx connection (publicKey w) (publicKey w)
                   (loanMint market))) as [ata | e3]; [| reflexivity].
  destruct (parseTokenAmount amount (loanDecimals market)) as [amountBn | e4];
    [rewrite pbind_plift_Ok | reflexivity].
  rewrite page_submitted_pbind.
  destruct type; rewrite page_submitted_of_async, submitted_send_after;
    unfold marketIdToArray, flash_method, pbind, of_async; cbn [fst snd app];
    destruct (snd (sendInstructions _ _ _)); reflexivity.
Qed.

(** X14.  Whatever the node answers, a transaction [executeFlashLoan]
    hands to the wallet is the only one of the run.  The vault was
    derived, the loan mint exists, the wallet's token account was derived
    and looked up and the amount was parsed with the loan asset's
    decimals; the wallet pays the fee; and the transaction holds the
    creation of that token account when the node reported none, then the
    one instruction of the call made ([flashLoan], [flashLoanStart] or
    [flashLoanEnd]) for the market and the parsed amount, and nothing
    else.  The instruction names the protocol state account except when
    it ends a loan. *)
Theorem executeFlashLoan_instruction :
  forall (connection : Connection) (wallet : option AnchorWallet)
         (market : SupplyMarket) (marketId : list Z) (marketKey : PublicKey)
         (amount : jsstring) (type : FlashType) (tx : Transaction),
    In tx (page_submitted
             (fst (executeFlashLoan connection wallet market marketId
                     marketKey amount type))) ->
    page_submitted
      (fst (executeFlashLoan connection wallet market marketId marketKey
              amount type)) = [tx]
    /\ exists w loanVault vaultBump mintInfo ata tokenAccount amountBn,
         wallet = Some w
         /\ getLoanVaultPDA marketId = Ok (loanVault, vaultBump)
         /\ accountInfo connection (loanMint market) = Ok (Some mintInfo)
         /\ getAssociatedTokenAddressSync (loanMint market) (publicKey w)
              false (token_program_of mintInfo) ASSOCIATED_TOKEN_PROGRAM_ID
            = Ok ata
         /\ accountInfo connection ata = Ok tokenAccount
         /\ parseTokenAmount amount (loanDecimals market) = Ok amountBn
         /\ tx = mkTransaction (Some (publicKey w))
                   (token_account_creation (publicKey w) ata (publicKey w)
                      (loanMint market) (token_program_of mintInfo)
                      tokenAccount
                    ++ [ MethodInstruction (flash_method type)
                           [ArgBytes marketId; ArgBN amountBn]
                           ([ ("borrower", publicKey w) ]%string
                            ++ match type with
                               | End_ => []
                               | _ => [ ("protocolState",
                                         protocol_state_address) ]%string
                               end
                            ++ [ ("market", marketKey);
                                 ("borrowerTokenAccount", ata);
                                 ("loanVault", loanVault);
                                 ("loanMint", loanMint market);
                                 ("tokenProgram", token_program_of mintInfo)
                               ]%string) ]).
Proof.
  intros connection wallet market marketId marketKey amount type tx Hin.
  destruct wallet as [w |]; [| destruct Hin].
  destruct amount as [| c amount]; [destruct Hin |].
  rewrite executeFlashLoan_submitted in Hin |- * by discriminate.
  destruct (getLoanVaultPDA marketId) as [[loanVault vaultBump] |] eqn:Hv;
    [| destruct Hin].
  destruct (snd (getOrCreateAtaIx connection (publicKey w) (publicKey w)
                   (loanMint market))) as [resolved |] eqn:R; [| destruct Hin].
  apply getOrCreateAtaIx_Ok in R
    as (mintInfo & ata & tokenAccount & Hmint & Hata & Hacct & Ea & Ep & Ec).
  rewrite Ea, Ep, Ec in Hin |- *. cbn [fst] in Hin |- *.
  destruct (parseTokenAmount (c :: amount) (loanDecimals market))
    as [amountBn |] eqn:Pa; [| destruct Hin].
  destruct Hin as [<- | []]. split; [reflexivity |].
  exists w, loanVault, vaultBump, mintInfo, ata, tokenAccount, amountBn.
  repeat match goal with |- _ /\ _ => split end;
    first [reflexivity | eassumption].
Qed.

Lemma parse_one_token : parseTokenAmount (js "1") 6 = Ok 1000000.
Proof. vm_compute. reflexivity. Qed.

Lemma executeFlashLoan_instruction_witness :
  page_submitted
    (fst (executeFlashLoan funded_connection (Some example_wallet)
            example_market example_market_id example_market_key (js "1") End_))
  = [ mkTransaction (Some (publicKey example_wallet))
        [ MethodInstruction "flashLoanEnd"
            [ArgBytes example_market_id; ArgBN 1000000]
            example_flash_end_accounts ] ].
Proof.
  assert (Hrun : page_submitted
            (fst (executeFlashLoan funded_connection (Some example_wallet)
                    example_market example_market_id example_market_key
                    (js "1") End_))
          = [ mkTransaction (Some (publicKey example_wallet))
                [ MethodInstruction "flashLoanEnd"
                    [ArgBytes example_market_id; ArgBN 1000000]
                    example_flash_end_accounts ] ]).
  { rewrite executeFlashLoan_submitted by discriminate.
    rewrite example_loan_vault_derived.
    change (loanMint example_market) with example_mint.
    change (loanDecimals example_market) with 6.
    rewrite funded_ata_resolved. cbn [snd].
    now rewrite parse_one_token. }
  apply (executeFlashLoan_instruction funded_connection (Some example_wallet)
           example_market example_market_id example_market_key (js "1") End_).
  rewrite Hrun. now left.
Defined.

(** ** Wrapping SOL *)

Lemma present_map_Some {A} (l : list A) : present (map Some l) = l.
Proof. induction l as [| x l IH]; cbn [map present]; congruence. Qed.

Lemma buildWrapSolInstructions_positive connection payer owner lamports :
  0 < lamports < 2 ^ 53 ->
  buildWrapSolInstructions connection payer owner lamports =
  await resolved := getOrCreateAtaIx connection payer owner NATIVE_MINT in
  aret (mkWrapResult (ata_address resolved)
          (present [ata_instruction resolved]
           ++ [ SystemProgram_transfer payer (ata_address resolved) lamports;
                createSyncNativeInstruction (ata_address resolved) ])).
Proof.
  intros H. unfold buildWrapSolInstructions, Number_isSafeInteger.
  destruct (Z.leb_spec (Z.abs lamports) (2 ^ 53 - 1)); [| lia].
  destruct (Z.leb_spec lamports 0); [lia |]. cbn [negb orb].
  cbv zeta. f_equal.
Qed.

(** X15.  [buildWrapSolInstructions] throws 'Invalid wrap amount',
    before any lookup, exactly for an amount that is zero, negative or
    of magnitude [2^53] or more.  For every other amount it resolves the
    owner's wrapped-SOL account and fails only if that fails; its list
    then ends with the transfer of the amount from the payer to that
    account and the instruction that synchronises the account, preceded
    by the creation of the account when the node reports none. *)
Theorem buildWrapSolInstructions_outcome :
  forall (connection : Connection) (payer owner : PublicKey) (amount : Z),
    (buildWrapSolInstructions connection payer owner amount
     = ([], Throw (new_Error "Invalid wrap amount"))
     <-> amount <= 0 \/ 2 ^ 53 <= amount)
    /\ (0 < amount < 2 ^ 53 ->
        fst (buildWrapSolInstructions connection payer owner amount)
        = fst (getOrCreateAtaIx connection payer owner NATIVE_MINT)
        /\ snd (buildWrapSolInstructions connection payer owner amount)
           = match snd (getOrCreateAtaIx connection payer owner NATIVE_MINT) with
             | Ok resolved =>
                 Ok (mkWrapResult (ata_address resolved)
                       (present [ata_instruction resolved]
                        ++ [ SystemProgram_transfer payer
                               (ata_address resolved) amount;
                             createSyncNativeInstruction
                               (ata_address resolved) ]))
             | Throw e => Throw e
             end).
Proof.
  intros connection payer owner amount.
  assert (Hpos : 0 < amount < 2 ^ 53 ->
            fst (buildWrapSolInstructions connection payer owner amount)
            = fst (getOrCreateAtaIx connection payer owner NATIVE_MINT)
            /\ snd (buildWrapSolInstructions connection payer owner amount)
               = match snd (getOrCreateAtaIx connection payer owner NATIVE_MINT)
                 with
                 | Ok resolved =>
                     Ok (mkWrapResult (ata_address resolved)
                           (present [ata_instruction resolved]
                            ++ [ SystemProgram_transfer payer
                                   (ata_address resolved) amount;
                                 createSyncNativeInstruction
                                   (ata_address resolved) ]))
                 | Throw e => Throw e
                 end).
  { intros H. rewrite buildWrapSolInstructions_positive by exact H.
    unfold abind, aret.
    destruct (snd (getOrCreateAtaIx connection payer owner NATIVE_MINT));
      cbn [fst snd]; now rewrite ?app_nil_r. }
  split; [| exact Hpos].
  split.
  - intros H.
    destruct (Z.leb_spec amount 0) as [| Hp]; [now left |].
    destruct (Z.leb_spec (2 ^ 53) amount) as [| Hs]; [now right |].
    exfalso. destruct (Hpos (conj Hp Hs)) as [Hf Hsnd].
    rewrite H in Hf, Hsnd. cbn [fst snd] in Hf, Hsnd.
    destruct (getOrCreateAtaIx_first_call connection payer owner NATIVE_MINT)
      as [rest Hfirst].
    rewrite Hfirst in Hf. discriminate Hf.
  - intros H. unfold buildWrapSolInstructions, Number_isSafeInteger.
    destruct (Z.leb_spec (Z.abs amount) (2 ^ 53 - 1)); cbn [negb orb];
      [| reflexivity].
    destruct (Z.leb_spec amount 0); [reflexivity | lia].
Qed.

Lemma native_ata_derived :
  getAssociatedTokenAddressSync NATIVE_MINT (publicKey example_wallet) false
    TOKEN_PROGRAM_ID ASSOCIATED_TOKEN_PROGRAM_ID = Ok example_wrapped_account.
Proof. vm_compute. reflexivity. Qed.

Lemma buildWrapSolInstructions_outcome_witness :
  0 < 1 < 2 ^ 53
  /\ snd (buildWrapSolInstructions native_connection (publicKey example_wallet)
            (publicKey example_wallet) 1)
     = Ok (mkWrapResult example_wrapped_account
             [ createAssociatedTokenAccountInstruction
                 (publicKey example_wallet) example_wrapped_account
                 (publicKey example_wallet) NATIVE_MINT
                 TOKEN_PROGRAM_ID ASSOCIATED_TOKEN_PROGRAM_ID;
               SystemProgram_transfer (publicKey example_wallet)
                 example_wrapped_account 1;
               createSyncNativeInstruction example_wrapped_account ]).
Proof.
  assert (Hr : 0 < 1 < 2 ^ 53) by (split; reflexivity).
  split; [exact Hr |].
  rewrite (proj2 (proj2 (buildWrapSolInstructions_outcome native_connection
                    (publicKey example_wallet) (publicKey example_wallet) 1)
                   Hr)).
  now rewrite (getOrCreateAtaIx_derived native_connection
                 (publicKey example_wallet) (publicKey example_wallet)
                 NATIVE_MINT (mkAccountInfo TOKEN_PROGRAM_ID 1461600 [] false)
                 example_wrapped_account None eq_refl native_ata_derived
                 eq_refl).
Defined.

Lemma handleWrapSol_started connection w market amount :
  amount <> [] ->
  handleWrapSol connection (Some w) market amount =
  (pemit (SetWrapping true) ;;
   pemit (Core (ToastLoading (js "Wrapping SOL..."))) ;;
   ptry (wrap_steps connection w market amount)
        (fun error =>
           pemit (Core (ToastError (js "Wrap failed") (describe error))))
        [SetWrapping false])%page.
Proof.
  intros H. unfold handleWrapSol. destruct amount; [congruence | reflexivity].
Qed.

(** A run of [handleWrapSol] whose steps throw before any call is
    made. *)
Lemma handleWrapSol_refused connection w market amount e :
  amount <> [] ->
  wrap_steps connection w market amount = ([], Throw e) ->
  handleWrapSol connection (Some w) market amount
  = ([ SetWrapping true;
       Core (ToastLoading (js "Wrapping SOL..."));
       Core (ToastError (js "Wrap failed") (describe e));
       SetWrapping false ],
     Ok tt).
Proof.
  intros Hne Hs. rewrite handleWrapSol_started by exact Hne. now rewrite Hs.
Qed.

(** X16.  [handleWrapSol] refuses, before it asks the node anything, an
    amount that parses to zero ('Invalid wrap amount'), an amount of
    [2^53] lamports or more ('Amount too large') and an amount that is
    not a decimal numeral ('Invalid amount format'): the run is the
    loading toast, the error toast and the reset of the flag. *)
Theorem handleWrapSol_refuses :
  forall (connection : Connection) (wallet : AnchorWallet)
         (market : SupplyMarket) (amount : jsstring),
    amount <> [] ->
    let refused message :=
      handleWrapSol connection (Some wallet) market amount
      = ([ SetWrapping true;
           Core (ToastLoading (js "Wrapping SOL..."));
           Core (ToastError (js "Wrap failed") message);
           SetWrapping false ],
         Ok tt) in
    (parseTokenAmount amount (loanDecimals market) = Ok 0 ->
     refused (js "Invalid wrap amount"))
    /\ (forall lamports,
          parseTokenAmount amount (loanDecimals market) = Ok lamports ->
          2 ^ 53 <= lamports ->
          refused (js "Amount too large"))
    /\ (trim amount <> [] -> ~ Regex.Matches decimal_re (trim amount) ->
        refused (js "Invalid amount format")).
Proof.
  intros connection wallet market amount Hne refused. unfold refused.
  split; [| split].
  - intros Hp.
    apply (handleWrapSol_refused _ _ _ _ (new_Error "Invalid wrap amount") Hne).
    unfold wrap_steps. now rewrite Hp, !pbind_plift_Ok.
  - intros lamports Hp Hbig.
    apply (handleWrapSol_refused _ _ _ _ (new_Error "Amount too large") Hne).
    unfold wrap_steps. rewrite Hp, pbind_plift_Ok. unfold BN_toNumber.
    destruct (Z.ltb_spec (Z.abs lamports) (2 ^ 53)); [lia | reflexivity].
  - intros Hblank Hm.
    apply (handleWrapSol_refused _ _ _ _ (new_Error "Invalid amount format") Hne).
    unfold wrap_steps. rewrite parseTokenAmount_nonempty by exact Hblank.
    apply test_false_iff in Hm. now rewrite Hm.
Qed.

Lemma parse_zero_lamports : parseTokenAmount (js "0.0") 9 = Ok 0.
Proof. vm_compute. reflexivity. Qed.

Lemma handleWrapSol_refuses_witness :
  js "0.0" <> []
  /\ handleWrapSol native_connection (Some example_wallet) sol_market (js "0.0")
     = ([ SetWrapping true;
          Core (ToastLoading (js "Wrapping SOL..."));
          Core (ToastError (js "Wrap failed") (js "Invalid wrap amount"));
          SetWrapping false ],
        Ok tt).
Proof.
  assert (Hne : js "0.0" <> []) by discriminate.
  split; [exact Hne |].
  exact (proj1 (handleWrapSol_refuses native_connection example_wallet
                  sol_market (js "0.0") Hne) parse_zero_lamports).
Defined.

(** X17.  A wrap of an amount that parses to [lamports], positive and
    below [2^53], for a wallet whose wrapped-SOL account is derived, the
    native mint existing: the one transaction handed to the wallet
    creates that account when it is missing, transfers exactly
    [lamports] from the wallet to it, and synchronises it; the transfer
    carries the amount as 64 little-endian bits, which read back give
    [lamports]; should the node reject the lookup of that account,
    nothing is handed to the wallet. *)
Theorem handleWrapSol_transfers_parsed_amount :
  forall (connection : Connection) (wallet : AnchorWallet)
         (market : SupplyMarket) (amount : jsstring) (lamports : Z)
         (mintInfo : AccountInfo) (ata : PublicKey),
    amount <> [] ->
    parseTokenAmount amount (loanDecimals market) = Ok lamports ->
    0 < lamports < 2 ^ 53 ->
    accountInfo connection NATIVE_MINT = Ok (Some mintInfo) ->
    getAssociatedTokenAddressSync NATIVE_MINT (publicKey wallet) false
      (token_program_of mintInfo) ASSOCIATED_TOKEN_PROGRAM_ID = Ok ata ->
    page_submitted (fst (handleWrapSol connection (Some wallet) market amount))
    = match accountInfo connection ata with
      | Ok tokenAccount =>
          [ mkTransaction (Some (publicKey wallet))
              (match tokenAccount with
               | Some _ => []
               | None =>
                   [createAssociatedTokenAccountInstruction
                      (publicKey wallet) ata (publicKey wallet) NATIVE_MINT
                      (token_program_of mintInfo) ASSOCIATED_TOKEN_PROGRAM_ID]
               end
               ++ [ SystemProgram_transfer (publicKey wallet) ata lamports;
                    createSyncNativeInstruction ata ]) ]
      | Throw _ => []
      end
    /\ transfer_lamports (SystemProgram_transfer (publicKey wallet) ata lamports)
       = Some lamports.
Proof.
  intros connection wallet market amount lamports mintInfo ata
         Hne Hp Hrange Hmint Hata.
  split.
  - rewrite handleWrapSol_started by exact Hne.
    rewrite !page_submitted_pbind.
    cbn [pemit fst snd page_submitted flat_map app].
    rewrite page_submitted_ptry by reflexivity.
    unfold wrap_steps. rewrite Hp, pbind_plift_Ok. unfold BN_toNumber.
    destruct (Z.ltb_spec (Z.abs lamports) (2 ^ 53)); [| lia].
    rewrite pbind_plift_Ok.
    rewrite buildWrapSolInstructions_positive by exact Hrange.
    rewrite (getOrCreateAtaIx_looked_up _ _ _ _ _ _ Hmint Hata).
    destruct (accountInfo connection ata) as [tokenAccount | e];
      [| reflexivity].
    rewrite page_submitted_of_async. unfold abind, aret. cbn [fst snd].
    rewrite app_nil_r. cbn [submitted flat_map app ata_address ata_instruction].
    rewrite page_submitted_of_async, submitted_sendInstructions.
    cbn [wrap_instructions]. rewrite present_map_Some.
    destruct tokenAccount; cbn [present app];
      destruct (snd (sendInstructions _ _ _)); reflexivity.
  - unfold transfer_lamports, SystemProgram_transfer.
    change (skipn 4 (le_bytes 4 2 ++ le_bytes 8 lamports))
      with (le_bytes 8 lamports).
    f_equal. apply le_bytes_roundtrip. change (256 ^ Z.of_nat 8) with (2 ^ 64).
    lia.
Qed.

Lemma parse_half_sol : parseTokenAmount (js "0.5") 9 = Ok 500000000.
Proof. vm_compute. reflexivity. Qed.

Lemma handleWrapSol_transfers_parsed_amount_witness :
  js "0.5" <> []
  /\ 0 < 500000000 < 2 ^ 53
  /\ page_submitted (fst (handleWrapSol native_connection (Some example_wallet)
                            sol_market (js "0.5")))
     = [ mkTransaction (Some (publicKey example_wallet))
           [ createAssociatedTokenAccountInstruction
               (publicKey example_wallet) example_wrapped_account
               (publicKey example_wallet) NATIVE_MINT
               TOKEN_PROGRAM_ID ASSOCIATED_TOKEN_PROGRAM_ID;
             SystemProgram_transfer (publicKey example_wallet)
               example_wrapped_account 500000000;
             createSyncNativeInstruction example_wrapped_account ] ].
Proof.
  assert (Hne : js "0.5" <> []) by discriminate.
  assert (Hr : 0 < 500000000 < 2 ^ 53) by (split; reflexivity).
  split; [exact Hne |]. split; [exact Hr |].
  exact (proj1 (handleWrapSol_transfers_parsed_amount native_connection
                  example_wallet sol_market (js "0.5") 500000000
                  (mkAccountInfo TOKEN_PROGRAM_ID 1461600 [] false)
                  example_wrapped_account
                  Hne parse_half_sol Hr eq_refl native_ata_derived)).
Defined.

(** ** Creating a position *)

(** X18.  [handleCreatePosition] for a connected wallet whose position
    address is derived: when the node reports an account at that address
    the handler says 'Position already exists' and hands nothing to the
    wallet; when it reports none, the one transaction handed to the
    wallet holds the [createPosition] instruction alone, the wallet being
    payer and owner; and when the lookup is rejected the handler shows
    the failure and hands nothing to the wallet. *)
Theorem handleCreatePosition_outcome :
  forall (connection : Connection) (wallet : AnchorWallet)
         (marketIdBuffer : list Z) (marketKey position : PublicKey) (bump : Z),
    getPositionPDA marketIdBuffer (publicKey wallet) = Ok (position, bump) ->
    (forall info,
        accountInfo connection position = Ok (Some info) ->
        handleCreatePosition connection (Some wallet) marketIdBuffer marketKey
        = ([ SetCreatingPosition true;
             Core (ToastLoading (js "Creating position..."));
             Core (GetAccountInfo position);
             ToastInfo (js "Position already exists");
             SetCreatingPosition false ],
           Ok tt))
    /\ (accountInfo connection position = Ok None ->
        page_submitted
          (fst (handleCreatePosition connection (Some wallet) marketIdBuffer
                  marketKey))
        = [ mkTransaction (Some (publicKey wallet))
              [ MethodInstruction "createPosition"
                  [ArgBytes marketIdBuffer]
                  [ ("payer", publicKey wallet);
                    ("owner", publicKey wallet);
                    ("market", marketKey);
                    ("position", position);
                    ("systemProgram", SYSTEM_PROGRAM_ID) ]%string ] ])
    /\ (forall e,
          accountInfo connection position = Throw e ->
          handleCreatePosition connection (Some wallet) marketIdBuffer
            marketKey
          = ([ SetCreatingPosition true;
               Core (ToastLoading (js "Creating position..."));
               Core (GetAccountInfo position);
               Core (ToastError (js "Position creation failed") (describe e));
               SetCreatingPosition false ],
             Ok tt)).
Proof.
  intros connection wallet marketIdBuffer marketKey position bump Hpos.
  unfold handleCreatePosition, create_position_steps.
  rewrite (ensurePositionIx_looked_up _ _ marketKey _ (publicKey wallet) _ _
             Hpos).
  split; [| split].
  - intros info Hinfo. rewrite Hinfo. reflexivity.
  - intros Hnone. rewrite Hnone.
    rewrite !page_submitted_pbind.
    cbn [pemit fst snd page_submitted flat_map app].
    rewrite page_submitted_ptry by reflexivity.
    rewrite page_submitted_pbind.
    cbn [of_async fst snd map page_submitted flat_map app position_instruction].
    rewrite page_submitted_of_async, submitted_sendInstructions.
    cbn [present marketIdToArray].
    destruct (snd (sendInstructions _ _ _)); reflexivity.
  - intros e He. rewrite He. reflexivity.
Qed.

Lemma handleCreatePosition_outcome_witness :
  accountInfo token_connection example_position = Ok None
  /\ page_submitted
       (fst (handleCreatePosition token_connection (Some example_wallet)
               example_market_id example_market_key))
     = [ mkTransaction (Some (publicKey example_wallet))
           [ MethodInstruction "createPosition"
               [ArgBytes example_market_id]
               [ ("payer", publicKey example_wallet);
                 ("owner", publicKey example_wallet);
                 ("market", example_market_key);
                 ("position", example_position);
                 ("systemProgram", SYSTEM_PROGRAM_ID) ]%string ] ].
Proof.
  split; [reflexivity |].
  exact (proj1 (proj2 (handleCreatePosition_outcome token_connection
                         example_wallet example_market_id example_market_key
                         example_position 255 example_position_derived))
           eq_refl).
Defined.

(** ** Liquidating *)

(** Two mints resolve to the same token program exactly when both are
    owned by the Token-2022 program or neither is. *)
Lemma token_program_of_same a b :
  token_program_of a = token_program_of b
  <-> (owner a = TOKEN_2022_PROGRAM_ID <-> owner b = TOKEN_2022_PROGRAM_ID).
Proof.
  unfold token_program_of.
  destruct (equals (owner a) TOKEN_2022_PROGRAM_ID) eqn:A;
    destruct (equals (owner b) TOKEN_2022_PROGRAM_ID) eqn:B.
  - apply equals_iff in A, B. tauto.
  - apply equals_iff in A.
    split.
    + intros H. exfalso. revert H. vm_compute. discriminate.
    + intros [H _]. apply H, equals_iff in A. congruence.
  - apply equals_iff in B.
    split.
    + intros H. exfalso. revert H. vm_compute. discriminate.
    + intros [_ H]. apply H, equals_iff in B. congruence.
  - split; [| reflexivity]. intros _.
    split; intros H; apply equals_iff in H; congruence.
Qed.

(** What [handleLiquidation] hands to the wallet, by the outcome of
    each of its steps. *)
Lemma handleLiquidation_submitted connection w pos market seizedAmount :
  seizedAmount <> [] ->
  let marketId := Buffer_from_array (market_marketId market) in
  page_submitted (fst (handleLiquidation connection (Some w) (Some pos)
                         (Some market) seizedAmount)) =
  match getLoanVaultPDA marketId,
        getCollateralVaultPDA marketId,
        getPositionPDA marketId (position_owner pos),
        snd (getOrCreateAtaIx connection (publicKey w) (publicKey w)
               (market_loanMint market)),
        snd (getOrCreateAtaIx connection (publicKey w) (publicKey w)
               (market_collateralMint market))
  with
  | Ok loanVault, Ok collateralVault, Ok borrowerPosition,
    Ok loanAta, Ok collateralAta =>
      if equals (ata_tokenProgramId loanAta) (ata_tokenProgramId collateralAta)
      then
        match parseTokenAmount seizedAmount (market_loanDecimals market) with
        | Ok seizedAssets =>
            [ mkTransaction (Some (publicKey w))
                (present [ata_instruction loanAta;
                          ata_instruction collateralAta]
                 ++ [ MethodInstruction "liquidate"
                        [ArgBytes marketId; ArgBN seizedAssets]
                        [ ("liquidator", publicKey w);
                          ("market", market_key market);
                          ("borrowerPosition", fst borrowerPosition);
                          ("borrower", position_owner pos);
                          ("oracle", market_oracle market);
                          ("liquidatorLoanAccount", ata_address loanAta);
                          ("liquidatorCollateralAccount",
                           ata_address collateralAta);
                          ("loanVault", fst loanVault);
                          ("collateralVault", fst collateralVault);
                          ("loanMint", market_loanMint market);
                          ("collateralMint", market_collateralMint market);
                          ("tokenProgram", ata_tokenProgramId loanAta)
                        ]%string ]) ]
        | Throw _ => []
        end
      else []
  | _, _, _, _, _ => []
  end.
Proof.
  intros Hne marketId.
  unfold handleLiquidation. destruct seizedAmount as [| c r]; [congruence |].
  rewrite !page_submitted_pbind. cbn [pemit fst snd page_submitted flat_map app].
  rewrite page_submitted_ptry by reflexivity.
  unfold liquidation_steps. cbv zeta. fold marketId.
  destruct (getLoanVaultPDA marketId) as [loanVault | e1];
    [rewrite pbind_plift_Ok | reflexivity].
  destruct (getCollateralVaultPDA marketId) as [collateralVault | e2];
    [rewrite pbind_plift_Ok | reflexivity].
  destruct (getPositionPDA marketId (position_owner pos))
    as [borrowerPosition | e3]; [rewrite pbind_plift_Ok | reflexivity].
  rewrite page_submitted_of_async, submitted_getOrCreateAtaIx. cbn [app].
  destruct (snd (getOrCreateAtaIx connection (publicKey w) (publicKey w)
                   (market_loanMint market))) as [loanAta | e4];
    [| reflexivity].
  rewrite page_submitted_of_async, submitted_getOrCreateAtaIx. cbn [app].
  destruct (snd (getOrCreateAtaIx connection (publicKey w) (publicKey w)
                   (market_collateralMint market))) as [collateralAta | e5];
    [| reflexivity].
  destruct (equals (ata_tokenProgramId loanAta)
                   (ata_tokenProgramId collateralAta)); [| reflexivity].
  cbn [negb].
  destruct (parseTokenAmount (c :: r) (market_loanDecimals market))
    as [seizedAssets | e6]; [rewrite pbind_plift_Ok | reflexivity].
  rewrite page_submitted_of_async, submitted_send_after_two.
  unfold marketIdToArray.
  destruct (snd (sendInstructions _ _ _)); reflexivity.
Qed.

(** X21.  Whatever the node answers, a transaction [handleLiquidation]
    hands to the wallet is the only one of the run.  A wallet, a position
    and its market were selected; the two vaults and the borrower's
    position were derived; both mints exist, and either both are owned by
    the Token-2022 program or neither is, so that both resolve to the
    same token program: a liquidation across token programs reaches no
    wallet.  The wallet pays the fee, and the transaction holds the
    creation of the liquidator's loan token account when the node
    reported none there, then that of the collateral token account when
    the node reported none there, then the one [liquidate] instruction
    and nothing else.  The instruction carries the bytes of the selected
    market's id and the seized amount parsed with the loan asset's
    decimals; it names the selected position's owner as borrower, the
    wallet as liquidator and the token program of the loan mint. *)
Theorem handleLiquidation_instruction :
  forall (connection : Connection) (wallet : option AnchorWallet)
         (selectedPos : option OnChainPosition)
         (market : option OnChainMarket) (seizedAmount : jsstring)
         (tx : Transaction),
    In tx (page_submitted
             (fst (handleLiquidation connection wallet selectedPos market
                     seizedAmount))) ->
    page_submitted
      (fst (handleLiquidation connection wallet selectedPos market
              seizedAmount)) = [tx]
    /\ exists w pos m loanVault loanVaultBump collateralVault
              collateralVaultBump borrowerPosition positionBump
              loanInfo collateralInfo loanAta collateralAta
              loanAccount collateralAccount seizedAssets,
         wallet = Some w /\ selectedPos = Some pos /\ market = Some m
         /\ getLoanVaultPDA (Buffer_from_array (market_marketId m))
            = Ok (loanVault, loanVaultBump)
         /\ getCollateralVaultPDA (Buffer_from_array (market_marketId m))
            = Ok (collateralVault, collateralVaultBump)
         /\ getPositionPDA (Buffer_from_array (market_marketId m))
              (position_owner pos)
            = Ok (borrowerPosition, positionBump)
         /\ accountInfo connection (market_loanMint m) = Ok (Some loanInfo)
         /\ accountInfo connection (market_collateralMint m)
            = Ok (Some collateralInfo)
         /\ (owner loanInfo = TOKEN_2022_PROGRAM_ID
             <-> owner collateralInfo = TOKEN_2022_PROGRAM_ID)
         /\ token_program_of collateralInfo = token_program_of loanInfo
         /\ getAssociatedTokenAddressSync (market_loanMint m) (publicKey w)
              false (token_program_of loanInfo) ASSOCIATED_TOKEN_PROGRAM_ID
            = Ok loanAta
         /\ getAssociatedTokenAddressSync (market_collateralMint m)
              (publicKey w) false (token_program_of collateralInfo)
              ASSOCIATED_TOKEN_PROGRAM_ID
            = Ok collateralAta
         /\ accountInfo connection loanAta = Ok loanAccount
         /\ accountInfo connection collateralAta = Ok collateralAccount
         /\ parseTokenAmount seizedAmount (market_loanDecimals m)
            = Ok seizedAssets
         /\ tx = mkTransaction (Some (publicKey w))
                   (token_account_creation (publicKey w) loanAta
                      (publicKey w) (market_loanMint m)
                      (token_program_of loanInfo) loanAccount
                    ++ token_account_creation (publicKey w) collateralAta
                         (publicKey w) (market_collateralMint m)
                         (token_program_of collateralInfo) collateralAccount
                    ++ [ MethodInstruction "liquidate"
                           [ArgBytes (Buffer_from_array (market_marketId m));
                            ArgBN seizedAssets]
                           [ ("liquidator", publicKey w);
                             ("market", market_key m);
                             ("borrowerPosition", borrowerPosition);
                             ("borrower", position_owner pos);
                             ("oracle", market_oracle m);
                             ("liquidatorLoanAccount", loanAta);
                             ("liquidatorCollateralAccount", collateralAta);
                             ("loanVault", loanVault);
                             ("collateralVault", collateralVault);
                             ("loanMint", market_loanMint m);
                             ("collateralMint", market_collateralMint m);
                             ("tokenProgram", token_program_of loanInfo)
                           ]%string ]).
Proof.
  intros connection wallet selectedPos market seizedAmount tx Hin.
  destruct wallet as [w |]; [| destruct Hin].
  destruct selectedPos as [pos |]; [| destruct Hin].
  destruct market as [m |]; [| destruct Hin].
  destruct seizedAmount as [| c r]; [destruct Hin |].
  rewrite handleLiquidation_submitted in Hin |- * by discriminate.
  cbv zeta in Hin |- *.
  destruct (getLoanVaultPDA _) as [[loanVault loanVaultBump] |] eqn:Hlv;
    [| destruct Hin].
  destruct (getCollateralVaultPDA _)
    as [[collateralVault collateralVaultBump] |] eqn:Hcv; [| destruct Hin].
  destruct (getPositionPDA _ _) as [[borrowerPosition positionBump] |] eqn:Hbp;
    [| destruct Hin].
  destruct (snd (getOrCreateAtaIx connection (publicKey w) (publicKey w)
                   (market_loanMint m))) as [loanRes |] eqn:HL;
    [| destruct Hin].
  destruct (snd (getOrCreateAtaIx connection (publicKey w) (publicKey w)
                   (market_collateralMint m))) as [collateralRes |] eqn:HC;
    [| destruct Hin].
  destruct (equals (ata_tokenProgramId loanRes)
                   (ata_tokenProgramId collateralRes)) eqn:E;
    [| destruct Hin].
  destruct (parseTokenAmount (c :: r) (market_loanDecimals m))
    as [seizedAssets |] eqn:P; [| destruct Hin].
  apply getOrCreateAtaIx_Ok in HL
    as (loanInfo & loanAta & loanAccount & HLm & HLd & HLa & ELa & ELp & ELc).
  apply getOrCreateAtaIx_Ok in HC
    as (collateralInfo & collateralAta & collateralAccount
        & HCm & HCd & HCa & ECa & ECp & ECc).
  apply equals_iff in E. rewrite ELp, ECp in E.
  assert (Hboth : present [ata_instruction loanRes;
                           ata_instruction collateralRes]
                  = present [ata_instruction loanRes]
                    ++ present [ata_instruction collateralRes])
    by (now destruct (ata_instruction loanRes),
                     (ata_instruction collateralRes)).
  rewrite Hboth, ELa, ELp, ELc, ECa, ECc in Hin |- *.
  cbn [fst] in Hin |- *. rewrite <- app_assoc in Hin |- *.
  destruct Hin as [<- | []]. split; [reflexivity |].
  pose proof (proj1 (token_program_of_same loanInfo collateralInfo) E)
    as Hown.
  symmetry in E.
  exists w, pos, m, loanVault, loanVaultBump, collateralVault,
    collateralVaultBump, borrowerPosition, positionBump, loanInfo,
    collateralInfo, loanAta, collateralAta, loanAccount, collateralAccount,
    seizedAssets.
  repeat match goal with |- _ /\ _ => split end;
    first [reflexivity | eassumption].
Qed.

Lemma example_collateral_vault_derived :
  getCollateralVaultPDA example_market_id = Ok (example_collateral_vault, 255).
Proof. vm_compute. reflexivity. Qed.

Lemma handleLiquidation_instruction_witness :
  page_submitted
    (fst (handleLiquidation funded_connection (Some example_wallet)
            (Some market_position) (Some fetched_market) (js "1")))
  = [ mkTransaction (Some (publicKey example_wallet))
        [ MethodInstruction "liquidate"
            [ArgBytes example_market_id; ArgBN 1000000]
            example_liquidate_accounts ] ].
Proof.
  assert (Hrun : page_submitted
            (fst (handleLiquidation funded_connection (Some example_wallet)
                    (Some market_position) (Some fetched_market) (js "1")))
          = [ mkTransaction (Some (publicKey example_wallet))
                [ MethodInstruction "liquidate"
                    [ArgBytes example_market_id; ArgBN 1000000]
                    example_liquidate_accounts ] ]).
  { rewrite handleLiquidation_submitted by discriminate. cbv zeta.
    change (Buffer_from_array (market_marketId fetched_market))
      with example_market_id.
    change (position_owner market_position) with (publicKey example_wallet).
    change (market_loanMint fetched_market) with example_mint.
    change (market_collateralMint fetched_market) with example_mint.
    change (market_loanDecimals fetched_market) with 6.
    rewrite example_loan_vault_derived, example_collateral_vault_derived,
      example_position_derived, funded_ata_resolved.
    cbn [snd ata_tokenProgramId]. rewrite equals_refl, parse_one_token.
    reflexivity. }
  apply (handleLiquidation_instruction funded_connection (Some example_wallet)
           (Some market_position) (Some fetched_market) (js "1")).
  rewrite Hrun. now left.
Defined.

(** ** What no handler does *)

Lemma integer_is_decimal s :
  Regex.Matches integer_re s -> Regex.Matches decimal_re s.
Proof.
  intros H. apply decimal_re_shape. left. now apply integer_re_shape.
Qed.

(** X19.  An amount that is neither blank nor a decimal numeral reaches
    no wallet: whatever the node answers, [handleSupply], [handleRepay]
    in either mode, [executeFlashLoan] of any kind, [handleWrapSol] and
    [handleLiquidation] hand no transaction over. *)
Theorem malformed_amount_reaches_no_wallet :
  forall (connection : Connection) (wallet : option AnchorWallet)
         (market : SupplyMarket) (marketId : list Z) (marketKey : PublicKey)
         (amount : jsstring),
    trim amount <> [] ->
    ~ Regex.Matches decimal_re (trim amount) ->
    submitted (fst (handleSupply connection wallet market marketId marketKey
                      amount)) = []
    /\ (forall positionExists mode,
          page_submitted
            (fst (handleRepay connection wallet market marketId marketKey
                    positionExists mode amount)) = [])
    /\ (forall type,
          page_submitted
            (fst (executeFlashLoan connection wallet market marketId marketKey
                    amount type)) = [])
    /\ page_submitted (fst (handleWrapSol connection wallet market amount)) = []
    /\ (forall selectedPos selected,
          page_submitted
            (fst (handleLiquidation connection wallet selectedPos selected
                    amount)) = []).
Proof.
  intros connection wallet market marketId marketKey amount Hblank Hm.
  assert (Hp : forall d, parseTokenAmount amount d
                         = Throw (new_Error "Invalid amount format")).
  { intros d. rewrite parseTokenAmount_nonempty by exact Hblank.
    apply test_false_iff in Hm. now rewrite Hm. }
  assert (Hi : parseIntegerAmount amount
               = Throw (new_Error "Invalid integer amount")).
  { unfold parseIntegerAmount.
    assert (Hn : ~ Regex.Matches integer_re (trim amount))
      by (intros C; apply Hm, integer_is_decimal, C).
    apply test_false_iff in Hn. now rewrite Hn. }
  assert (Hne : amount <> []) by (intros ->; now apply Hblank).
  destruct wallet as [w |]; [| repeat split; intros; reflexivity].
  split; [| split; [| split; [| split]]].
  - rewrite handleSupply_submitted by exact Hne. rewrite Hp.
    destruct (getLoanVaultPDA marketId); [| reflexivity].
    destruct (snd (getOrCreateAtaIx _ _ _ _)); [| reflexivity].
    now destruct (snd (ensurePositionIx _ _ _ _ _)).
  - intros [|] mode.
    + rewrite handleRepay_submitted by exact Hne. rewrite Hp, Hi.
      destruct (getLoanVaultPDA marketId); [| reflexivity].
      destruct (getPositionPDA marketId (publicKey w)); [| reflexivity].
      destruct (snd (getOrCreateAtaIx _ _ _ _)); [| reflexivity].
      destruct mode; [reflexivity |]. now rewrite parse_zero_shares.
    + unfold handleRepay. now destruct amount.
  - intros type. rewrite executeFlashLoan_submitted by exact Hne. rewrite Hp.
    destruct (getLoanVaultPDA marketId); [| reflexivity].
    now destruct (snd (getOrCreateAtaIx _ _ _ _)).
  - rewrite handleWrapSol_started by exact Hne.
    unfold wrap_steps. rewrite Hp. reflexivity.
  - intros [pos |] [m |]; try reflexivity.
    rewrite handleLiquidation_submitted by exact Hne. cbv zeta.
    rewrite Hp.
    destruct (getLoanVaultPDA _); [| reflexivity].
    destruct (getCollateralVaultPDA _); [| reflexivity].
    destruct (getPositionPDA _ _); [| reflexivity].
    destruct (snd (getOrCreateAtaIx _ _ _ (market_loanMint m)));
      [| reflexivity].
    destruct (snd (getOrCreateAtaIx _ _ _ (market_collateralMint m)));
      [| reflexivity].
    now destruct (equals _ _).
Qed.

Lemma malformed_amount_reaches_no_wallet_witness :
  trim (js "1e5") <> []
  /\ ~ Regex.Matches decimal_re (trim (js "1e5"))
  /\ submitted (fst (handleSupply token_connection (Some example_wallet)
                       example_market example_market_id example_market_key
                       (js "1e5"))) = [].
Proof.
  assert (Hne : trim (js "1e5") <> []) by discriminate.
  assert (Hm : ~ Regex.Matches decimal_re (trim (js "1e5")))
    by (apply test_false_iff; reflexivity).
  split; [exact Hne |]. split; [exact Hm |].
  exact (proj1 (malformed_amount_reaches_no_wallet token_connection
                  (Some example_wallet) example_market example_market_id
                  example_market_key (js "1e5") Hne Hm)).
Defined.

Lemma submitted_sendInstructions_length connection wallet ixs :
  (length (submitted (fst (sendInstructions connection wallet ixs))) <= 1)%nat.
Proof.
  rewrite submitted_sendInstructions. destruct (present ixs); cbn; lia.
Qed.

Lemma submitted_buildWrapSolInstructions connection payer owner lamports :
  submitted (fst (buildWrapSolInstructions connection payer owner lamports)) = [].
Proof.
  unfold buildWrapSolInstructions.
  destruct (negb (Number_isSafeInteger lamports) || (lamports <=? 0));
    [reflexivity |].
  rewrite submitted_abind, submitted_getOrCreateAtaIx.
  now destruct (snd (getOrCreateAtaIx _ _ _ _)).
Qed.

Lemma handleWrapSol_submitted_length connection wallet market amount :
  (length (page_submitted (fst (handleWrapSol connection wallet market amount)))
   <= 1)%nat.
Proof.
  destruct wallet as [w |]; [| cbn; lia].
  destruct amount as [| c amount]; [cbn; lia |].
  rewrite handleWrapSol_started by discriminate.
  rewrite !page_submitted_pbind.
  cbn [pemit fst snd page_submitted flat_map app].
  rewrite page_submitted_ptry by reflexivity.
  unfold wrap_steps.
  destruct (parseTokenAmount (c :: amount) (loanDecimals market)) as [v |];
    [rewrite pbind_plift_Ok | cbn; lia].
  destruct (BN_toNumber v) as [n |]; [rewrite pbind_plift_Ok | cbn; lia].
  rewrite page_submitted_of_async, submitted_buildWrapSolInstructions.
  cbn [app].
  destruct (snd (buildWrapSolInstructions _ _ _ _)) as [built |]; [| cbn; lia].
  rewrite page_submitted_of_async.
  destruct (snd (sendInstructions _ _ _)); cbn [pemit fst page_submitted flat_map];
    rewrite app_nil_r; apply submitted_sendInstructions_length.
Qed.

Lemma handleCreatePosition_submitted_length connection wallet marketId marketKey :
  (length (page_submitted
             (fst (handleCreatePosition connection wallet marketId marketKey)))
   <= 1)%nat.
Proof.
  destruct wallet as [w |]; [| cbn; lia].
  unfold handleCreatePosition.
  rewrite !page_submitted_pbind.
  cbn [pemit fst snd page_submitted flat_map app].
  rewrite page_submitted_ptry by reflexivity.
  unfold create_position_steps.
  rewrite page_submitted_of_async, submitted_ensurePositionIx. cbn [app].
  destruct (snd (ensurePositionIx _ _ _ _ _)) as [ensured |]; [| cbn; lia].
  destruct (position_instruction ensured) as [ix |]; [| cbn; lia].
  rewrite page_submitted_of_async.
  destruct (snd (sendInstructions _ _ _)); cbn [pemit fst page_submitted flat_map];
    rewrite app_nil_r; apply submitted_sendInstructions_length.
Qed.

(** X20.  No handler of the market page or of the liquidations page
    hands the wallet more than one transaction in a run, whatever the
    node and the wallet answer. *)
Theorem handlers_submit_at_most_once :
  forall (connection : Connection) (wallet : option AnchorWallet)
         (market : SupplyMarket) (marketId : list Z) (marketKey : PublicKey)
         (amount : jsstring),
    (length (submitted (fst (handleSupply connection wallet market marketId
                               marketKey amount))) <= 1)%nat
    /\ (forall positionExists mode,
          (length (page_submitted
                     (fst (handleRepay connection wallet market marketId
                             marketKey positionExists mode amount))) <= 1)%nat)
    /\ (forall type,
          (length (page_submitted
                     (fst (executeFlashLoan connection wallet market marketId
                             marketKey amount type))) <= 1)%nat)
    /\ (length (page_submitted
                  (fst (handleWrapSol connection wallet market amount))) <= 1)%nat
    /\ (length (page_submitted
                  (fst (handleCreatePosition connection wallet marketId
                          marketKey))) <= 1)%nat
    /\ (forall selectedPos selected,
          (length (page_submitted
                     (fst (handleLiquidation connection wallet selectedPos
                             selected amount))) <= 1)%nat).
Proof.
  intros connection wallet market marketId marketKey amount.
  split; [| split; [| split; [| split; [| split]]]].
  - destruct wallet as [w |]; [| cbn; lia].
    destruct amount as [| c amount]; [cbn; lia |].
    rewrite handleSupply_submitted by discriminate.
    destruct (getLoanVaultPDA marketId); [| cbn; lia].
    destruct (snd (getOrCreateAtaIx _ _ _ _)); [| cbn; lia].
    destruct (snd (ensurePositionIx _ _ _ _ _)); [| cbn; lia].
    destruct (parseTokenAmount _ _); cbn [length]; lia.
  - intros positionExists mode.
    destruct wallet as [w |]; [| cbn; lia].
    destruct amount as [| c amount]; [cbn; lia |].
    destruct positionExists; [| cbn; lia].
    rewrite handleRepay_submitted by discriminate.
    destruct (getLoanVaultPDA marketId); [| cbn; lia].
    destruct (getPositionPDA marketId (publicKey w)); [| cbn; lia].
    destruct (snd (getOrCreateAtaIx _ _ _ _)); [| cbn; lia].
    destruct mode.
    + destruct (parseTokenAmount _ _); [| cbn; lia].
      destruct (parseIntegerAmount _); cbn [length]; lia.
    + destruct (parseIntegerAmount (js "0")); [| cbn; lia].
      destruct (parseIntegerAmount _); cbn [length]; lia.
  - intros type.
    destruct wallet as [w |]; [| cbn; lia].
    destruct amount as [| c amount]; [cbn; lia |].
    rewrite executeFlashLoan_submitted by discriminate.
    destruct (getLoanVaultPDA marketId); [| cbn; lia].
    destruct (snd (getOrCreateAtaIx _ _ _ _)); [| cbn; lia].
    destruct (parseTokenAmount _ _); cbn [length]; lia.
  - apply handleWrapSol_submitted_length.
  - apply handleCreatePosition_submitted_length.
  - intros selectedPos selected.
    destruct wallet as [w |]; [| cbn; lia].
    destruct selectedPos as [pos |]; [| cbn; lia].
    destruct selected as [m |]; [| cbn; lia].
    destruct amount as [| c amount]; [cbn; lia |].
    rewrite handleLiquidation_submitted by discriminate. cbv zeta.
    destruct (getLoanVaultPDA _); [| cbn; lia].
    destruct (getCollateralVaultPDA _); [| cbn; lia].
    destruct (getPositionPDA _ _); [| cbn; lia].
    destruct (snd (getOrCreateAtaIx _ _ _ (market_loanMint m))); [| cbn; lia].
    destruct (snd (getOrCreateAtaIx _ _ _ (market_collateralMint m)));
      [| cbn; lia].
    destruct (equals _ _); [| cbn; lia].
    destruct (parseTokenAmount _ _); cbn [length]; lia.
Qed.

(** ** Test vectors *)

Example sha256_abc :
  hex_encode (sha256 (js "abc"))
  = js "ba7816bf8f01cfea414140de5dae2223b00361a396177a9cb410ff61f20015ad".
Proof. vm_compute. reflexivity. Qed.

Example keccak_empty :
  keccak256 [] = js "c5d2460186f7233c927e7db2dcc703c0e500b653ca82273b7bfad8045d85a470".
Proof. vm_compute. reflexivity. Qed.

Example keccak_abc :
  keccak256 (js "abc") = js "4e03657aea45a94fc7d47ba826c8d667c0d1e6e33a64a036ec44f58fa12d6c45".
Proof. vm_compute. reflexivity. Qed.
